(** * Company research agent: briefing and editor nodes

    A shallow embedding of [backend/nodes/briefing.py] (class [Briefing]),
    [backend/nodes/editor.py] (class [Editor]) and
    [backend/nodes/researchers/revenue.py] (class [NewsScanner]).

    Conventions of the embedding:
    - a Python [str] is a [string]; [len] is taken in [Z], Python integers
      being unbounded;
    - a raised exception is the [Raise] arm of [result]; a
      [try/except Exception] is [Editor.try_except] in the Editor and the
      case analysis of [Briefing.briefing_answer] in the generator;
    - the completion backend and the reference formatter are collaborators:
      what they answer is an argument of the function that calls them, so
      every theorem quantifies over every possible answer, errors included;
    - [send_status_update] appends a [StatusEvent] to a log and does not
      raise (delivery is fire-and-forget);
    - a finite evaluation score is a rational number ([Q]); what
      [float(...)] can do with the stored value, return a finite number,
      an infinity or a NaN, or raise, are the arms of [float_outcome];
    - [sorted] on keys that are numbers is the stable sort into
      descending order; with a NaN among the keys the comparisons are no
      order and the list [sorted] returns depends on its algorithm: the
      model leaves that list open ([Sorting]), so what is proved holds
      for every one;
    - a value stored in a document under ['title'], ['raw_content'] or
      ['content'] is [None] or a [str], as in the JSON the documents come
      from, and the value under ['evaluation'] is [None] or a dictionary;
    - one [ascii] of a [string] stands for one character of a Python
      [str]; no statement depends on which characters count as white
      space beyond the space and the line break. *)

From Stdlib Require Import List String Ascii ZArith QArith Qminmax Lia Bool.
From Stdlib Require Import Permutation Sorted DecimalString.
Import ListNotations.

Local Open Scope Z_scope.
Local Open Scope list_scope.

(* ------------------------------------------------------------------ *)
(** ** Python values and strings *)

Inductive exn : Type :=
| ValueError
| TypeError
| AttributeError
| BackendError
| FormatterError.

Inductive result (A : Type) : Type :=
| Ok (a : A)
| Raise (e : exn).
Arguments Ok {A} a.
Arguments Raise {A} e.

Definition is_ok {A} (r : result A) : bool :=
  match r with Ok _ => true | Raise _ => false end.

Module Py.

Definition len (s : string) : Z := Z.of_nat (String.length s).

(** [s[:n]] *)
Definition slice_to (n : nat) (s : string) : string := substring 0 n s.

Definition nl : string := String (ascii_of_nat 10) EmptyString.

(** [bool(s)] for a string. *)
Definition truthy (s : string) : bool :=
  match s with EmptyString => false | String _ _ => true end.

(** [a or b] on strings. *)
Definition str_or (a b : string) : string := if truthy a then a else b.

(** [str.isspace] on one character: the ASCII white space, the four
    separators 0x1c..0x1f, NEL and the no-break space. *)
Definition is_space (c : ascii) : bool :=
  let n := nat_of_ascii c in
  ((9 <=? n)%nat && (n <=? 13)%nat) || ((28 <=? n)%nat && (n <=? 32)%nat)
  || (n =? 133)%nat || (n =? 160)%nat.

Fixpoint lstrip (s : string) : string :=
  match s with
  | EmptyString => EmptyString
  | String c s' => if is_space c then lstrip s' else s
  end.

Fixpoint rstrip (s : string) : string :=
  match s with
  | EmptyString => EmptyString
  | String c s' =>
      match rstrip s' with
      | EmptyString => if is_space c then EmptyString else String c EmptyString
      | r => String c r
      end
  end.

Definition strip (s : string) : string := rstrip (lstrip s).

(** [sep.join(l)] *)
Definition join (sep : string) (l : list string) : string := String.concat sep l.

(** [str(n)] for a non-negative integer. *)
Definition str_of_nat (n : nat) : string := NilZero.string_of_uint (Nat.to_uint n).

(** [c in s] for a character. *)
Fixpoint contains (c : ascii) (s : string) : bool :=
  match s with
  | EmptyString => false
  | String c' s' => Ascii.eqb c c' || contains c s'
  end.

Fixpoint replicate (n : nat) (c : ascii) : string :=
  match n with
  | O => EmptyString
  | S n' => String c (replicate n' c)
  end.

Definition sum_len (l : list string) : Z := fold_right (fun s acc => len s + acc) 0 l.

End Py.


(* ------------------------------------------------------------------ *)
(** ** Data model *)

(** What [float(v)] does with the value [v] stored under
    ['overall_score']: it returns a finite number, an infinity or a NaN
    (as for ['inf'] and ['nan']), or it raises. *)
Inductive float_outcome : Type :=
| FloatOk (q : Q)
| FloatInf (negative : bool)
| FloatNaN
| FloatRaises (e : exn).

(** A float that is a number, and a float as a sort key. *)
Inductive Num : Type :=
| Fin (q : Q)
| Inf (negative : bool).

Inductive Key : Type :=
| Number (n : Num)
| NaN.

(** [a <= b] and [a == b] on floats that are numbers. *)
Definition num_le (a b : Num) : bool :=
  match a, b with
  | Inf true, _ => true
  | _, Inf false => true
  | Fin p, Fin q => Qle_bool p q
  | _, _ => false
  end.

Definition num_eqb (a b : Num) : bool := num_le a b && num_le b a.

(** The ['evaluation'] sub-dictionary of a document. *)
Record Evaluation : Type := { overall_score : option float_outcome }.

(** What a dictionary holds under a key: nothing (the key is absent),
    [None], or a value. *)
Inductive Stored (A : Type) : Type :=
| Absent
| StoredNone
| Value (a : A).
Arguments Absent {A}.
Arguments StoredNone {A}.
Arguments Value {A} a.

(** A document dictionary.  The url is only ever read as the first
    component of an item, which nothing looks at: for it [None] is an
    absent key. *)
Record Document : Type := {
  url : option string;
  title : Stored string;
  raw_content : Stored string;
  content : Stored string;
  evaluation : Stored Evaluation
}.

(** [sorted(keys, reverse=True)] when a key is a NaN: the positions of
    the input in the order of the output.  The output is a rearrangement
    of the input; which one is not fixed here. *)
Class Sorting : Type := {
  sorted_order : list Key -> list nat;
  sorted_order_perm :
    forall keys, Permutation (sorted_order keys) (seq 0 (List.length keys))
}.

(** [Union[Dict[str, Any], List[Dict[str, Any]]]]: a dictionary in
    insertion order, or a list. *)
Inductive Docs : Type :=
| DictDocs (d : list (string * Document))
| ListDocs (l : list Document).

Inductive Payload : Type :=
| PStep (step : string) (substep : option string)
| PBriefingStart (category : string) (total_docs : nat)
| PBriefingComplete (category : string)
| PChunk (chunk : string)
| PEditorComplete (report company : string).

Record StatusEvent : Type := {
  ev_job_id : string;
  ev_status : string;
  ev_message : string;
  ev_result : Payload
}.

(** The answer of one non-streaming completion call: the call raises, or
    it returns a message whose [content] may be [None]. *)
Inductive backend_response : Type :=
| BackendRaises (e : exn)
| BackendReturns (message_content : option string).

(** One item pulled from a streaming completion: a chunk with its
    [finish_reason] and [delta.content], or an error raised by the
    iterator. *)
Inductive StreamItem : Type :=
| Chunk (finish_reason : option string) (delta_content : option string)
| StreamRaises (e : exn).

Inductive stream_response : Type :=
| CreateRaises (e : exn)
| Stream (items : list StreamItem).

(** [self.openai_client]: system message and user prompt to answer.  The
    first argument of [chat_create] tells the calls of one run apart, the
    backend being free to answer the same prompt differently. *)
Record Client : Type := {
  chat_create : nat -> list (string * string) -> backend_response;
  chat_stream : list (string * string) -> stream_response
}.

Inductive Category : Type := Company | Revenue | Financial | Industry.

(** The value stored under ['editor']: absent, something that is not a
    dictionary, or a dictionary, of which only the ['report'] entry is
    ever written. *)
Inductive EditorSlot : Type :=
| EditorAbsent
| EditorNotDict
| EditorDict (editor_report : option string).

(** [ResearchState]; [None] is an absent key. *)
Record ResearchState : Type := {
  company : option string;
  industry : option string;
  hq_location : option string;
  websocket_manager : bool;
  job_id : option string;
  curated_company_data : option Docs;
  curated_revenue_data : option Docs;
  curated_financial_data : option Docs;
  curated_industry_data : option Docs;
  company_briefing : option string;
  revenue_briefing : option string;
  financial_briefing : option string;
  industry_briefing : option string;
  briefings : option (list (string * string));
  references : list string;
  reference_info : list (string * string);
  reference_titles : list (string * string);
  messages : option (list string);
  report : option string;
  status : option string;
  editor : EditorSlot
}.

Definition set_company_briefing (v : string) (s : ResearchState) : ResearchState :=
  {| company := company s; industry := industry s; hq_location := hq_location s;
     websocket_manager := websocket_manager s; job_id := job_id s;
     curated_company_data := curated_company_data s;
     curated_revenue_data := curated_revenue_data s;
     curated_financial_data := curated_financial_data s;
     curated_industry_data := curated_industry_data s;
     company_briefing := Some v; revenue_briefing := revenue_briefing s;
     financial_briefing := financial_briefing s;
     industry_briefing := industry_briefing s; briefings := briefings s;
     references := references s; reference_info := reference_info s;
     reference_titles := reference_titles s; messages := messages s;
     report := report s; status := status s; editor := editor s |}.

Definition set_revenue_briefing (v : string) (s : ResearchState) : ResearchState :=
  {| company := company s; industry := industry s; hq_location := hq_location s;
     websocket_manager := websocket_manager s; job_id := job_id s;
     curated_company_data := curated_company_data s;
     curated_revenue_data := curated_revenue_data s;
     curated_financial_data := curated_financial_data s;
     curated_industry_data := curated_industry_data s;
     company_briefing := company_briefing s; revenue_briefing := Some v;
     financial_briefing := financial_briefing s;
     industry_briefing := industry_briefing s; briefings := briefings s;
     references := references s; reference_info := reference_info s;
     reference_titles := reference_titles s; messages := messages s;
     report := report s; status := status s; editor := editor s |}.

Definition set_financial_briefing (v : string) (s : ResearchState) : ResearchState :=
  {| company := company s; industry := industry s; hq_location := hq_location s;
     websocket_manager := websocket_manager s; job_id := job_id s;
     curated_company_data := curated_company_data s;
     curated_revenue_data := curated_revenue_data s;
     curated_financial_data := curated_financial_data s;
     curated_industry_data := curated_industry_data s;
     company_briefing := company_briefing s; revenue_briefing := revenue_briefing s;
     financial_briefing := Some v;
     industry_briefing := industry_briefing s; briefings := briefings s;
     references := references s; reference_info := reference_info s;
     reference_titles := reference_titles s; messages := messages s;
     report := report s; status := status s; editor := editor s |}.

Definition set_industry_briefing (v : string) (s : ResearchState) : ResearchState :=
  {| company := company s; industry := industry s; hq_location := hq_location s;
     websocket_manager := websocket_manager s; job_id := job_id s;
     curated_company_data := curated_company_data s;
     curated_revenue_data := curated_revenue_data s;
     curated_financial_data := curated_financial_data s;
     curated_industry_data := curated_industry_data s;
     company_briefing := company_briefing s; revenue_briefing := revenue_briefing s;
     financial_briefing := financial_briefing s;
     industry_briefing := Some v; briefings := briefings s;
     references := references s; reference_info := reference_info s;
     reference_titles := reference_titles s; messages := messages s;
     report := report s; status := status s; editor := editor s |}.

Definition set_briefings (v : list (string * string)) (s : ResearchState) : ResearchState :=
  {| company := company s; industry := industry s; hq_location := hq_location s;
     websocket_manager := websocket_manager s; job_id := job_id s;
     curated_company_data := curated_company_data s;
     curated_revenue_data := curated_revenue_data s;
     curated_financial_data := curated_financial_data s;
     curated_industry_data := curated_industry_data s;
     company_briefing := company_briefing s; revenue_briefing := revenue_briefing s;
     financial_briefing := financial_briefing s;
     industry_briefing := industry_briefing s; briefings := Some v;
     references := references s; reference_info := reference_info s;
     reference_titles := reference_titles s; messages := messages s;
     report := report s; status := status s; editor := editor s |}.

Definition set_messages (v : list string) (s : ResearchState) : ResearchState :=
  {| company := company s; industry := industry s; hq_location := hq_location s;
     websocket_manager := websocket_manager s; job_id := job_id s;
     curated_company_data := curated_company_data s;
     curated_revenue_data := curated_revenue_data s;
     curated_financial_data := curated_financial_data s;
     curated_industry_data := curated_industry_data s;
     company_briefing := company_briefing s; revenue_briefing := revenue_briefing s;
     financial_briefing := financial_briefing s;
     industry_briefing := industry_briefing s; briefings := briefings s;
     references := references s; reference_info := reference_info s;
     reference_titles := reference_titles s; messages := Some v;
     report := report s; status := status s; editor := editor s |}.

Definition set_report (v : string) (s : ResearchState) : ResearchState :=
  {| company := company s; industry := industry s; hq_location := hq_location s;
     websocket_manager := websocket_manager s; job_id := job_id s;
     curated_company_data := curated_company_data s;
     curated_revenue_data := curated_revenue_data s;
     curated_financial_data := curated_financial_data s;
     curated_industry_data := curated_industry_data s;
     company_briefing := company_briefing s; revenue_briefing := revenue_briefing s;
     financial_briefing := financial_briefing s;
     industry_briefing := industry_briefing s; briefings := briefings s;
     references := references s; reference_info := reference_info s;
     reference_titles := reference_titles s; messages := messages s;
     report := Some v; status := status s; editor := editor s |}.

Definition set_status (v : string) (s : ResearchState) : ResearchState :=
  {| company := company s; industry := industry s; hq_location := hq_location s;
     websocket_manager := websocket_manager s; job_id := job_id s;
     curated_company_data := curated_company_data s;
     curated_revenue_data := curated_revenue_data s;
     curated_financial_data := curated_financial_data s;
     curated_industry_data := curated_industry_data s;
     company_briefing := company_briefing s; revenue_briefing := revenue_briefing s;
     financial_briefing := financial_briefing s;
     industry_briefing := industry_briefing s; briefings := briefings s;
     references := references s; reference_info := reference_info s;
     reference_titles := reference_titles s; messages := messages s;
     report := report s; status := Some v; editor := editor s |}.

Definition set_editor (v : EditorSlot) (s : ResearchState) : ResearchState :=
  {| company := company s; industry := industry s; hq_location := hq_location s;
     websocket_manager := websocket_manager s; job_id := job_id s;
     curated_company_data := curated_company_data s;
     curated_revenue_data := curated_revenue_data s;
     curated_financial_data := curated_financial_data s;
     curated_industry_data := curated_industry_data s;
     company_briefing := company_briefing s; revenue_briefing := revenue_briefing s;
     financial_briefing := financial_briefing s;
     industry_briefing := industry_briefing s; briefings := briefings s;
     references := references s; reference_info := reference_info s;
     reference_titles := reference_titles s; messages := messages s;
     report := report s; status := status s; editor := v |}.

(** [d.get(k, default)] *)
Definition get_or {A} (o : option A) (default : A) : A :=
  match o with Some a => a | None => default end.

(** A [job_id] that passes [if job_id]. *)
Definition truthy_job (j : option string) : option string :=
  match j with
  | Some s => if Py.truthy s then Some s else None
  | None => None
  end.

(** The guarded call
    [if websocket_manager: if job_id: await websocket_manager.send_status_update(...)]. *)
Definition notify (ws : bool) (job : option string) (st msg : string) (p : Payload)
    (log : list StatusEvent) : list StatusEvent :=
  if ws then
    match truthy_job job with
    | Some j => log ++ [ {| ev_job_id := j; ev_status := st; ev_message := msg; ev_result := p |} ]
    | None => log
    end
  else log.

(** [d[k] = v] on a dictionary kept in insertion order. *)
Fixpoint dict_set (k v : string) (d : list (string * string)) : list (string * string) :=
  match d with
  | [] => [(k, v)]
  | (k', v') :: d' => if String.eqb k k' then (k, v) :: d' else (k', v') :: dict_set k v d'
  end.


(* ------------------------------------------------------------------ *)
(** ** [class Briefing] *)

Module Briefing.

Local Open Scope string_scope.

(** [self.max_doc_length] *)
Definition max_doc_length : Z := 12000.

(** The literal bound of the [if] that guards [doc_texts.append]. *)
Definition total_budget : Z := 140000.

Definition truncation_marker : string := "... [content truncated]".

(** The table [prompts] of category templates. *)
Definition prompts (company industry : string) (category : string) : option string :=
  if category =? "company" then Some ("为" ++ company ++ "公司生成一份简明公司概况，该公司属于" ++ industry ++ "行业。
关键要求：
1. 以以下格式开头：“" ++ company ++ "是一家[什么类型的公司]，其主要业务是[做什么]，面向的客户是[谁]”
2. 使用以下标题和项目符号组织结构，标题必须完全一致：

### 核心产品/服务
* 列出明确的产品或功能
* 仅包含经验证的技术能力

### 管理团队
* 列出主要管理团队成员
* 包括他们的职位和专业背景

### 目标市场
* 列出明确的目标用户群体
* 列出经验证的使用场景
* 列出已确认的客户/合作伙伴

### 核心差异化
* 列出独特的功能或特性
* 列出经过验证的优势

### 商业模式
* 说明产品/服务的定价方式
* 列出销售/分销渠道

3. 每个项目符号必须是一个完整的、可核实的事实
4. 禁止使用“未找到信息”或“暂无数据”等措辞
5. 只允许使用项目符号列表，不允许使用段落
6. 仅提供简报内容，不提供任何解释或评论。")
  else if category =? "industry" then Some ("为" ++ company ++ "公司生成一份聚焦行业的简报，该公司属于" ++ industry ++ "行业。
关键要求：
1. 使用以下标题和项目符号组织结构，标题必须完全一致：

### 市场概况
* 明确" ++ company ++ "所在的市场细分领域
* 给出市场规模及对应年份
* 给出市场增长率及对应年份范围

### 直接竞争对手
* 列出直接竞争对手名称
* 列出具体的竞争产品
* 列出它们在市场上的定位

### 竞争优势
• 列出独特的技术特性
• 列出经过验证的优势

### 市场挑战
• 列出具体、可验证的挑战

2. 每个项目符号都必须是一个明确的、可验证的新闻事件
3. 只允许使用项目符号列表，不允许使用段落
4. 禁止使用“未找到信息”或“暂无数据”等措辞
5. 仅提供简报内容，不提供任何解释。")
  else if category =? "financial" then Some ("为" ++ company ++ "公司生成一份聚焦财务信息的简报，该公司属于" ++ industry ++ "行业。
关键要求：
1. 使用以下标题和项目符号组织结构：

### 融资与投资
* 总融资金额及对应时间
* 每一轮融资信息及时间
* 列出参与的投资者名称

### 收入模式
* 如果适用，请说明产品/服务的定价方式

2. 尽可能包含具体数值
3. 只允许使用项目符号列表，不允许使用段落
4. 禁止使用“未找到信息”或“暂无数据”等措辞
5. 严禁重复记录同一个融资轮次；如果同月发生多轮融资，默认合并为一轮
6. 严禁使用融资金额区间。请根据提供的信息自行判断并给出一个具体数值
7. 仅提供简报内容，不提供任何解释或评论。")
  else if category =? "revenue" then Some ("为" ++ company ++ "公司生成一份聚焦公司不同类型业务收入及其占比的简报，该公司属于" ++ industry ++ "行业。

关键要求：
1. 使用以下标题和项目符号组织结构：

### 收入构成
* 按业务板块或产品线列出具体收入及占总收入的百分比
* 如有可用信息，注明各业务的收入变化趋势（按年或季度）

### 最新财报摘要
* 引用最近一次财务报告中披露的核心收入数据
* 包括总收入及同比增长率
* 可包括地区收入分布（如适用）

2. 尽可能包含具体数值和时间点
3. 只允许使用项目符号列表，不允许使用段落
4. 禁止使用“未找到信息”或“暂无数据”等措辞
5. 严禁使用收入范围。请根据已知信息判断并给出具体数值
6. 仅提供简报内容，不提供任何解释或评论。
")
  else None.

(** The fallback template of [prompts.get(category, ...)]. *)
Definition default_prompt (company industry : string) : string :=
  "请根据所提供的文档，为公司 " ++ company ++ " 在 " ++ industry ++ " 行业中的情况撰写一份有重点、具洞察力的研究简报。".

Definition prompt_instruction : string :=
  " 
请分析以下文档，提取关键信息，仅输出研究简报内容，不要包含解释或评论：
".

Definition prompt_tail : string :=
  "

".

(** The [context] dictionary as [create_briefings] builds it. *)
Record Context : Type := {
  ctx_company : string;
  ctx_industry : string;
  ctx_hq_location : string;
  ctx_websocket_manager : bool;
  ctx_job_id : option string
}.

(** The dictionary [{'content': ...}] that the generator returns. *)
Record BriefingResult : Type := { result_content : string }.

(** [len(docs)] *)
Definition docs_len (docs : Docs) : nat :=
  match docs with
  | DictDocs d => List.length d
  | ListDocs l => List.length l
  end.

(** [enumerate(docs)], with the key each document gets:
    [doc.get('url', f'doc_{i}')]. *)
Fixpoint enumerate_items (i : nat) (l : list Document) : list (string * Document) :=
  match l with
  | [] => []
  | doc :: rest =>
      (get_or (url doc) ("doc_" ++ Py.str_of_nat i), doc) :: enumerate_items (S i) rest
  end.

(** [items]: the dataset as a list of [(url, doc)] pairs. *)
Definition items (docs : Docs) : list (string * Document) :=
  match docs with
  | DictDocs d => d
  | ListDocs l => enumerate_items 0 l
  end.

(** The sort key
    [float(x[1].get('evaluation', {}).get('overall_score', '0'))]; a
    stored [None] has no [get]. *)
Definition sort_key (x : string * Document) : result Key :=
  match evaluation (snd x) with
  | Absent => Ok (Number (Fin 0))
  | StoredNone => Raise AttributeError
  | Value ev =>
      match overall_score ev with
      | None => Ok (Number (Fin 0))
      | Some (FloatOk q) => Ok (Number (Fin q))
      | Some (FloatInf negative) => Ok (Number (Inf negative))
      | Some FloatNaN => Ok NaN
      | Some (FloatRaises e) => Raise e
      end
  end.

(** [sorted] first computes the key of every item, in order; the first key
    that raises ends the call. *)
Fixpoint keyed (l : list (string * Document)) : result (list (Key * (string * Document))) :=
  match l with
  | [] => Ok []
  | x :: rest =>
      match sort_key x with
      | Raise e => Raise e
      | Ok k =>
          match keyed rest with
          | Raise e => Raise e
          | Ok r => Ok ((k, x) :: r)
          end
      end
  end.

(** The keys as numbers, when none of them is a NaN. *)
Fixpoint numbers {A} (l : list (Key * A)) : option (list (Num * A)) :=
  match l with
  | [] => Some []
  | (Number n, a) :: rest =>
      match numbers rest with
      | Some r => Some ((n, a) :: r)
      | None => None
      end
  | (NaN, _) :: _ => None
  end.

(** [sorted(..., reverse=True)] on keys that are numbers is a stable sort
    into descending key order: an item goes in front of the first item
    whose key is not greater than its own, so items with equal keys keep
    their order. *)
Fixpoint insert_desc {A} (x : Num * A) (l : list (Num * A)) : list (Num * A) :=
  match l with
  | [] => [x]
  | y :: l' => if num_le (fst y) (fst x) then x :: l else y :: insert_desc x l'
  end.

Fixpoint sort_desc {A} (l : list (Num * A)) : list (Num * A) :=
  match l with
  | [] => []
  | x :: l' => insert_desc x (sort_desc l')
  end.

(** The items at the given positions, in that order. *)
Definition reorder {A} (order : list nat) (l : list A) : list A :=
  flat_map (fun i => match nth_error l i with Some a => [a] | None => [] end) order.

(** [doc.get('title', '')] as the f-string prints it. *)
Definition title_text (doc : Document) : string :=
  match title doc with
  | Absent => ""
  | StoredNone => "None"
  | Value s => s
  end.

(** [doc.get('raw_content') or doc.get('content', '')]: a text, or
    [None], which here is Python's [None]. *)
Definition doc_content (doc : Document) : option string :=
  let second :=
    match content doc with
    | Absent => Some ""
    | StoredNone => None
    | Value s => Some s
    end in
  match raw_content doc with
  | Value s => if Py.truthy s then Some s else second
  | _ => second
  end.

(** The cut at [self.max_doc_length], with its marker. *)
Definition truncate (c : string) : string :=
  if (Py.len c >? max_doc_length)%Z
  then Py.slice_to (Z.to_nat max_doc_length) c ++ truncation_marker
  else c.

(** The block of a document with the given title and content. *)
Definition block (title content : string) : string :=
  "Title: " ++ title ++ Py.nl ++ Py.nl ++ "Content: " ++ truncate content.

(** [doc_entry]: the block of one document; [len(content)] raises when
    the content is [None]. *)
Definition doc_entry (doc : Document) : result string :=
  match doc_content doc with
  | None => Raise TypeError
  | Some c => Ok (block (title_text doc) c)
  end.

(** The [for] loop over [sorted_items], with its two variables
    [doc_texts] and [total_length]; the [else] arm is the [break]. *)
Fixpoint budget_loop (l : list (string * Document)) (doc_texts : list string)
    (total_length : Z) : result (list string * Z) :=
  match l with
  | [] => Ok (doc_texts, total_length)
  | (_, doc) :: rest =>
      match doc_entry doc with
      | Raise e => Raise e
      | Ok e =>
          if (total_length + Py.len e <? total_budget)%Z
          then budget_loop rest (doc_texts ++ [e])%list (total_length + Py.len e)%Z
          else Ok (doc_texts, total_length)
      end
  end.

(** [doc_texts] when the loop over the ranked items has ended. *)
Definition collect_blocks (l : list (string * Document)) : result (list string) :=
  match budget_loop l [] 0%Z with
  | Raise e => Raise e
  | Ok (doc_texts, _) => Ok doc_texts
  end.

Section Ranked.
Context {py : Sorting}.

(** [sorted_items] *)
Definition sorted_items (docs : Docs) : result (list (string * Document)) :=
  match keyed (items docs) with
  | Raise e => Raise e
  | Ok ks =>
      Ok (match numbers ks with
          | Some ns => map snd (sort_desc ns)
          | None => reorder (sorted_order (map fst ks)) (map snd ks)
          end)
  end.

(** The Selector: [doc_texts] as the generator has it when the loop ends. *)
Definition select_documents (docs : Docs) : result (list string) :=
  match sorted_items docs with
  | Raise e => Raise e
  | Ok l => collect_blocks l
  end.

Definition separator : string := Py.nl ++ Py.replicate 40 "-" ++ Py.nl.

Definition build_prompt (category : string) (ctx : Context) (doc_texts : list string) : string :=
  get_or (prompts (ctx_company ctx) (ctx_industry ctx) category)
         (default_prompt (ctx_company ctx) (ctx_industry ctx))
    ++ prompt_instruction
    ++ separator ++ Py.join separator doc_texts ++ separator
    ++ prompt_tail.

(** The first part of [generate_category_briefing]: the start event. *)
Definition briefing_start (docs : Docs) (category : string) (ctx : Context)
    (log : list StatusEvent) : list StatusEvent :=
  notify (ctx_websocket_manager ctx) (ctx_job_id ctx) "briefing_start"
    ("Generating " ++ category ++ " briefing")
    (PBriefingStart category (docs_len docs)) log.

(** The second part: everything between the start event and the [try]. *)
Definition briefing_prompt (docs : Docs) (category : string) (ctx : Context) : result string :=
  match select_documents docs with
  | Raise e => Raise e
  | Ok doc_texts => Ok (build_prompt category ctx doc_texts)
  end.

(** The [try ... except Exception] block, once the backend has answered.
    [.strip()] on a [None] content raises inside the [try], so it ends in
    the handler like an error of the call. *)
Definition briefing_answer (category : string) (ctx : Context) (resp : backend_response)
    (log : list StatusEvent) : list StatusEvent * BriefingResult :=
  match resp with
  | BackendRaises _ => (log, {| result_content := "" |})
  | BackendReturns None => (log, {| result_content := "" |})
  | BackendReturns (Some text) =>
      let c := Py.strip text in
      if Py.truthy c
      then (notify (ctx_websocket_manager ctx) (ctx_job_id ctx) "briefing_complete"
              ("Completed " ++ category ++ " briefing") (PBriefingComplete category) log,
            {| result_content := c |})
      else (log, {| result_content := "" |})
  end.

(** [generate_category_briefing]; [call] numbers the backend call. *)
Definition generate_category_briefing (client : Client) (call : nat)
    (docs : Docs) (category : string) (ctx : Context)
    (log : list StatusEvent) : list StatusEvent * result BriefingResult :=
  let log1 := briefing_start docs category ctx log in
  match briefing_prompt docs category ctx with
  | Raise e => (log1, Raise e)
  | Ok prompt =>
      let (log2, r) :=
        briefing_answer category ctx (chat_create client call [("user", prompt)]) log1 in
      (log2, Ok r)
  end.

(** *** [create_briefings] *)

(** The table [categories], in its order of iteration. *)
Definition categories : list Category := [Company; Revenue; Financial; Industry].

Definition data_field (c : Category) : string :=
  match c with
  | Company => "company_data"
  | Revenue => "revenue_data"
  | Financial => "financial_data"
  | Industry => "industry_data"
  end.

Definition cat (c : Category) : string :=
  match c with
  | Company => "company"
  | Revenue => "revenue"
  | Financial => "financial"
  | Industry => "industry"
  end.

Definition briefing_key (c : Category) : string := cat c ++ "_briefing".

(** [state.get(f'curated_{data_field}', {})] *)
Definition curated (st : ResearchState) (c : Category) : Docs :=
  get_or (match c with
          | Company => curated_company_data st
          | Revenue => curated_revenue_data st
          | Financial => curated_financial_data st
          | Industry => curated_industry_data st
          end) (DictDocs []).

(** [state[briefing_key]] and [state[briefing_key] = v] *)
Definition get_briefing (c : Category) (st : ResearchState) : option string :=
  match c with
  | Company => company_briefing st
  | Revenue => revenue_briefing st
  | Financial => financial_briefing st
  | Industry => industry_briefing st
  end.

Definition set_briefing (c : Category) (v : string) (st : ResearchState) : ResearchState :=
  match c with
  | Company => set_company_briefing v st
  | Revenue => set_revenue_briefing v st
  | Financial => set_financial_briefing v st
  | Industry => set_industry_briefing v st
  end.

(** [if curated_data] *)
Definition docs_truthy (d : Docs) : bool :=
  match d with
  | DictDocs [] => false
  | ListDocs [] => false
  | _ => true
  end.

(** One entry of [briefing_tasks]; its ['briefing_key'] and ['data_field']
    are [briefing_key] and [data_field] of its category. *)
Record Task : Type := { category : Category; curated_data : Docs }.

(** The loop that fills [briefing_tasks] and blanks the briefing of a
    category without data. *)
Fixpoint plan (cats : list Category) (st : ResearchState) (briefing_tasks : list Task)
    : ResearchState * list Task :=
  match cats with
  | [] => (st, briefing_tasks)
  | c :: rest =>
      let curated_data := curated st c in
      if docs_truthy curated_data
      then plan rest st (briefing_tasks ++ [ {| category := c; curated_data := curated_data |} ])%list
      else plan rest (set_briefing c "" st) briefing_tasks
  end.

Definition make_context (st : ResearchState) : Context :=
  {| ctx_company := get_or (company st) "Unknown Company";
     ctx_industry := get_or (industry st) "Unknown";
     ctx_hq_location := get_or (hq_location st) "Unknown";
     ctx_websocket_manager := websocket_manager st;
     ctx_job_id := job_id st |}.

(** Where one [process_briefing] coroutine stands.  Control leaves a
    coroutine only at an [await]: entering [async with briefing_semaphore],
    sending the start event, the backend call, sending the completion
    event. *)
Inductive Pc : Type :=
| Queued                          (* before [async with briefing_semaphore] *)
| Entered                        (* holds a slot, generator not yet started *)
| InFlight (prompt : string)      (* holds a slot, backend call pending *)
| Responded (r : BriefingResult)  (* holds a slot, generator has returned *)
| Finished (success : bool) (length : Z)
| Crashed (e : exn).

(** The orchestrator while [asyncio.gather] runs: the value of the
    semaphore, the coroutines, and what they share. *)
Record Orch : Type := {
  semaphore : nat;
  pcs : list Pc;
  o_state : ResearchState;
  o_briefings : list (string * string);
  o_log : list StatusEvent;
  o_raised : option exn
}.

Fixpoint set_nth {A} (i : nat) (a : A) (l : list A) : list A :=
  match l, i with
  | [], _ => []
  | _ :: l', O => a :: l'
  | x :: l', S i' => x :: set_nth i' a l'
  end.

Definition holds_slot (p : Pc) : bool :=
  match p with
  | Entered | InFlight _ | Responded _ => true
  | _ => false
  end.

Definition is_in_flight (p : Pc) : bool :=
  match p with InFlight _ => true | _ => false end.

Definition is_queued (p : Pc) : bool :=
  match p with Queued => true | _ => false end.

Definition is_done (p : Pc) : bool :=
  match p with Finished _ _ | Crashed _ => true | _ => false end.

Definition is_finished (p : Pc) : bool :=
  match p with Finished _ _ => true | _ => false end.

(** How many coroutines hold a slot, and how many backend calls are
    pending. *)
Definition holders (o : Orch) : nat := List.length (filter holds_slot (pcs o)).
Definition in_flight (o : Orch) : nat := List.length (filter is_in_flight (pcs o)).

(** One scheduling step: coroutine [i] runs up to its next [await].
    [None]: coroutine [i] cannot run (it waits for a slot, or it is over).
    Which of several waiting coroutines takes a slot that is free is left
    to the schedule; asyncio serves them in their order of arrival, which
    is one of the schedules. *)
Definition step (client : Client) (ctx : Context) (tasks : list Task) (i : nat) (o : Orch)
    : option Orch :=
  match nth_error tasks i, nth_error (pcs o) i with
  | Some task, Some Queued =>
      match semaphore o with
      | O => None
      | S v =>
          Some {| semaphore := v; pcs := set_nth i Entered (pcs o);
                  o_state := o_state o; o_briefings := o_briefings o;
                  o_log := o_log o; o_raised := o_raised o |}
      end
  | Some task, Some Entered =>
      let log1 := briefing_start (curated_data task) (cat (category task)) ctx (o_log o) in
      match briefing_prompt (curated_data task) (cat (category task)) ctx with
      | Raise e =>
          (* the exception leaves [async with], which gives the slot back *)
          Some {| semaphore := S (semaphore o); pcs := set_nth i (Crashed e) (pcs o);
                  o_state := o_state o; o_briefings := o_briefings o;
                  o_log := log1;
                  o_raised := match o_raised o with Some e0 => Some e0 | None => Some e end |}
      | Ok prompt =>
          Some {| semaphore := semaphore o; pcs := set_nth i (InFlight prompt) (pcs o);
                  o_state := o_state o; o_briefings := o_briefings o;
                  o_log := log1; o_raised := o_raised o |}
      end
  | Some task, Some (InFlight prompt) =>
      let (log2, r) :=
        briefing_answer (cat (category task)) ctx
          (chat_create client i [("user", prompt)]) (o_log o) in
      Some {| semaphore := semaphore o; pcs := set_nth i (Responded r) (pcs o);
              o_state := o_state o; o_briefings := o_briefings o;
              o_log := log2; o_raised := o_raised o |}
  | Some task, Some (Responded r) =>
      let c := result_content r in
      if Py.truthy c
      then Some {| semaphore := S (semaphore o);
                   pcs := set_nth i (Finished true (Py.len c)) (pcs o);
                   o_state := set_briefing (category task) c (o_state o);
                   o_briefings := dict_set (cat (category task)) c (o_briefings o);
                   o_log := o_log o; o_raised := o_raised o |}
      else Some {| semaphore := S (semaphore o);
                   pcs := set_nth i (Finished false 0) (pcs o);
                   o_state := set_briefing (category task) "" (o_state o);
                   o_briefings := o_briefings o;
                   o_log := o_log o; o_raised := o_raised o |}
  | _, _ => None
  end.

(** [briefings = {}], [asyncio.Semaphore(2)] and one coroutine per task,
    none of them started. *)
Definition enter_gather (tasks : list Task) (st : ResearchState) (log : list StatusEvent)
    : Orch :=
  {| semaphore := 2; pcs := map (fun _ => Queued) tasks; o_state := st;
     o_briefings := []; o_log := log; o_raised := None |}.

(** The synchronous head of [create_briefings]: the first status event,
    the context, the tasks, and the coroutines as [gather] receives them
    under [asyncio.Semaphore(2)]. *)
Definition start (st : ResearchState) : Context * list Task * Orch :=
  let log := notify (websocket_manager st) (job_id st) "processing"
               "Starting research briefings" (PStep "Briefing" None) [] in
  let ctx := make_context st in
  let (st1, tasks) := plan categories st [] in
  (ctx, tasks, enter_gather tasks st1 log).

(** The configurations some interleaving of the coroutines reaches. *)
Inductive reachable (client : Client) (ctx : Context) (tasks : list Task)
    : Orch -> Orch -> Prop :=
| reach_here : forall o, reachable client ctx tasks o o
| reach_step : forall o o1 o2 i,
    reachable client ctx tasks o o1 ->
    step client ctx tasks i o1 = Some o2 ->
    reachable client ctx tasks o o2.

(** Running a given schedule; a coroutine that cannot run is passed over. *)
Fixpoint run_schedule (client : Client) (ctx : Context) (tasks : list Task)
    (schedule : list nat) (o : Orch) : Orch :=
  match schedule with
  | [] => o
  | i :: rest =>
      match step client ctx tasks i o with
      | Some o' => run_schedule client ctx tasks rest o'
      | None => run_schedule client ctx tasks rest o
      end
  end.

(** The tail of [create_briefings]: [gather] re-raises the first exception
    of a coroutine; once every coroutine has returned, the briefings map
    is stored and the state returned.  [None]: still waiting. *)
Definition finish (o : Orch) : option (result ResearchState) :=
  match o_raised o with
  | Some e => Some (Raise e)
  | None =>
      if forallb is_finished (pcs o)
      then Some (Ok (set_briefings (o_briefings o) (o_state o)))
      else None
  end.

(** [create_briefings] under a schedule. *)
Definition create_briefings (client : Client) (schedule : list nat) (st : ResearchState)
    : list StatusEvent * option (result ResearchState) :=
  let '(ctx, tasks, o) := start st in
  let o' := run_schedule client ctx tasks schedule o in
  (o_log o', finish o').

(** A schedule that runs every coroutine to its end: four turns each,
    round after round, as many rounds as a queue of [n] needs. *)
Definition round_robin (n : nat) : list nat :=
  List.concat (repeat (seq 0 n) (4 * n)).

(** The schedule without any overlap: every coroutine runs its four
    steps before the next one starts. *)
Definition sequential (n : nat) : list nat :=
  flat_map (fun i => [i; i; i; i]) (seq 0 n).

End Ranked.

(** The events that name a category in their payload. *)
Definition event_category (e : StatusEvent) : option string :=
  match ev_result e with
  | PBriefingStart c _ => Some c
  | PBriefingComplete c => Some c
  | _ => None
  end.

End Briefing.

(* ------------------------------------------------------------------ *)
(** ** [class Editor] *)

Module Editor.

Local Open Scope string_scope.

(** [format_references_section], of [utils.references]: a collaborator,
    which may raise. *)
Definition Formatter : Type :=
  list string -> list (string * string) -> list (string * string) -> result string.

(** [self.context] *)
Record EditorContext : Type := {
  ectx_company : string;
  ectx_industry : string;
  ectx_hq_location : string
}.

(** What a method can change: the state dictionary, which it mutates in
    place, and the events it has sent. *)
Record World : Type := { w_state : ResearchState; w_log : list StatusEvent }.

(** A method body: it changes the world and returns or raises.  What it
    changed before raising stays changed. *)
Definition M (A : Type) : Type := World -> World * result A.

Definition ret {A} (a : A) : M A := fun w => (w, Ok a).

Definition raise {A} (e : exn) : M A := fun w => (w, Raise e).

Definition bind {A B} (m : M A) (k : A -> M B) : M B :=
  fun w =>
    match m w with
    | (w1, Ok a) => k a w1
    | (w1, Raise e) => (w1, Raise e)
    end.

Notation "x <- m ;; k" := (bind m (fun x => k))
  (at level 61, m at next level, right associativity).
Notation "m ;;; k" := (bind m (fun _ => k))
  (at level 61, right associativity).

(** [try: body except Exception as e: handler] *)
Definition try_except {A} (body : M A) (handler : exn -> M A) : M A :=
  fun w =>
    match body w with
    | (w1, Ok a) => (w1, Ok a)
    | (w1, Raise e) => handler e w1
    end.

Definition lift {A} (r : result A) : M A := fun w => (w, r).

Definition get_state : M ResearchState := fun w => (w, Ok (w_state w)).

Definition update (f : ResearchState -> ResearchState) : M unit :=
  fun w => ({| w_state := f (w_state w); w_log := w_log w |}, Ok tt).

(** The guarded [send_status_update] on the manager and job of the state. *)
Definition send (st msg : string) (p : Payload) : M unit :=
  fun w =>
    ({| w_state := w_state w;
        w_log := notify (websocket_manager (w_state w)) (job_id (w_state w)) st msg p (w_log w) |},
     Ok tt).

(** [await self.openai_client.chat.completions.create(..., stream=False)]
    followed by [response.choices[0].message.content]. *)
Definition completion (client : Client) (messages : list (string * string)) : M string :=
  match chat_create client 0 messages with
  | BackendRaises e => raise e
  | BackendReturns None => raise AttributeError
  | BackendReturns (Some text) => ret text
  end.

(** The same call with [stream=True]: the iterator, if the call returns. *)
Definition completion_stream (client : Client) (messages : list (string * string))
    : M (list StreamItem) :=
  match chat_stream client messages with
  | CreateRaises e => raise e
  | Stream items => ret items
  end.

(** The [prompt] of [compile_content]. *)
Definition compile_prompt (company industry combined_content : string) : string :=
  "你正在撰写一份关于 " ++ company ++ " 的综合研究报告。

以下是收集到的研究简报内容：
" ++ combined_content ++ "

请基于这些内容，撰写一份完整且重点明确的研究报告。该公司是 " ++ industry ++ " 行业的企业。

写作要求：
1. 融合所有部分内容，形成连贯且无重复的叙述；
2. 每一部分的重要信息都需保留；
3. 内容组织要有逻辑，去除过渡性解释或评论性语言；
4. 使用清晰的章节标题和结构进行排版。

⚠️ 请**严格遵循以下文档结构格式**：

# " ++ company ++ " 研究报告

## 公司概况  
[公司相关内容，可包含若干 ### 小节]

## 行业概况  
[行业相关内容，可包含若干 ### 小节]

## 财务概况  
[财务相关内容，可包含若干 ### 小节]

## 营业收入占比概况   
[营业收入占比概况相关内容，可包含若干 ### 小节]

请以**干净的 Markdown 格式**输出完整报告，**不要添加解释说明或评论文字**。
".

Definition compile_system : string :=
  "你是一位专业的报告编辑，擅长将多段研究简报整合为结构清晰、内容全面的公司调研报告。".

(** The [prompt] of [content_sweep]. *)
Definition sweep_prompt (company content : string) : string :=
  "你是一位专业的简报编辑专家。你将收到一份关于「" ++ company ++ "」的报告。
当前报告内容：
" ++ content ++ "

请按如下要求处理报告：

1. 删除冗余或重复的信息  
2. 删除与" ++ company ++ "无关的信息  
3. 删除内容空洞或缺乏实质信息的部分  
4. 删除所有元评论（例如“以下是新闻...”之类的句子）

**严格遵守以下文档结构格式：**

## 公司概况  
[包含子标题（使用 ###）的公司相关内容]

## 行业概况  
[包含子标题（使用 ###）的行业相关内容]

## 财务概况  
[包含子标题（使用 ###）的财务相关内容]

## 营业收入占比概况  
[包含子标题（使用 ###）的营业收入占比情况相关内容]

## 参考  
[MLA 格式的参考文献 —— 保持其原样，**不要修改格式**]

**关键规则：**  
1. 文档必须以标题「# " ++ company ++ "研究报告」开头  
2. 文档只允许使用以下这些顺序和格式的二级标题（##）：
   - ## 公司概况  
   - ## 行业概况  
   - ## 财务概况  
   - ## 营业收入占比概况  
   - ## 参考  
3. 不允许使用其他任何二级标题（##）  
4. 在 公司概况 / 行业概况 / 财务概况 / 营业收入占比概况  部分中，只能使用三级标题（###）作为小节标题  
5. 严禁使用代码块（```）  
6. 禁止在各部分之间出现超过一个空行  
7. 所有项目符号统一使用「*」  
8. 每个部分或列表前后必须留一个空行  
9. 严禁更改 参考 部分的格式 
10.请在生成报告中的“参考”，**不要直接显示完整的链接地址（如 https://xxx.com/...）。对于每一个链接，请尝试访问该链接（或根据链接路径推测标题），获取网页的中文标题或最有代表性的名称（如“诺和诺德官网”、“Nai500：诺和诺德股价深度回调”）。
   然后用 Markdown 语法 [标题文本](链接地址) 进行引用。示例：错误示例：https://nai500.com/zh-hans/blog/2025/04/%E8%AF%BA...   正确示例：[诺和诺德股价深度回调后值得买入吗](https://nai500.com/zh-hans/blog/2025/04/诺和诺德...)



返回整理后的报告，要求以**完美的 Markdown 格式输出**，不附加任何解释或说明。
".

Definition sweep_system : string :=
  "你是一位专业的 Markdown 格式化专家，擅长统一文档结构，确保格式清晰、一致、规范。".

Definition blank_line : string := Py.nl ++ Py.nl.

(** [compile_content] *)
Definition compile_content (fmt : Formatter) (client : Client) (self_context : EditorContext)
    (briefings : list (string * string)) (company : string) : M string :=
  let combined_content := Py.join blank_line (map snd briefings) in
  state <- get_state ;;
  reference_text <-
    match references state with
    | [] => ret ""
    | refs => lift (fmt refs (reference_info state) (reference_titles state))
    end ;;
  let company := ectx_company self_context in
  let industry := ectx_industry self_context in
  let prompt := compile_prompt company industry combined_content in
  try_except
    (text <- completion client [("system", compile_system); ("user", prompt)] ;;
     let initial_report := Py.strip text in
     ret (if Py.truthy reference_text
          then initial_report ++ blank_line ++ reference_text
          else initial_report))
    (fun _ => ret (Py.strip (Py.str_or combined_content ""))).

(** [any(char in buffer for char in ['.', '!', '?', '\n'])] *)
Definition has_break (buffer : string) : bool :=
  Py.contains "." buffer || Py.contains "!" buffer || Py.contains "?" buffer
  || Py.contains (ascii_of_nat 10) buffer.

Definition is_stop (finish_reason : option string) : bool :=
  match finish_reason with
  | Some r => r =? "stop"
  | None => false
  end.

Definition send_chunk (buffer : string) : M unit :=
  send "report_chunk" "Formatting final report" (PChunk buffer).

(** The [async for chunk in response] loop with its two variables. *)
Fixpoint stream_loop (response : list StreamItem) (accumulated_text buffer : string)
    : M string :=
  match response with
  | [] => ret accumulated_text
  | StreamRaises e :: _ => raise e
  | Chunk finish_reason chunk_text :: rest =>
      if is_stop finish_reason
      then (if Py.truthy buffer then send_chunk buffer else ret tt) ;;;
           ret accumulated_text
      else
        match chunk_text with
        | None => stream_loop rest accumulated_text buffer
        | Some t =>
            if Py.truthy t
            then
              let accumulated_text := accumulated_text ++ t in
              let buffer := buffer ++ t in
              if has_break buffer && (Py.len buffer >? 10)%Z
              then send_chunk buffer ;;; stream_loop rest accumulated_text ""
              else stream_loop rest accumulated_text buffer
            else stream_loop rest accumulated_text buffer
        end
  end.

(** [content_sweep] *)
Definition content_sweep (client : Client) (self_context : EditorContext)
    (content : string) (company : string) : M string :=
  let company := ectx_company self_context in
  let prompt := sweep_prompt company content in
  try_except
    (response <- completion_stream client [("system", sweep_system); ("user", prompt)] ;;
     accumulated_text <- stream_loop response "" "" ;;
     ret (Py.strip (Py.str_or accumulated_text "")))
    (fun _ => ret (Py.strip (Py.str_or content ""))).

(** The two writes
    [if 'editor' not in state or not isinstance(state['editor'], dict): state['editor'] = {}]
    and [state['editor']['report'] = v]. *)
Definition mirror_report (v : string) (st : ResearchState) : ResearchState :=
  set_editor (EditorDict (Some v)) st.

(** [edit_report] *)
Definition edit_report (fmt : Formatter) (client : Client) (self_context : EditorContext)
    (briefings : list (string * string)) : M string :=
  try_except
    (let company := ectx_company self_context in
     send "processing" "Compiling initial research report"
          (PStep "Editor" (Some "compilation")) ;;;
     edited_report <- compile_content fmt client self_context briefings company ;;
     if negb (Py.truthy edited_report) then ret ""
     else
       send "processing" "Cleaning up and organizing report"
            (PStep "Editor" (Some "cleanup")) ;;;
       send "processing" "Formatting final report"
            (PStep "Editor" (Some "format")) ;;;
       final_report <- content_sweep client self_context edited_report company ;;
       let final_report := Py.str_or final_report "" in
       if negb (Py.truthy (Py.strip final_report)) then ret ""
       else
         update (set_report final_report) ;;;
         update (set_status "editor_complete") ;;;
         update (mirror_report final_report) ;;;
         send "editor_complete" "Research report completed"
              (PEditorComplete final_report company) ;;;
         ret final_report)
    (fun _ => ret "").

(** The table [briefing_keys], in its order of iteration. *)
Definition briefing_keys : list Category := [Company; Industry; Financial; Revenue].

(** The loop over [briefing_keys]: the briefings found, and the lines it
    adds to [msg]. *)
Fixpoint collect (keys : list Category) (state : ResearchState)
    (individual_briefings : list (string * string)) (msg : list string)
    : list (string * string) * list string :=
  match keys with
  | [] => (individual_briefings, msg)
  | c :: rest =>
      let content := get_or (Briefing.get_briefing c state) "" in
      let found := "Found " ++ Briefing.cat c ++ " briefing ("
                     ++ Py.str_of_nat (String.length content) ++ " characters)" in
      let missing := "No " ++ Briefing.cat c ++ " briefing available" in
      if Py.truthy content
      then collect rest state
             (individual_briefings ++ [(Briefing.cat c, content)])%list
             (msg ++ [found])%list
      else collect rest state individual_briefings (msg ++ [missing])%list
  end.

(** [state.setdefault('messages', []).append(AIMessage(content=text))] *)
Definition append_message (text : string) (st : ResearchState) : ResearchState :=
  set_messages (get_or (messages st) [] ++ [text])%list st.

(** [compile_briefings]; the state it returns is the state of the world. *)
Definition compile_briefings (fmt : Formatter) (client : Client) : M unit :=
  state <- get_state ;;
  let company := get_or (company state) "Unknown Company" in
  let self_context :=
    {| ectx_company := company;
       ectx_industry := get_or (industry state) "Unknown";
       ectx_hq_location := get_or (hq_location state) "Unknown" |} in
  send "processing" ("Starting report compilation for " ++ company)
       (PStep "Editor" (Some "initialization")) ;;;
  let msg := ["📑 Compiling final report for " ++ company ++ "..."] in
  send "processing" "Collecting section briefings"
       (PStep "Editor" (Some "collecting_briefings")) ;;;
  let (individual_briefings, msg) := collect briefing_keys state [] msg in
  msg <-
    match individual_briefings with
    | [] =>
        let warning := Py.nl ++ "⚠️ No briefing sections available to compile" in
        ret (msg ++ [warning])%list
    | _ =>
        try_except
          (compiled_report <- edit_report fmt client self_context individual_briefings ;;
           ret tt)
          (fun _ => ret tt) ;;;
        ret msg
    end ;;
  update (append_message (Py.join Py.nl msg)).

(** [run] *)
Definition run (fmt : Formatter) (client : Client) : M unit :=
  compile_briefings fmt client ;;;
  state <- get_state ;;
  match report state with
  | Some r => update (mirror_report r)
  | None => ret tt
  end.

End Editor.

(* ------------------------------------------------------------------ *)
(** ** Vocabulary of the statements *)

Module Spec.

Local Open Scope string_scope.

(** The score the specification ranks a document by: the number stored,
    and 0 when nothing is stored or, in the words of the specification,
    when what is stored cannot be parsed. *)
Definition score (x : string * Document) : Num :=
  match Briefing.sort_key x with
  | Ok (Number n) => n
  | _ => Fin 0
  end.

(** No key of the dataset raises: [float] accepts every stored score,
    and no ['evaluation'] is [None]. *)
Definition parseable (docs : Docs) : Prop :=
  Forall (fun x => is_ok (Briefing.sort_key x) = true) (Briefing.items docs).

(** The key is a number: [float] has accepted the stored score and the
    float is not a NaN. *)
Definition is_number (k : result Key) : bool :=
  match k with
  | Ok (Number _) => true
  | _ => false
  end.

(** Every key of the dataset is a number. *)
Definition numeric (docs : Docs) : Prop :=
  Forall (fun x => is_number (Briefing.sort_key x) = true) (Briefing.items docs).

(** No document of the dataset has [None] for its content. *)
Definition has_text (doc : Document) : bool :=
  match Briefing.doc_content doc with
  | Some _ => true
  | None => false
  end.

Definition text_contents (docs : Docs) : Prop :=
  Forall (fun x => has_text (snd x) = true) (Briefing.items docs).

(** The document stores no score: no ['evaluation'], or no
    ['overall_score'] in it. *)
Definition score_missing (doc : Document) : bool :=
  match evaluation doc with
  | Absent => true
  | StoredNone => false
  | Value ev => match overall_score ev with None => true | Some _ => false end
  end.

Definition has_score (n : Num) (x : string * Document) : bool := num_eqb (score x) n.

(** Descending order of the keys of a keyed list, and the test for one
    key. *)
Definition desc_keys {A} (l : list (Num * A)) : Prop :=
  StronglySorted (fun a b => num_le (fst b) (fst a) = true) l.

Definition key_is {A} (n : Num) (y : Num * A) : bool := num_eqb (fst y) n.

(** Pairing every item with its score. *)
Definition with_score (x : string * Document) : Num * (string * Document) := (score x, x).

(** Descending order of scores. *)
Definition descending (l : list (string * Document)) : Prop :=
  StronglySorted (fun a b => num_le (score b) (score a) = true) l.

(** The blocks of a list of items, one per document; the block of a
    document whose content is [None] is the error of [len]. *)
Definition blocks (l : list (string * Document)) : list (result string) :=
  map (fun x => Briefing.doc_entry (snd x)) l.

(** The key is the category name of one of the tasks. *)
Definition of_task (tasks : list Briefing.Task) (k : string) : Prop :=
  exists task, In task tasks /\ k = Briefing.cat (Briefing.category task).

(** Both guards of a status event pass. *)
Definition channel_open (ws : bool) (job : option string) : bool :=
  ws && match truthy_job job with Some _ => true | None => false end.

(** The answer of the backend as a briefing text: trimmed, and empty
    when the call raises or the answer has no content. *)
Definition answer_text (resp : backend_response) : string :=
  match resp with
  | BackendReturns (Some text) => Py.strip text
  | _ => ""
  end.

(** The stream ends in an error: the call raises, or the iterator raises
    before a chunk with [finish_reason == "stop"]. *)
Fixpoint items_raise (l : list StreamItem) : bool :=
  match l with
  | [] => false
  | StreamRaises _ :: _ => true
  | Chunk fr _ :: rest => if Editor.is_stop fr then false else items_raise rest
  end.

Definition stream_raises (r : stream_response) : bool :=
  match r with
  | CreateRaises _ => true
  | Stream l => items_raise l
  end.

(** The text is not blank. *)
Definition non_blank (s : string) : bool := Py.truthy (Py.strip s).

(** The text does not begin, or does not end, with white space. *)
Definition clean_start (s : string) : bool :=
  match s with
  | EmptyString => true
  | String c _ => negb (Py.is_space c)
  end.

Fixpoint clean_end (s : string) : bool :=
  match s with
  | EmptyString => true
  | String c EmptyString => negb (Py.is_space c)
  | String _ s' => clean_end s'
  end.

(** A briefing as the Briefing stage writes it: a trimmed answer that is
    not empty. *)
Definition written_by_briefing (text : string) : Prop :=
  Py.truthy text = true /\ exists answer, text = Py.strip answer.

(** What the Editor may do to the report and to the messages between
    two moments: the messages are as they were, and the report is as it
    was or has become a text that is not blank. *)
Definition report_rule (st st' : ResearchState) : Prop :=
  messages st' = messages st /\
  (report st' = report st \/ exists r, report st' = Some r /\ non_blank r = true).

(** A method body that keeps to [report_rule], whether it returns or
    raises, and one that never raises. *)
Definition keeps {A} (m : Editor.M A) : Prop :=
  forall w, report_rule (Editor.w_state w) (Editor.w_state (fst (m w))).

Definition returns {A} (m : Editor.M A) : Prop :=
  forall w, is_ok (snd (m w)) = true.

(** The first line of the message the Editor adds to the log, and the
    message made of that line and of further lines. *)
Definition announcement (st : ResearchState) : string :=
  "📑 Compiling final report for " ++ get_or (company st) "Unknown Company" ++ "...".

Definition editor_message (st : ResearchState) (lines : list string) : string :=
  Py.join Py.nl (announcement st :: lines).

(** Every event of the list is a chunk of the report. *)
Definition chunks_only (l : list StatusEvent) : Prop :=
  Forall (fun e => ev_status e = "report_chunk") l.

(** The briefings the Editor finds in the state: the ones that are not
    empty, in the order of [briefing_keys]. *)
Definition available_briefings (st : ResearchState) : list (string * string) :=
  map (fun c => (Briefing.cat c, get_or (Briefing.get_briefing c st) ""))
      (filter (fun c => Py.truthy (get_or (Briefing.get_briefing c st) ""))
              Editor.briefing_keys).

End Spec.

(* ------------------------------------------------------------------ *)
(** ** Sample data *)

Module Sample.

Local Open Scope string_scope.

Definition scored (q : Q) : Stored Evaluation :=
  Value {| overall_score := Some (FloatOk q) |}.

Definition doc (u t c : string) (ev : Stored Evaluation) : Document :=
  {| url := Some u; title := Value t; raw_content := Absent; content := Value c;
     evaluation := ev |}.

(** [sorted] leaving a list with a NaN key as it is. *)
Definition as_given : Sorting :=
  {| sorted_order := fun keys => seq 0 (List.length keys);
     sorted_order_perm := fun keys => Permutation_refl _ |}.

(** A document whose content is stored as [None], one whose score is a
    NaN, and one whose score is an infinity. *)
Definition doc_none_content : Document :=
  {| url := Some "docN"; title := Value "Empty page"; raw_content := StoredNone;
     content := StoredNone; evaluation := scored 7 |}.

Definition doc_nan : Document :=
  doc "docQ" "Odd score" "Some text." (Value {| overall_score := Some FloatNaN |}).

Definition doc_inf : Document :=
  doc "docI" "Top score" "Some text." (Value {| overall_score := Some (FloatInf false) |}).

Definition docA : Document := doc "docA" "Annual report" "Founded in 2010." (scored 9).
Definition docB : Document := doc "docB" "Funding round" "Series B of 40M." (scored 5).
Definition docC : Document := doc "docC" "Press release" "New product." Absent.

Definition doc_zero : Document := doc "docZ" "Old note" "Nothing new." (scored 0).

(** A document whose stored score [float] rejects, such as ['n/a']. *)
Definition doc_bad_score : Document :=
  doc "docX" "Blog post" "Some text."
      (Value {| overall_score := Some (FloatRaises ValueError) |}).

(** A document whose title alone is as long as the budget. *)
Definition doc_long_title : Document :=
  doc "docL" (Py.replicate (Z.to_nat 140000) "x") "Some text." (scored 9).

Definition three_docs : Docs := DictDocs [("docB", docB); ("docC", docC); ("docA", docA)].
Definition bad_docs : Docs := ListDocs [doc_bad_score].

Definition ctx_with_channel : Briefing.Context :=
  {| Briefing.ctx_company := "Acme"; Briefing.ctx_industry := "Tools";
     Briefing.ctx_hq_location := "Paris";
     Briefing.ctx_websocket_manager := true; Briefing.ctx_job_id := Some "job-1" |}.

Definition ctx_without_channel : Briefing.Context :=
  {| Briefing.ctx_company := "Acme"; Briefing.ctx_industry := "Tools";
     Briefing.ctx_hq_location := "Paris";
     Briefing.ctx_websocket_manager := false; Briefing.ctx_job_id := None |}.

(** A backend that answers every call with the same text, and one that
    fails every call. *)
Definition client_ok : Client :=
  {| chat_create := fun _ _ => BackendReturns (Some "* fact");
     chat_stream := fun _ => Stream [Chunk None (Some "# Acme"); Chunk (Some "stop") None] |}.

Definition client_down : Client :=
  {| chat_create := fun _ _ => BackendRaises BackendError;
     chat_stream := fun _ => CreateRaises BackendError |}.

Definition fmt_none : Editor.Formatter := fun _ _ _ => Ok "".

Definition empty_state : ResearchState :=
  {| company := Some "Acme"; industry := Some "Tools"; hq_location := Some "Paris";
     websocket_manager := true; job_id := Some "job-1";
     curated_company_data := None; curated_revenue_data := None;
     curated_financial_data := None; curated_industry_data := None;
     company_briefing := None; revenue_briefing := None;
     financial_briefing := None; industry_briefing := None;
     briefings := None; references := []; reference_info := [];
     reference_titles := []; messages := None; report := None; status := None;
     editor := EditorAbsent |}.

(** The state of the example: company and financial data, the two other
    datasets empty. *)
Definition example_state : ResearchState :=
  {| company := Some "Acme"; industry := Some "Tools"; hq_location := Some "Paris";
     websocket_manager := true; job_id := Some "job-1";
     curated_company_data := Some (DictDocs [("docA", docA)]);
     curated_revenue_data := Some (DictDocs []);
     curated_financial_data := Some (DictDocs [("docB", docB)]);
     curated_industry_data := Some (DictDocs []);
     company_briefing := None; revenue_briefing := None;
     financial_briefing := None; industry_briefing := None;
     briefings := None; references := []; reference_info := [];
     reference_titles := []; messages := None; report := None; status := None;
     editor := EditorAbsent |}.

(** A state with data in all four categories. *)
Definition full_state : ResearchState :=
  {| company := Some "Acme"; industry := Some "Tools"; hq_location := Some "Paris";
     websocket_manager := true; job_id := Some "job-1";
     curated_company_data := Some (DictDocs [("docA", docA)]);
     curated_revenue_data := Some (ListDocs [docC]);
     curated_financial_data := Some (DictDocs [("docB", docB)]);
     curated_industry_data := Some (ListDocs [docA; docB]);
     company_briefing := None; revenue_briefing := None;
     financial_briefing := None; industry_briefing := None;
     briefings := None; references := []; reference_info := [];
     reference_titles := []; messages := None; report := None; status := None;
     editor := EditorAbsent |}.

(** A state that reaches the Editor with a briefing that has white space
    around it. *)
Definition padded_state : ResearchState :=
  set_company_briefing " * fact" empty_state.

(** A state that reaches the Editor with one briefing. *)
Definition briefed_state : ResearchState :=
  set_company_briefing "* fact" empty_state.

(** A state that reaches the Editor with a blank report already stored
    and no briefing. *)
Definition blank_report_state : ResearchState := set_report "" empty_state.

Definition world (st : ResearchState) : Editor.World :=
  {| Editor.w_state := st; Editor.w_log := [] |}.

Definition sample_context : Editor.EditorContext :=
  {| Editor.ectx_company := "Acme"; Editor.ectx_industry := "Tools";
     Editor.ectx_hq_location := "Paris" |}.

End Sample.

(* ------------------------------------------------------------------ *)
(** ** [class NewsScanner]

    [backend/nodes/researchers/revenue.py].  The two methods the class
    inherits from [BaseResearcher] and calls, [generate_queries] and
    [search_documents], are collaborators: a [Researcher] gives, for the
    state they are called with, what they return or raise.  The state is
    the research state with the three keys only the researchers use.
    The log holds the events [analyze] sends itself.

    A document the search returns is a dictionary object.  [analyze]
    writes into the object it is handed and stores the object itself, so
    an object returned twice is one object in both places: the objects
    have an identity ([Obj]) and their fields are kept in a [Heap].
    Nothing but [analyze] writes into them during the run. *)

Module Scanner.

Local Open Scope string_scope.

(** The fields of a document, as text. *)
Definition SearchDoc : Type := list (string * string).

(** A dictionary from urls to documents as one reads it: the fields
    under every url, in insertion order. *)
Definition Found : Type := list (string * SearchDoc).

(** The identity of a dictionary object of the search, and the fields of
    every object. *)
Definition Obj : Type := nat.
Definition Heap : Type := Obj -> SearchDoc.

(** The dictionary a search returns: the object under every url. *)
Definition Returned : Type := list (string * Obj).

(** A value of [revenue_data]: the dictionary [analyze] makes itself
    from the site scrape, or an object of the search. *)
Inductive Entry : Type :=
| Own (doc : SearchDoc)
| Shared (o : Obj).

Definition Refs : Type := list (string * Entry).

Record ScanState : Type := {
  research : ResearchState;
  site_scrape : option string;
  company_url : option string;
  revenue_data : option Found
}.

(** What [search_documents] does with one call: it returns a dictionary,
    returns [None], or raises an exception [e] whose [str(e)] is
    [text]. *)
Inductive SearchOutcome : Type :=
| Documents (documents : Returned)
| NoDocuments
| SearchRaises (e : exn) (text : string).

(** [fields]: the fields of every object as the search has built it. *)
Record Researcher : Type := {
  generate_queries : ScanState -> string -> result (list string);
  search_documents : ScanState -> list string -> SearchOutcome;
  fields : Heap
}.

(** The status update of [analyze]; [result] has the three keys
    ['step'], ['analyst_type'] and ['queries']. *)
Record ScanEvent : Type := {
  sev_job_id : string;
  sev_status : string;
  sev_message : string;
  sev_step : string;
  sev_analyst_type : string;
  sev_queries : list string
}.

Record Output : Type := {
  out_message : list string;
  out_revenue_data : Found
}.

(** [d[k] = v] on a dictionary kept in insertion order. *)
Fixpoint dict_put {V : Type} (k : string) (v : V) (d : list (string * V))
    : list (string * V) :=
  match d with
  | [] => [(k, v)]
  | (k', v') :: d' =>
      if String.eqb k k' then (k, v) :: d' else (k', v') :: dict_put k v d'
  end.

(** [doc[...] = ...] on the object [o]. *)
Definition write (o : Obj) (doc : SearchDoc) (heap : Heap) : Heap :=
  fun o' => if Nat.eqb o' o then doc else heap o'.

(** The dictionary as one reads it when the objects hold [heap]. *)
Definition read (heap : Heap) (revenue_data : Refs) : Found :=
  map (fun kv => (fst kv, match snd kv with Own doc => doc | Shared o => heap o end))
      revenue_data.

(** [bool(d)] for a dictionary. *)
Definition truthy_dict {V : Type} (d : list (string * V)) : bool :=
  match d with [] => false | _ :: _ => true end.

Definition indent : string := "        ".

(** The prompt given to [generate_queries]. *)
Definition query_prompt : string :=
  Py.nl ++ indent ++ "生成用于查找{company}营业收入占比情况的搜索查询，例如：" ++
  Py.nl ++ indent ++ "- 按业务板块或产品线划分的收入占比" ++
  Py.nl ++ indent ++ "- 最新财务报告或收益拆解" ++
  Py.nl ++ indent.

Definition bullet (query : string) : string := "• " ++ query.

Definition subqueries_msg (queries : list string) : string :=
  "🔍 Subqueries for revenue analysis:" ++ Py.nl ++ Py.join Py.nl (map bullet queries).

(** [messages = state.get('messages', []); messages.append(AIMessage(content=text));
    state['messages'] = messages] *)
Definition add_message (text : string) (state : ScanState) : ScanState :=
  {| research :=
       set_messages (get_or (messages (research state)) [] ++ [text])%list (research state);
     site_scrape := site_scrape state;
     company_url := company_url state;
     revenue_data := revenue_data state |}.

(** [state['revenue_data'] = revenue_data] *)
Definition set_revenue_data (d : Found) (state : ScanState) : ScanState :=
  {| research := research state;
     site_scrape := site_scrape state;
     company_url := company_url state;
     revenue_data := Some d |}.

(** The entry made from the site scrape. *)
Definition scrape_entry (state : ScanState) (scraped : string) : SearchDoc :=
  let company := get_or (company (research state)) "Unknown Company" in
  [("title", company);
   ("raw_content", scraped);
   ("query", "关于" ++ company ++ "的不同类型业务营业收入占比情况")].

Definition scrape_line : string :=
  Py.nl ++ "📊 Including site scrape data in company analysis...".

(** [if site_scrape := state.get('site_scrape'): ...], on the message
    lines and the dictionary. *)
Definition include_site_scrape (state : ScanState) (msg : list string)
    (revenue_data : Refs) : list string * Refs :=
  match site_scrape state with
  | Some scraped =>
      if Py.truthy scraped
      then ((msg ++ [scrape_line])%list,
            dict_put (get_or (company_url state) "company-website")
              (Own (scrape_entry state scraped)) revenue_data)
      else (msg, revenue_data)
  | None => (msg, revenue_data)
  end.

(** [for url, doc in documents.items(): doc['query'] = query; revenue_data[url] = doc]:
    the write goes into the object, and the object is what is stored. *)
Fixpoint store_documents (query : string) (documents : Returned) (revenue_data : Refs)
    (heap : Heap) : Refs * Heap :=
  match documents with
  | [] => (revenue_data, heap)
  | (url, doc) :: rest =>
      let heap := write doc (dict_set "query" query (heap doc)) heap in
      store_documents query rest (dict_put url (Shared doc) revenue_data) heap
  end.

(** The loop over the queries, inside the [try]: the dictionary and the
    objects when the loop ends or is left, and the exception that left
    it. *)
Fixpoint search_all (self : Researcher) (state : ScanState) (queries : list string)
    (revenue_data : Refs) (heap : Heap) : Refs * Heap * option (exn * string) :=
  match queries with
  | [] => (revenue_data, heap, None)
  | query :: rest =>
      match search_documents self state [query] with
      | SearchRaises e text => (revenue_data, heap, Some (e, text))
      | NoDocuments => search_all self state rest revenue_data heap
      | Documents documents =>
          if truthy_dict documents
          then let (revenue_data, heap) :=
                 store_documents query documents revenue_data heap in
               search_all self state rest revenue_data heap
          else search_all self state rest revenue_data heap
      end
  end.

Definition found_line (revenue_data : Found) : string :=
  Py.nl ++ "✓ Found " ++ Py.str_of_nat (List.length revenue_data) ++ " documents".

Definition error_line (text : string) : string :=
  Py.nl ++ "⚠️ Error during research: " ++ text.

(** The guarded [send_status_update] of [analyze]. *)
Definition notify_search (state : ScanState) (queries : list string)
    (revenue_data : Found) (log : list ScanEvent) : list ScanEvent :=
  if websocket_manager (research state) then
    match truthy_job (job_id (research state)) with
    | Some j =>
        (log ++ [ {| sev_job_id := j;
                     sev_status := "processing";
                     sev_message := "Used Tavily Search to find "
                                    ++ Py.str_of_nat (List.length revenue_data)
                                    ++ " documents";
                     sev_step := "Searching";
                     sev_analyst_type := "News Scanner";
                     sev_queries := queries |} ])%list
    | None => log
    end
  else log.

(** [analyze]: the state and the log it leaves, and what it returns.
    The dictionary it stores and returns is given as one reads it when
    [analyze] returns. *)
Definition analyze (self : Researcher) (state : ScanState) (log : list ScanEvent)
    : ScanState * list ScanEvent * result Output :=
  let company := get_or (company (research state)) "Unknown Company" in
  let msg := ["📰 Revenue Scanner analyzing " ++ company] in
  match generate_queries self state query_prompt with
  | Raise e => (state, log, Raise e)
  | Ok queries =>
      let state := add_message (subqueries_msg queries) state in
      let (msg, revenue_data) := include_site_scrape state msg [] in
      let '(revenue_data, heap, failure) :=
        search_all self state queries revenue_data (fields self) in
      let revenue_data := read heap revenue_data in
      let (msg, log) :=
        match failure with
        | None =>
            ((msg ++ [found_line revenue_data])%list,
             notify_search state queries revenue_data log)
        | Some (_, text) => ((msg ++ [error_line text])%list, log)
        end in
      let state := add_message (Py.join Py.nl msg) state in
      let state := set_revenue_data revenue_data state in
      (state, log, Ok {| out_message := msg; out_revenue_data := revenue_data |})
  end.

(** [run] *)
Definition run (self : Researcher) (state : ScanState) (log : list ScanEvent)
    : ScanState * list ScanEvent * result Output :=
  analyze self state log.

End Scanner.

(** *** Vocabulary of the statements about the scanner *)

Module ScanNotions.

Import Scanner.

Local Open Scope string_scope.

(** The first line of the scanner's message. *)
Definition header (state : ScanState) : string :=
  "📰 Revenue Scanner analyzing " ++ get_or (company (research state)) "Unknown Company".

(** The state the searches are run in: the one [analyze] was given, with
    the message that lists the queries. *)
Definition prepared (queries : list string) (state : ScanState) : ScanState :=
  add_message (subqueries_msg queries) state.

(** The search for the query raises. *)
Definition search_fails (self : Researcher) (state : ScanState) (query : string) : bool :=
  match search_documents self state [query] with
  | SearchRaises _ _ => true
  | _ => false
  end.

(** The urls of a dictionary, in order. *)
Definition urls {V : Type} (d : list (string * V)) : list string := map fst d.

(** The search for the query, one of [queries], returned the object. *)
Definition returned (self : Researcher) (state : ScanState) (queries : list string)
    (o : Obj) (query : string) : Prop :=
  In query queries /\
  exists documents url,
    search_documents self state [query] = Documents documents /\ In (url, o) documents.

(** The url the site scrape is stored under. *)
Definition scrape_url (state : ScanState) : string :=
  get_or (company_url state) "company-website".

(** The site scrape, when the state has one that is not empty. *)
Definition scraped (state : ScanState) : option string :=
  match site_scrape state with
  | Some s => if Py.truthy s then Some s else None
  | None => None
  end.

(** The document is the site scrape stored under its url. *)
Definition from_scrape (state : ScanState) (url : string) (doc : SearchDoc) : Prop :=
  exists s, scraped state = Some s /\ url = scrape_url state /\ doc = scrape_entry state s.

(** The document is an object that the search for one of the queries
    returned under the url; its fields are those the search gave it,
    with the query of a search that returned this very object, under
    this url or another. *)
Definition from_search (self : Researcher) (state : ScanState) (queries : list string)
    (url : string) (doc : SearchDoc) : Prop :=
  exists query documents o last,
    In query queries /\
    search_documents self state [query] = Documents documents /\
    In (url, o) documents /\
    returned self state queries o last /\
    doc = dict_set "query" last (fields self o).

(** The fields of every object are those the search gave it, but for
    the query of a search [R] relates it to. *)
Definition tagged (R : Obj -> string -> Prop) (self : Researcher) (heap : Heap) : Prop :=
  forall o,
    heap o = fields self o \/
    exists last, R o last /\ heap o = dict_set "query" last (fields self o).

(** Every entry of the dictionary is accounted for: the site scrape, or
    an object a search returned under its url, with the query of a search
    that returned the object. *)
Definition accounted (self : Researcher) (state : ScanState) (queries : list string)
    (revenue_data : Refs) (heap : Heap) : Prop :=
  forall url e,
    In (url, e) revenue_data ->
    match e with
    | Own doc => from_scrape state url doc
    | Shared o =>
        (exists query documents,
            In query queries /\
            search_documents self state [query] = Documents documents /\
            In (url, o) documents) /\
        exists last,
          returned self state queries o last /\
          heap o = dict_set "query" last (fields self o)
    end.

(** The event [analyze] sends after a search without error. *)
Definition search_event (job : string) (queries : list string) (n : nat) : ScanEvent :=
  {| sev_job_id := job;
     sev_status := "processing";
     sev_message := "Used Tavily Search to find " ++ Py.str_of_nat n ++ " documents";
     sev_step := "Searching";
     sev_analyst_type := "News Scanner";
     sev_queries := queries |}.

(** The state [analyze] leaves when it returns [out] for the queries. *)
Definition scanned (queries : list string) (out : Output) (state : ScanState) : ScanState :=
  {| research :=
       set_messages
         (get_or (messages (research state)) []
          ++ [subqueries_msg queries; Py.join Py.nl (out_message out)])%list
         (research state);
     site_scrape := site_scrape state;
     company_url := company_url state;
     revenue_data := Some (out_revenue_data out) |}.

(** What [analyze] returns under ['revenue_data']; nothing when it
    raises. *)
Definition found_by (self : Researcher) (state : ScanState) (log : list ScanEvent)
    : Found :=
  match snd (analyze self state log) with
  | Ok out => out_revenue_data out
  | Raise _ => []
  end.

(** The researcher that asks the given queries and searches as [self]
    does in the state [st]. *)
Definition asking (queries : list string) (st : ScanState) (self : Researcher)
    : Researcher :=
  {| generate_queries := fun _ _ => Ok queries;
     search_documents := fun _ => search_documents self st;
     fields := fields self |}.

(** A researcher whose queries and search results are fixed. *)
Definition scripted (queries : result (list string))
    (answers : list (string * SearchOutcome)) (objects : Heap) : Researcher :=
  {| generate_queries := fun _ _ => queries;
     search_documents := fun _ qs =>
       match qs with
       | [q] =>
           match find (fun a => String.eqb (fst a) q) answers with
           | Some a => snd a
           | None => NoDocuments
           end
       | _ => NoDocuments
       end;
     fields := objects |}.

Definition scan_state (scrape url : option string) : ScanState :=
  {| research := Sample.example_state;
     site_scrape := scrape;
     company_url := url;
     revenue_data := None |}.

(** Three objects of the search. *)
Definition sample_objects : Heap :=
  fun o =>
    match o with
    | 1%nat => [("title", "A")]
    | 2%nat => [("title", "B")]
    | _ => []
    end.

(** Two queries; both searches return the url [u1], each with an object
    of its own. *)
Definition researcher_two : Researcher :=
  scripted (Ok ["q1"; "q2"])
    [("q1", Documents [("u1", 1%nat)]);
     ("q2", Documents [("u1", 2%nat); ("u2", 3%nat)])]
    sample_objects.

(** Three queries; the search for the second one raises. *)
Definition researcher_failing : Researcher :=
  scripted (Ok ["q1"; "q2"; "q3"])
    [("q1", Documents [("u1", 1%nat)]);
     ("q2", SearchRaises BackendError "timeout");
     ("q3", Documents [("u3", 3%nat)])]
    sample_objects.

(** Two queries whose searches return one and the same object, under two
    urls. *)
Definition researcher_sharing : Researcher :=
  scripted (Ok ["q1"; "q2"])
    [("q1", Documents [("u1", 1%nat)]);
     ("q2", Documents [("u2", 1%nat)])]
    sample_objects.

Definition scraped_state : ScanState := scan_state (Some "scraped text") None.

End ScanNotions.

(* ------------------------------------------------------------------ *)
(** ** Further vocabulary and sample data *)

Module Notions.

Local Open Scope string_scope.

(** How many steps a coroutine still has to take. *)
Definition steps_left (p : Briefing.Pc) : nat :=
  match p with
  | Briefing.Queued => 4
  | Briefing.Entered => 3
  | Briefing.InFlight _ => 2
  | Briefing.Responded _ => 1
  | Briefing.Finished _ _ => 0
  | Briefing.Crashed _ => 0
  end.

(** The dictionary has no entry under the key. *)
Definition key_absent (k : string) (d : list (string * string)) : Prop :=
  forall v, ~ In (k, v) d.

(** What the shared state and the briefings map hold for a coroutine at
    [p], whose category has the field value [field] and the key [k]:
    a stored briefing once it has finished with success, the empty text
    and no entry once it has finished without, and no entry before. *)
Definition result_recorded (p : Briefing.Pc) (field : option string) (k : string)
    (b : list (string * string)) : Prop :=
  match p with
  | Briefing.Finished true _ =>
      exists v, field = Some v /\ Spec.written_by_briefing v /\ In (k, v) b
  | Briefing.Finished false _ => field = Some "" /\ key_absent k b
  | Briefing.Responded r =>
      (Briefing.result_content r = "" \/
       Spec.written_by_briefing (Briefing.result_content r)) /\ key_absent k b
  | _ => key_absent k b
  end.

(** The text is a briefing the backend gave: the trimmed answer, not
    empty, of the given call with the given prompt. *)
Definition answered_by (client : Client) (call : nat) (prompt text : string) : Prop :=
  Py.truthy text = true /\
  exists answer,
    chat_create client call [("user", prompt)] = BackendReturns (Some answer) /\
    text = Py.strip answer.

(** Where the text of a coroutine at [p] comes from: the prompt of a
    pending call is the prompt of its task, and a briefing that is not
    empty is the answer the backend gave to that prompt. *)
Definition answer_recorded {py : Sorting} (client : Client) (ctx : Briefing.Context)
    (call : nat) (task : Briefing.Task) (p : Briefing.Pc) (field : option string) : Prop :=
  let prompt_of_task :=
    Briefing.briefing_prompt (Briefing.curated_data task)
      (Briefing.cat (Briefing.category task)) ctx in
  match p with
  | Briefing.InFlight prompt => prompt_of_task = Ok prompt
  | Briefing.Responded r =>
      Briefing.result_content r = "" \/
      exists prompt,
        prompt_of_task = Ok prompt /\
        answered_by client call prompt (Briefing.result_content r)
  | Briefing.Finished true _ =>
      exists v prompt,
        field = Some v /\ prompt_of_task = Ok prompt /\ answered_by client call prompt v
  | _ => True
  end.

(** Two states that differ at most in the four briefing fields and in
    the briefings map. *)
Definition same_but_briefings (st st' : ResearchState) : Prop :=
  company st' = company st /\ industry st' = industry st /\
  hq_location st' = hq_location st /\
  websocket_manager st' = websocket_manager st /\ job_id st' = job_id st /\
  curated_company_data st' = curated_company_data st /\
  curated_revenue_data st' = curated_revenue_data st /\
  curated_financial_data st' = curated_financial_data st /\
  curated_industry_data st' = curated_industry_data st /\
  references st' = references st /\ reference_info st' = reference_info st /\
  reference_titles st' = reference_titles st /\ messages st' = messages st /\
  report st' = report st /\ status st' = status st /\ editor st' = editor st.

(** Two states that differ at most in what the Editor writes: the
    messages, the report, the status and the ['editor'] entry. *)
Definition same_but_editor_fields (st st' : ResearchState) : Prop :=
  company st' = company st /\ industry st' = industry st /\
  hq_location st' = hq_location st /\
  websocket_manager st' = websocket_manager st /\ job_id st' = job_id st /\
  curated_company_data st' = curated_company_data st /\
  curated_revenue_data st' = curated_revenue_data st /\
  curated_financial_data st' = curated_financial_data st /\
  curated_industry_data st' = curated_industry_data st /\
  company_briefing st' = company_briefing st /\
  revenue_briefing st' = revenue_briefing st /\
  financial_briefing st' = financial_briefing st /\
  industry_briefing st' = industry_briefing st /\
  briefings st' = briefings st /\
  references st' = references st /\ reference_info st' = reference_info st /\
  reference_titles st' = reference_titles st.

(** The text a stream delivers: the contents of its chunks up to the
    stop chunk, or up to its end. *)
Fixpoint streamed_text (l : list StreamItem) : string :=
  match l with
  | [] => ""
  | StreamRaises _ :: _ => ""
  | Chunk finish_reason chunk_text :: rest =>
      if Editor.is_stop finish_reason then ""
      else get_or chunk_text "" ++ streamed_text rest
  end.

(** The stream has a stop chunk, and no error before it. *)
Fixpoint ends_with_stop (l : list StreamItem) : bool :=
  match l with
  | [] => false
  | StreamRaises _ :: _ => false
  | Chunk finish_reason _ :: rest =>
      if Editor.is_stop finish_reason then true else ends_with_stop rest
  end.

(** The text an event carries as a chunk. *)
Definition chunk_of (e : StatusEvent) : string :=
  match ev_result e with
  | PChunk c => c
  | _ => ""
  end.

Definition chunks_text (l : list StatusEvent) : string :=
  fold_right (fun e rest => chunk_of e ++ rest) "" l.

(** The events one guarded [send_status_update] adds: one, or none
    when a guard fails. *)
Definition events_of (ws : bool) (job : option string) (st msg : string) (p : Payload)
    : list StatusEvent :=
  match (if ws then truthy_job job else None) with
  | Some j => [ {| ev_job_id := j; ev_status := st; ev_message := msg; ev_result := p |} ]
  | None => []
  end.

(** Events of the Editor that come before the final one. *)
Definition progress_only (l : list StatusEvent) : Prop :=
  Forall (fun e => ev_status e = "processing" \/ ev_status e = "report_chunk") l.

(** The event that announces the stored report. *)
Definition completion_event (job r company : string) : StatusEvent :=
  {| ev_job_id := job; ev_status := "editor_complete";
     ev_message := "Research report completed";
     ev_result := PEditorComplete r company |}.

(** A method body whose effect on the world, whether it returns or
    raises, stays within a relation. *)
Definition within (R : Editor.World -> Editor.World -> Prop) {A} (m : Editor.M A) : Prop :=
  forall w, R w (fst (m w)).

(** The state is left alone and the log only grows, by chunks of the
    report. *)
Definition chunks_added (w w' : Editor.World) : Prop :=
  Editor.w_state w' = Editor.w_state w /\
  exists chunks, Editor.w_log w' = (Editor.w_log w ++ chunks)%list /\
                 Spec.chunks_only chunks.

(** What the Editor leaves alone: every field of the state but its own
    four, and the events already sent; and it sends nothing when a guard
    of the status events fails. *)
Definition editor_frame (w w' : Editor.World) : Prop :=
  same_but_editor_fields (Editor.w_state w) (Editor.w_state w') /\
  exists sent,
    Editor.w_log w' = (Editor.w_log w ++ sent)%list /\
    (Spec.channel_open (websocket_manager (Editor.w_state w))
       (job_id (Editor.w_state w)) = false -> sent = []).

(** The state once [edit_report] has stored a report. *)
Definition with_report (r : string) (st : ResearchState) : ResearchState :=
  Editor.mirror_report r (set_status "editor_complete" (set_report r st)).

Definition editor_context (st : ResearchState) : Editor.EditorContext :=
  {| Editor.ectx_company := get_or (company st) "Unknown Company";
     Editor.ectx_industry := get_or (industry st) "Unknown";
     Editor.ectx_hq_location := get_or (hq_location st) "Unknown" |}.

(** The event names the category in its payload. *)
Definition about (c : Category) (e : StatusEvent) : bool :=
  match Briefing.event_category e with
  | Some k => String.eqb k (Briefing.cat c)
  | None => false
  end.

(** The events of a log that name the category, in their order. *)
Definition events_about (c : Category) (log : list StatusEvent) : list StatusEvent :=
  filter (about c) log.

(** The start event and the completion event of a category's briefing,
    as the channel of the context lets them through. *)
Definition start_events (ctx : Briefing.Context) (c : Category) (docs : Docs)
    : list StatusEvent :=
  events_of (Briefing.ctx_websocket_manager ctx) (Briefing.ctx_job_id ctx)
    "briefing_start" ("Generating " ++ Briefing.cat c ++ " briefing")
    (PBriefingStart (Briefing.cat c) (Briefing.docs_len docs)).

Definition complete_events (ctx : Briefing.Context) (c : Category) : list StatusEvent :=
  events_of (Briefing.ctx_websocket_manager ctx) (Briefing.ctx_job_id ctx)
    "briefing_complete" ("Completed " ++ Briefing.cat c ++ " briefing")
    (PBriefingComplete (Briefing.cat c)).

(** The events that name the category of a coroutine standing at [p]. *)
Definition events_at (p : Briefing.Pc) (ctx : Briefing.Context) (c : Category)
    (docs : Docs) : list StatusEvent :=
  match p with
  | Briefing.Queued => []
  | Briefing.Entered => []
  | Briefing.InFlight _ => start_events ctx c docs
  | Briefing.Responded r =>
      (start_events ctx c docs
       ++ if Py.truthy (Briefing.result_content r) then complete_events ctx c else [])%list
  | Briefing.Finished success _ =>
      (start_events ctx c docs ++ if success then complete_events ctx c else [])%list
  | Briefing.Crashed _ => start_events ctx c docs
  end.

(** The events that name a task's category are those of the place its
    coroutine stands at. *)
Definition in_protocol (ctx : Briefing.Context) (tasks : list Briefing.Task)
    (o : Briefing.Orch) : Prop :=
  forall j task p,
    nth_error tasks j = Some task -> nth_error (Briefing.pcs o) j = Some p ->
    events_about (Briefing.category task) (Briefing.o_log o)
    = events_at p ctx (Briefing.category task) (Briefing.curated_data task).

(** The lines the Editor logs after its announcement when the state has
    no briefing. *)
Definition missing_line (c : Category) : string :=
  "No " ++ Briefing.cat c ++ " briefing available".

Definition nothing_to_compile : string :=
  Py.nl ++ "⚠️ No briefing sections available to compile".

Definition no_briefing_lines : list string :=
  (map missing_line Editor.briefing_keys ++ [nothing_to_compile])%list.

(** The two events [compile_briefings] sends before it collects the
    briefings. *)
Definition starting_event (st : ResearchState) : list StatusEvent :=
  events_of (websocket_manager st) (job_id st) "processing"
    ("Starting report compilation for " ++ get_or (company st) "Unknown Company")
    (PStep "Editor" (Some "initialization")).

Definition collecting_event (st : ResearchState) : list StatusEvent :=
  events_of (websocket_manager st) (job_id st) "processing"
    "Collecting section briefings"
    (PStep "Editor" (Some "collecting_briefings")).

Definition opening_events (st : ResearchState) : list StatusEvent :=
  (starting_event st ++ collecting_event st)%list.

End Notions.

Module Sample2.

Local Open Scope string_scope.

(** A state whose company dataset holds a score that [float] rejects. *)
Definition bad_state : ResearchState :=
  {| company := Some "Acme"; industry := Some "Tools"; hq_location := Some "Paris";
     websocket_manager := true; job_id := Some "job-1";
     curated_company_data := Some Sample.bad_docs;
     curated_revenue_data := None;
     curated_financial_data := Some (DictDocs [("docB", Sample.docB)]);
     curated_industry_data := None;
     company_briefing := None; revenue_briefing := None;
     financial_briefing := None; industry_briefing := None;
     briefings := None; references := []; reference_info := [];
     reference_titles := []; messages := None; report := None; status := None;
     editor := EditorAbsent |}.

(** The example state without a websocket manager. *)
Definition silent_state : ResearchState :=
  {| company := Some "Acme"; industry := Some "Tools"; hq_location := Some "Paris";
     websocket_manager := false; job_id := Some "job-1";
     curated_company_data := Some (DictDocs [("docA", Sample.docA)]);
     curated_revenue_data := Some (DictDocs []);
     curated_financial_data := Some (DictDocs [("docB", Sample.docB)]);
     curated_industry_data := Some (DictDocs []);
     company_briefing := Some "* fact"; revenue_briefing := None;
     financial_briefing := None; industry_briefing := None;
     briefings := None; references := []; reference_info := [];
     reference_titles := []; messages := None; report := None; status := None;
     editor := EditorAbsent |}.

(** A state with one briefing and one reference. *)
Definition referenced_state : ResearchState :=
  {| company := Some "Acme"; industry := Some "Tools"; hq_location := Some "Paris";
     websocket_manager := true; job_id := Some "job-1";
     curated_company_data := None; curated_revenue_data := None;
     curated_financial_data := None; curated_industry_data := None;
     company_briefing := Some "* fact"; revenue_briefing := None;
     financial_briefing := None; industry_briefing := None;
     briefings := None; references := ["https://acme.example"]; reference_info := [];
     reference_titles := []; messages := None; report := None; status := None;
     editor := EditorAbsent |}.

(** A formatter that fails, and one that renders a section. *)
Definition fmt_down : Editor.Formatter := fun _ _ _ => Raise FormatterError.
Definition fmt_section : Editor.Formatter := fun _ _ _ => Ok "## References".

(** A backend whose stream delivers two sentences and stops, one whose
    stream ends without a stop chunk, and one whose stream breaks. *)
Definition two_sentences : list StreamItem :=
  [Chunk None (Some "# Acme report."); Chunk None None;
   Chunk None (Some " Done"); Chunk (Some "stop") None;
   Chunk None (Some "ignored")].

Definition client_streaming : Client :=
  {| chat_create := fun _ _ => BackendReturns (Some " compiled ");
     chat_stream := fun _ => Stream two_sentences |}.

Definition client_no_stop : Client :=
  {| chat_create := fun _ _ => BackendReturns (Some " compiled ");
     chat_stream := fun _ => Stream [Chunk None (Some "# Acme report."); Chunk None (Some " Done")] |}.

(** The example state as [create_briefings] returns it when every
    backend call answers ["* fact"]. *)
Definition after_briefing : ResearchState :=
  set_briefings [("company", "* fact"); ("financial", "* fact")]
    (set_financial_briefing "* fact"
       (set_company_briefing "* fact"
          (set_industry_briefing "" (set_revenue_briefing "" Sample.example_state)))).

End Sample2.

(* ------------------------------------------------------------------ *)
(** * Properties *)

(** ** Strings *)

Section PyFacts.
Import Py.

Lemma len_nonneg s : 0 <= len s.
Proof. unfold len; lia. Qed.

Lemma len_append s t : len (s ++ t)%string = len s + len t.
Proof.
  unfold len. induction s as [|c s IH]; simpl String.length.
  - lia.
  - rewrite !Nat2Z.inj_succ. simpl in IH. lia.
Qed.



Lemma len_replicate n c : len (replicate n c) = Z.of_nat n.
Proof.
  unfold len. f_equal. induction n as [|n IH]; simpl; congruence.
Qed.

Lemma sum_len_app l1 l2 : sum_len (l1 ++ l2) = sum_len l1 + sum_len l2.
Proof. induction l1 as [|s l1 IH]; simpl; lia. Qed.

Lemma sum_len_nonneg l : 0 <= sum_len l.
Proof. induction l as [|s l IH]; simpl; [lia | pose proof (len_nonneg s); lia]. Qed.

End PyFacts.
(** ** The Selector: ordering *)

Section Numbers.


Lemma num_le_trans a b c : num_le a b = true -> num_le b c = true -> num_le a c = true.
Proof.
  destruct a as [p|[|]], b as [q|[|]], c as [r|[|]]; cbn; try reflexivity; try discriminate.
  intros H1 H2. apply Qle_bool_iff in H1. apply Qle_bool_iff in H2.
  apply Qle_bool_iff. now apply Qle_trans with q.
Qed.

Lemma num_le_total a b : num_le a b = false -> num_le b a = true.
Proof.
  destruct a as [p|[|]], b as [q|[|]]; cbn; try reflexivity; try discriminate.
  intros H. apply Qle_bool_iff, Qlt_le_weak, Qnot_le_lt.
  intro Hle. apply Qle_bool_iff in Hle. congruence.
Qed.

Lemma num_eqb_le a b n : num_eqb a n = true -> num_eqb b n = true -> num_le a b = true.
Proof.
  unfold num_eqb. intros Ha Hb.
  apply andb_true_iff in Ha. apply andb_true_iff in Hb.
  apply num_le_trans with n; tauto.
Qed.

End Numbers.

Section Ordering.
Import Briefing Spec.

Context {A : Type}.

Lemma insert_desc_perm (x : Num * A) l : Permutation (x :: l) (insert_desc x l).
Proof.
  induction l as [|y l IH]; simpl.
  - apply Permutation_refl.
  - destruct (num_le (fst y) (fst x)).
    + apply Permutation_refl.
    + apply perm_trans with (y :: x :: l); [apply perm_swap | now apply perm_skip].
Qed.

Lemma sort_desc_perm (l : list (Num * A)) : Permutation l (sort_desc l).
Proof.
  induction l as [|x l IH]; simpl.
  - apply perm_nil.
  - apply perm_trans with (x :: sort_desc l).
    + now apply perm_skip.
    + apply insert_desc_perm.
Qed.

Lemma insert_desc_sorted (x : Num * A) l : desc_keys l -> desc_keys (insert_desc x l).
Proof.
  unfold desc_keys. induction l as [|y l IH]; intros Hs; simpl.
  - constructor; constructor.
  - inversion Hs as [|y' l' Hl Hy]; subst.
    destruct (num_le (fst y) (fst x)) eqn:E.
    + constructor; [assumption|].
      constructor; [assumption|].
      eapply Forall_impl; [|exact Hy]. intros b Hb. simpl in Hb.
      now apply num_le_trans with (fst y).
    + constructor; [now apply IH|].
      apply (Permutation_Forall (insert_desc_perm x l)).
      constructor; [now apply num_le_total | assumption].
Qed.

Lemma sort_desc_sorted (l : list (Num * A)) : desc_keys (sort_desc l).
Proof.
  induction l as [|x l IH]; simpl.
  - constructor.
  - now apply insert_desc_sorted.
Qed.

Lemma insert_desc_stable n (x : Num * A) l :
  filter (key_is n) (insert_desc x l) = filter (key_is n) (x :: l).
Proof.
  induction l as [|y l IH]; [reflexivity|].
  cbn [insert_desc]. destruct (num_le (fst y) (fst x)) eqn:E; [reflexivity|].
  cbn [filter] in *. rewrite IH.
  destruct (key_is n x) eqn:Ex; [|reflexivity].
  destruct (key_is n y) eqn:Ey; [|reflexivity].
  exfalso. unfold key_is in *.
  pose proof (num_eqb_le _ _ _ Ey Ex). congruence.
Qed.

Lemma sort_desc_stable n (l : list (Num * A)) :
  filter (key_is n) (sort_desc l) = filter (key_is n) l.
Proof.
  induction l as [|x l IH]; [reflexivity|].
  cbn [sort_desc]. rewrite insert_desc_stable. cbn [filter]. now rewrite IH.
Qed.

End Ordering.

(** ** The Selector: ranking a dataset *)

Section Ranking.
Import Briefing Spec.

Context {py : Sorting}.

Lemma keyed_numeric l :
  Forall (fun x => is_number (sort_key x) = true) l ->
  keyed l = Ok (map (fun x => (Number (score x), x)) l).
Proof.
  induction 1 as [|x l Hx _ IH]; [reflexivity|].
  cbn [keyed map]. rewrite IH. unfold score.
  destruct (sort_key x) as [[n|]|e]; [reflexivity | discriminate | discriminate].
Qed.

Lemma numbers_with_score l :
  numbers (map (fun x => (Number (score x), x)) l) = Some (map with_score l).
Proof.
  induction l as [|x l IH]; [reflexivity|].
  cbn [map numbers]. now rewrite IH.
Qed.

Lemma keyed_raises l x e :
  In x l -> sort_key x = Raise e -> exists e', keyed l = Raise e'.
Proof.
  induction l as [|y l IH]; intros Hin Hx; [contradiction|].
  cbn [keyed]. destruct Hin as [->|Hin].
  - rewrite Hx. now exists e.
  - destruct (sort_key y); [|eauto].
    destruct (IH Hin Hx) as [e' ->]. eauto.
Qed.

Lemma keyed_items l ks : keyed l = Ok ks -> map snd ks = l.
Proof.
  revert ks. induction l as [|x l IH]; intros ks H; cbn [keyed] in H.
  - now injection H as <-.
  - destruct (sort_key x) as [k|e]; [|discriminate].
    destruct (keyed l) as [r|e]; [|discriminate].
    injection H as <-. cbn [map snd]. now rewrite (IH r eq_refl).
Qed.

Lemma numbers_items {A} (ks : list (Key * A)) ns :
  numbers ks = Some ns -> map snd ns = map snd ks.
Proof.
  revert ns. induction ks as [|[[n|] a] ks IH]; intros ns H; cbn [numbers] in H.
  - now injection H as <-.
  - destruct (numbers ks) as [r|]; [|discriminate].
    injection H as <-. cbn [map snd]. now rewrite (IH r eq_refl).
  - discriminate.
Qed.

Lemma reorder_all {A} (l : list A) : reorder (seq 0 (List.length l)) l = l.
Proof.
  unfold reorder. induction l as [|a l IH]; [reflexivity|].
  cbn [List.length seq flat_map nth_error app]. f_equal.
  rewrite <- seq_shift, flat_map_concat_map, map_map, <- flat_map_concat_map.
  exact IH.
Qed.

Lemma reorder_perm {A} order (l : list A) :
  Permutation order (seq 0 (List.length l)) -> Permutation (reorder order l) l.
Proof.
  intros H. rewrite <- (reorder_all l) at 2.
  unfold reorder. now apply Permutation_flat_map.
Qed.

(** Whatever the keys, NaN included, the ranked list is a rearrangement
    of the dataset. *)
Lemma sorted_items_perm docs ranked :
  sorted_items docs = Ok ranked -> Permutation (items docs) ranked.
Proof.
  unfold sorted_items. destruct (keyed (items docs)) as [ks|e] eqn:Ek; [|discriminate].
  intros H. injection H as <-. pose proof (keyed_items _ _ Ek) as Hi.
  destruct (numbers ks) as [ns|] eqn:En.
  - rewrite <- Hi, <- (numbers_items ks ns En).
    apply Permutation_map, sort_desc_perm.
  - rewrite <- Hi at 1. apply Permutation_sym, reorder_perm.
    rewrite length_map, <- (length_map fst). apply sorted_order_perm.
Qed.

Lemma scored_sort l :
  Forall (fun y => fst y = score (snd y)) (sort_desc (map with_score l)).
Proof.
  apply (Permutation_Forall (sort_desc_perm _)).
  apply Forall_forall. intros y Hy. apply in_map_iff in Hy.
  destruct Hy as [x [<- _]]. reflexivity.
Qed.

Lemma descending_of_keys (ks : list (Num * (string * Document))) :
  Forall (fun y => fst y = score (snd y)) ks ->
  desc_keys ks -> descending (map snd ks).
Proof.
  unfold desc_keys, descending. intros Hk Hs.
  induction Hs as [|y ks Hs IH Hy]; cbn [map]; constructor.
  - apply IH. now inversion Hk.
  - inversion Hk as [|y' ks' Ey Hks]; subst.
    apply Forall_forall. intros b Hb. apply in_map_iff in Hb.
    destruct Hb as [z [<- Hz]].
    rewrite Forall_forall in Hy, Hks.
    rewrite <- Ey, <- (Hks z Hz). now apply Hy.
Qed.

Lemma filter_of_keys n (ks : list (Num * (string * Document))) :
  Forall (fun y => fst y = score (snd y)) ks ->
  filter (has_score n) (map snd ks) = map snd (filter (key_is n) ks).
Proof.
  induction 1 as [|y ks Ey _ IH]; [reflexivity|].
  cbn [map filter]. unfold has_score at 1, key_is at 1. rewrite <- Ey.
  destruct (num_eqb (fst y) n); cbn [map]; now rewrite IH.
Qed.

Lemma filter_with_score n l :
  map snd (filter (key_is n) (map with_score l)) = filter (has_score n) l.
Proof.
  induction l as [|x l IH]; [reflexivity|].
  cbn [map filter]. unfold key_is at 1, has_score at 1, with_score at 1. cbn [fst].
  destruct (num_eqb (score x) n); cbn [map]; now rewrite IH.
Qed.

Lemma map_snd_with_score l : map snd (map with_score l) = l.
Proof. induction l as [|x l IH]; cbn; congruence. Qed.

Lemma sorted_items_numeric docs :
  numeric docs ->
  sorted_items docs = Ok (map snd (sort_desc (map with_score (items docs)))).
Proof.
  intros H. unfold sorted_items.
  now rewrite (keyed_numeric _ H), numbers_with_score.
Qed.

Lemma ranked_perm l : Permutation l (map snd (sort_desc (map with_score l))).
Proof.
  rewrite <- (map_snd_with_score l) at 1.
  apply Permutation_map, sort_desc_perm.
Qed.

Lemma ranked_descending l : descending (map snd (sort_desc (map with_score l))).
Proof. apply descending_of_keys; [apply scored_sort | apply sort_desc_sorted]. Qed.

Lemma ranked_stable n l :
  filter (has_score n) (map snd (sort_desc (map with_score l))) = filter (has_score n) l.
Proof.
  rewrite filter_of_keys by apply scored_sort.
  rewrite sort_desc_stable. apply filter_with_score.
Qed.

Lemma score_of_missing x :
  score_missing (snd x) = true -> sort_key x = Ok (Number (Fin 0)).
Proof.
  unfold score_missing, sort_key.
  destruct (evaluation (snd x)) as [| |ev]; [reflexivity | discriminate |].
  destruct (overall_score ev); [discriminate | reflexivity].
Qed.

Lemma numeric_parseable docs : numeric docs -> parseable docs.
Proof.
  unfold numeric, parseable. apply Forall_impl. intros x H.
  destruct (sort_key x) as [[n|]|e]; [reflexivity | discriminate | discriminate].
Qed.

End Ranking.

(** ** The Selector: the budget *)

Section Budget.
Import Briefing Spec.

(** The loop in one piece.  It keeps a prefix of the blocks, each of
    which fitted when it was its turn; then it either stops, at the end
    of the list or at a block that does not fit, or it raises, at a
    document whose content is [None]. *)
Lemma budget_loop_spec l : forall doc_texts total_length,
  exists kept,
    (forall pre e post, kept = pre ++ e :: post ->
       total_length + Py.sum_len pre + Py.len e < total_budget) /\
    ((budget_loop l doc_texts total_length
      = Ok (doc_texts ++ kept, total_length + Py.sum_len kept) /\
      exists dropped,
        blocks l = map Ok kept ++ dropped /\
        (forall b rest, dropped = b :: rest ->
           exists e, b = Ok e /\
                     total_budget <= total_length + Py.sum_len kept + Py.len e))
     \/
     (exists e rest,
        budget_loop l doc_texts total_length = Raise e /\
        blocks l = map Ok kept ++ Raise e :: rest)).
Proof.
  induction l as [|[k doc] l IH]; intros doc_texts total_length.
  - exists []. split; [intros [|? ?] ? ? H; discriminate|]. left.
    cbn [budget_loop]. rewrite app_nil_r. change (Py.sum_len []) with 0.
    rewrite Z.add_0_r. split; [reflexivity|]. exists []. split; [reflexivity|].
    intros b rest H. discriminate.
  - cbn [budget_loop].
    assert (Eb : blocks ((k, doc) :: l) = doc_entry doc :: blocks l) by reflexivity.
    rewrite Eb.
    destruct (doc_entry doc) as [entry|e].
    + destruct (total_length + Py.len entry <? total_budget) eqn:E.
      * apply Z.ltb_lt in E.
        destruct (IH (doc_texts ++ [entry]) (total_length + Py.len entry))
          as (kept & Hpre & Hcases).
        exists (entry :: kept).
        assert (Es : forall s r, Py.sum_len (s :: r) = Py.len s + Py.sum_len r)
          by reflexivity.
        split.
        -- intros [|e0 pre] e post H; cbn [app] in H; inversion H; subst.
           ++ change (Py.sum_len []) with 0. lia.
           ++ specialize (Hpre pre e post eq_refl). rewrite Es. lia.
        -- destruct Hcases as [[Hrun (dropped & Hsplit & Hdrop)]|(e & rest & Hrun & Hsplit)].
           ++ left. rewrite Hrun, <- app_assoc, Es, Z.add_assoc.
              split; [reflexivity|]. exists dropped. rewrite Hsplit.
              split; [reflexivity|].
              intros b rest H. destruct (Hdrop b rest H) as (s & -> & Hs).
              exists s. split; [reflexivity | lia].
           ++ right. exists e, rest. rewrite Hrun, Hsplit. now split.
      * apply Z.ltb_ge in E. exists [].
        split; [intros [|? ?] ? ? H; discriminate|]. left.
        rewrite app_nil_r. change (Py.sum_len []) with 0. rewrite Z.add_0_r.
        split; [reflexivity|]. exists (Ok entry :: blocks l). split; [reflexivity|].
        intros b rest H. inversion H; subst. exists entry. split; [reflexivity | lia].
    + exists []. split; [intros [|? ?] ? ? H; discriminate|]. right.
      exists e, (blocks l). now split.
Qed.

Lemma kept_below_budget kept total_length :
  total_length < total_budget ->
  (forall pre e post, kept = pre ++ e :: post ->
     total_length + Py.sum_len pre + Py.len e < total_budget) ->
  total_length + Py.sum_len kept < total_budget.
Proof.
  intros H0 H. destruct kept as [|e kept]; [cbn; lia|].
  destruct (@exists_last _ (e :: kept)) as (pre & z & E); [discriminate|].
  rewrite E. specialize (H pre z [] E).
  rewrite sum_len_app.
  change (Py.sum_len [z]) with (Py.len z + 0). change (Py.sum_len []) with 0 in H. lia.
Qed.

(** The loop over documents that all have a text does not raise. *)
Lemma budget_loop_text l doc_texts total_length :
  Forall (fun x => has_text (snd x) = true) l ->
  exists r, budget_loop l doc_texts total_length = Ok r.
Proof.
  intros H. destruct (budget_loop_spec l doc_texts total_length)
    as (kept & _ & [[Hrun _]|(e & rest & _ & Hsplit)]); [eauto|].
  exfalso. assert (Hin : In (Raise e) (blocks l)) by (rewrite Hsplit; apply in_elt).
  unfold blocks in Hin. apply in_map_iff in Hin. destruct Hin as (x & Hx & Hin).
  rewrite Forall_forall in H. specialize (H x Hin).
  unfold has_text in H. unfold doc_entry in Hx.
  destruct (doc_content (snd x)); discriminate.
Qed.

Lemma collect_blocks_text l :
  Forall (fun x => has_text (snd x) = true) l ->
  exists doc_texts, collect_blocks l = Ok doc_texts.
Proof.
  intros H. unfold collect_blocks.
  destruct (budget_loop_text l [] 0 H) as [[doc_texts total] ->]. eauto.
Qed.

End Budget.

(** ** The Selector: the three statements *)

Section Selector.
Import Briefing Spec.

Context {py : Sorting}.

Local Open Scope string_scope.

(** A stored score that [float] rejects, anywhere in the dataset, makes
    the ranking raise. *)
Lemma sorted_items_raises docs x e :
  In x (items docs) -> sort_key x = Raise e ->
  exists e', sorted_items docs = Raise e'.
Proof.
  intros Hin Hx. unfold sorted_items.
  destruct (keyed_raises (items docs) x e Hin Hx) as [e' ->]. now exists e'.
Qed.

(** C1.  Whatever the dataset, in dictionary or in list form, and
    whatever order the ranking has left it in, the blocks the Selector
    accumulates stay strictly below the budget of 140000 characters in
    total.  The blocks are a prefix of the blocks of the ranked
    documents; a block is appended only if the running total plus its
    length is below the budget, and the first block that does not fit
    ends the loop, so that it and every later one are dropped. *)
Theorem select_documents_within_budget (docs : Docs) (doc_texts : list string) :
  select_documents docs = Ok doc_texts ->
  Py.sum_len doc_texts < total_budget /\
  exists ranked dropped,
    sorted_items docs = Ok ranked /\
    Permutation (items docs) ranked /\
    blocks ranked = (map Ok doc_texts ++ dropped)%list /\
    budget_loop ranked [] 0 = Ok (doc_texts, Py.sum_len doc_texts) /\
    (forall pre e post, doc_texts = (pre ++ e :: post)%list ->
       Py.sum_len pre + Py.len e < total_budget) /\
    (forall b rest, dropped = b :: rest ->
       exists e, b = Ok e /\ total_budget <= Py.sum_len doc_texts + Py.len e).
Proof.
  unfold select_documents. destruct (sorted_items docs) as [ranked|e] eqn:Es;
    [|discriminate].
  unfold collect_blocks.
  destruct (budget_loop_spec ranked [] 0)
    as (kept & Hpre & [[Hrun (dropped & Hsplit & Hdrop)]|(e & rest & Hrun & _)]);
    rewrite Hrun; [|discriminate].
  cbn [app]. intros H. injection H as <-.
  split.
  - apply (kept_below_budget kept 0); [reflexivity | exact Hpre].
  - exists ranked, dropped.
    split; [reflexivity|]. split; [now apply sorted_items_perm|].
    split; [exact Hsplit|]. split; [exact Hrun|]. split.
    + intros pre e post E. specialize (Hpre pre e post E). lia.
    + intros b rest E. destruct (Hdrop b rest E) as (e & -> & He).
      exists e. split; [reflexivity | lia].
Qed.

(** C4, as amended.  When every stored score is one that [float] reads
    as a number, the Selector ranks the documents before it truncates and
    budgets them: the ranked list is a rearrangement of the dataset, in
    descending order of score, documents of equal score keep their
    relative order, and a document that stores no score is ranked with
    score 0. *)
Theorem sorted_items_descending_stable (docs : Docs) :
  numeric docs ->
  exists ranked,
    sorted_items docs = Ok ranked /\
    Permutation (items docs) ranked /\
    descending ranked /\
    (forall n, filter (has_score n) ranked = filter (has_score n) (items docs)) /\
    (forall x, In x (items docs) -> score_missing (snd x) = true ->
       sort_key x = Ok (Number (Fin 0))) /\
    select_documents docs = collect_blocks ranked.
Proof.
  intros Hp. exists (map snd (sort_desc (map with_score (items docs)))).
  pose proof (sorted_items_numeric docs Hp) as Hs.
  repeat split.
  - exact Hs.
  - apply ranked_perm.
  - apply ranked_descending.
  - intros n. apply ranked_stable.
  - intros x _. apply score_of_missing.
  - unfold select_documents. now rewrite Hs.
Qed.


Lemma len_block t c : Py.len (block t c) = 18 + Py.len t + Py.len (truncate c).
Proof.
  unfold block. rewrite !len_append.
  change (Py.len "Title: ") with 7. change (Py.len Py.nl) with 1.
  change (Py.len "Content: ") with 9. lia.
Qed.




End Selector.

Section SelectorExamples.
Import Briefing Spec.

#[local] Existing Instance Sample.as_given.

Local Open Scope string_scope.

Example ranked_three_docs :
  sorted_items Sample.three_docs
  = Ok [("docA", Sample.docA); ("docB", Sample.docB); ("docC", Sample.docC)].
Proof. reflexivity. Qed.

(** A missing score and a stored 0 tie, and keep their order; a list gets
    its keys from the urls. *)
Example ranked_tie :
  sorted_items (ListDocs [Sample.docC; Sample.doc_zero; Sample.docA])
  = Ok [("docA", Sample.docA); ("docC", Sample.docC); ("docZ", Sample.doc_zero)].
Proof. reflexivity. Qed.

(** An infinity is a number and is ranked as one. *)
Example ranked_infinity :
  sorted_items (ListDocs [Sample.docB; Sample.doc_inf; Sample.docA])
  = Ok [("docI", Sample.doc_inf); ("docA", Sample.docA); ("docB", Sample.docB)].
Proof. reflexivity. Qed.

Example enumerate_without_url :
  items (ListDocs [ {| url := None; title := Absent; raw_content := Value "raw";
                       content := Value "summary"; evaluation := Absent |} ])
  = [("doc_0", {| url := None; title := Absent; raw_content := Value "raw";
                  content := Value "summary"; evaluation := Absent |})]
  /\ doc_entry {| url := None; title := Absent; raw_content := Value "raw";
                  content := Value "summary"; evaluation := Absent |}
     = Ok ("Title: " ++ Py.nl ++ Py.nl ++ "Content: raw").
Proof. split; reflexivity. Qed.

(** A title stored as [None] is printed as such; a content stored as
    [None] has no length, whatever the score. *)
Example stored_none :
  doc_entry {| url := None; title := StoredNone; raw_content := Value "";
               content := Value "summary"; evaluation := Absent |}
  = Ok ("Title: None" ++ Py.nl ++ Py.nl ++ "Content: summary") /\
  doc_entry Sample.doc_none_content = Raise TypeError /\
  select_documents (ListDocs [Sample.docA; Sample.doc_none_content]) = Raise TypeError.
Proof. repeat split. Qed.

Example truncate_long_content :
  Py.len (truncate (Py.replicate (Z.to_nat 12001) "y")) = 12023 /\
  truncate (Py.replicate (Z.to_nat 12000) "y") = Py.replicate (Z.to_nat 12000) "y".
Proof. split; vm_compute; reflexivity. Qed.

Lemma select_documents_within_budget_witness :
  Py.sum_len
    [block "Annual report" "Founded in 2010."; block "Funding round" "Series B of 40M.";
     block "Press release" "New product."]
  < total_budget.
Proof.
  apply (select_documents_within_budget Sample.three_docs). reflexivity.
Defined.

Lemma sorted_items_descending_stable_witness :
  exists ranked,
    sorted_items Sample.three_docs = Ok ranked /\
    Permutation (items Sample.three_docs) ranked /\
    descending ranked /\
    (forall n, filter (has_score n) ranked
               = filter (has_score n) (items Sample.three_docs)) /\
    (forall x, In x (items Sample.three_docs) -> score_missing (snd x) = true ->
       sort_key x = Ok (Number (Fin 0))) /\
    select_documents Sample.three_docs = collect_blocks ranked.
Proof.
  apply (sorted_items_descending_stable Sample.three_docs).
  repeat constructor.
Defined.

(** C4 as it was stated fails: a stored score that [float] rejects is not
    ranked as 0; the sort raises and there is no ranked list. *)
Lemma sorted_items_unparseable_score :
  sorted_items Sample.bad_docs = Raise ValueError /\
  ~ (exists ranked, sorted_items Sample.bad_docs = Ok ranked).
Proof.
  split; [reflexivity|]. intros [ranked H]. discriminate H.
Qed.



End SelectorExamples.

(** ** The Briefing Generator *)

Section Generator.
Import Briefing Spec.

Context {py : Sorting}.

Local Open Scope string_scope.

Lemma keyed_parseable l :
  Forall (fun x => is_ok (sort_key x) = true) l -> exists ks, keyed l = Ok ks.
Proof.
  induction 1 as [|x l Hx _ [ks IH]]; [now exists []|].
  cbn [keyed]. rewrite IH. destruct (sort_key x) as [k|e]; [eauto | discriminate].
Qed.

Lemma sorted_items_parseable docs :
  parseable docs -> exists ranked, sorted_items docs = Ok ranked.
Proof.
  intros H. unfold sorted_items.
  destruct (keyed_parseable _ H) as [ks ->]. eauto.
Qed.

(** The Selector returns when no key raises and every document has a
    text, whatever the order of the ranked list. *)
Lemma select_documents_returns docs :
  parseable docs -> text_contents docs ->
  exists doc_texts, select_documents docs = Ok doc_texts.
Proof.
  intros Hp Ht. unfold select_documents.
  destruct (sorted_items_parseable docs Hp) as [ranked Hs]. rewrite Hs.
  apply collect_blocks_text.
  exact (Permutation_Forall (sorted_items_perm docs ranked Hs) Ht).
Qed.

Lemma notify_emits ws job st msg p log :
  exists emitted,
    notify ws job st msg p log = (log ++ emitted)%list /\
    map ev_status emitted = (if channel_open ws job then [st] else []) /\
    Forall (fun e => ev_result e = p) emitted.
Proof.
  unfold notify, channel_open. destruct ws; cbn [andb].
  - destruct (truthy_job job) as [j|].
    + eexists. split; [reflexivity|]. split; [reflexivity|]. repeat constructor.
    + exists []. rewrite app_nil_r. repeat split. constructor.
  - exists []. rewrite app_nil_r. repeat split. constructor.
Qed.

(** C3, as amended.  When [float] accepts every stored score and no
    document has [None] for its content, the generator returns a
    briefing and does not raise, whatever the backend does and whatever
    order the ranking leaves the documents in.  The briefing is the
    trimmed answer; it is empty when the call raises, when the answer has
    no content and when the answer is blank.
    With a websocket manager and a job id in the context it emits
    [briefing_start] and then [briefing_complete] when the briefing is not
    empty, and [briefing_start] alone when it is; without them it emits
    nothing. *)
Theorem generate_category_briefing_returns (client : Client) (call : nat)
    (docs : Docs) (category : string) (ctx : Context) (log : list StatusEvent) :
  parseable docs ->
  text_contents docs ->
  exists prompt r emitted,
    briefing_prompt docs category ctx = Ok prompt /\
    generate_category_briefing client call docs category ctx log
      = ((log ++ emitted)%list, Ok r) /\
    result_content r = answer_text (chat_create client call [("user", prompt)]) /\
    (forall e, chat_create client call [("user", prompt)] = BackendRaises e ->
       result_content r = "") /\
    (chat_create client call [("user", prompt)] = BackendReturns None ->
       result_content r = "") /\
    (forall text, chat_create client call [("user", prompt)] = BackendReturns (Some text) ->
       result_content r = Py.strip text) /\
    map ev_status emitted
      = (if channel_open (ctx_websocket_manager ctx) (ctx_job_id ctx)
         then if Py.truthy (result_content r)
              then ["briefing_start"; "briefing_complete"]
              else ["briefing_start"]
         else []).
Proof.
  intros Hp Htext. destruct (select_documents_returns docs Hp Htext) as [doc_texts Hsel].
  unfold generate_category_briefing, briefing_prompt. rewrite Hsel.
  set (prompt := build_prompt category ctx doc_texts).
  exists prompt.
  destruct (notify_emits (ctx_websocket_manager ctx) (ctx_job_id ctx) "briefing_start"
              ("Generating " ++ category ++ " briefing")
              (PBriefingStart category (docs_len docs)) log)
    as (started & Hstart & Hst & _).
  unfold briefing_start. rewrite Hstart.
  set (resp := chat_create client call [("user", prompt)]).
  unfold briefing_answer.
  assert (Hquiet : forall r, result_content r = "" ->
            answer_text resp = "" ->
            exists emitted,
              ((log ++ started)%list, Ok r) = ((log ++ emitted)%list, Ok r) /\
              result_content r = answer_text resp /\
              map ev_status emitted
              = (if channel_open (ctx_websocket_manager ctx) (ctx_job_id ctx)
                 then if Py.truthy (result_content r)
                      then ["briefing_start"; "briefing_complete"]
                      else ["briefing_start"]
                 else [])).
  { intros r Hr Ha. exists started. rewrite Hr, Ha, Hst. cbn [Py.truthy]. auto. }
  destruct resp as [e|[text|]] eqn:Eresp.
  - destruct (Hquiet {| result_content := "" |} eq_refl eq_refl) as (emitted & E1 & E2 & E3).
    exists {| result_content := "" |}, emitted.
    repeat split; try assumption; try reflexivity; try discriminate.
  - destruct (Py.truthy (Py.strip text)) eqn:Et.
    + destruct (notify_emits (ctx_websocket_manager ctx) (ctx_job_id ctx) "briefing_complete"
                  ("Completed " ++ category ++ " briefing")
                  (PBriefingComplete category) (log ++ started)%list)
        as (completed & Hdone & Hdn & _).
      rewrite Hdone.
      exists {| result_content := Py.strip text |}, (started ++ completed)%list.
      split; [reflexivity|]. split; [now rewrite app_assoc|].
      split; [reflexivity|]. split; [discriminate|]. split; [discriminate|].
      split; [intros t Ht; now injection Ht as <-|].
      rewrite map_app, Hst, Hdn. cbn [result_content]. rewrite Et.
      now destruct (channel_open _ _).
    + assert (Ha : answer_text (BackendReturns (Some text)) = "").
      { cbn [answer_text]. destruct (Py.strip text); [reflexivity | discriminate]. }
      destruct (Hquiet {| result_content := "" |} eq_refl Ha) as (emitted & E1 & E2 & E3).
      exists {| result_content := "" |}, emitted.
      split; [reflexivity|]. split; [exact E1|]. split; [exact E2|].
      split; [discriminate|]. split; [discriminate|].
      split; [intros t Ht; injection Ht as <-; cbn [answer_text] in Ha; now rewrite Ha|].
      exact E3.
  - destruct (Hquiet {| result_content := "" |} eq_refl eq_refl) as (emitted & E1 & E2 & E3).
    exists {| result_content := "" |}, emitted.
    repeat split; try assumption; try reflexivity; try discriminate.
Qed.

End Generator.

Section GeneratorExamples.
Import Briefing Spec.

#[local] Existing Instance Sample.as_given.

Local Open Scope string_scope.

Lemma generate_category_briefing_returns_witness :
  exists r emitted,
    generate_category_briefing Sample.client_ok 0 Sample.three_docs "company"
      Sample.ctx_with_channel [] = (emitted, Ok r) /\
    result_content r = "* fact" /\
    map ev_status emitted = ["briefing_start"; "briefing_complete"].
Proof.
  destruct (generate_category_briefing_returns Sample.client_ok 0 Sample.three_docs
              "company" Sample.ctx_with_channel [])
    as (prompt & r & emitted & _ & Hrun & Hr & _ & _ & _ & Hev).
  - repeat constructor.
  - repeat constructor.
  - exists r, emitted. split; [exact Hrun|]. split; [exact Hr|].
    rewrite Hev, Hr. reflexivity.
Defined.

(** C3 as it was stated fails twice.  A stored score that [float] rejects
    makes the generator raise after its start event, the ranking being
    outside the [try]; and a successful call sends no event at all when
    the context carries no websocket manager. *)
Lemma generate_category_briefing_raises :
  generate_category_briefing Sample.client_ok 0 Sample.bad_docs "company"
    Sample.ctx_with_channel []
  = ([ {| ev_job_id := "job-1"; ev_status := "briefing_start";
          ev_message := "Generating company briefing";
          ev_result := PBriefingStart "company" 1 |} ],
     Raise ValueError)
  /\
  generate_category_briefing Sample.client_ok 0 Sample.three_docs "company"
    Sample.ctx_without_channel []
  = ([], Ok {| result_content := "* fact" |}).
Proof. split; reflexivity. Qed.

End GeneratorExamples.

(** ** The Briefing Orchestrator: the semaphore *)

Section Semaphore.
Import Briefing Spec.

Context {py : Sorting}.

Variable client : Client.
Variable ctx : Context.
Variable tasks : list Task.

Lemma length_set_nth {A} i (a : A) l : List.length (set_nth i a l) = List.length l.
Proof.
  revert i. induction l as [|x l IH]; intros [|i]; cbn; try reflexivity.
  now rewrite IH.
Qed.

Lemma nth_error_set_nth_eq {A} i (a x : A) l :
  nth_error l i = Some x -> nth_error (set_nth i a l) i = Some a.
Proof.
  revert i. induction l as [|y l IH]; intros [|i] H; cbn in *; try discriminate.
  - reflexivity.
  - now apply IH.
Qed.

Lemma nth_error_set_nth_neq {A} i j (a : A) l :
  i <> j -> nth_error (set_nth i a l) j = nth_error l j.
Proof.
  revert i j. induction l as [|y l IH]; intros [|i] [|j] H; cbn; try reflexivity.
  - contradiction.
  - apply IH. congruence.
Qed.

Lemma count_set_nth (f : Pc -> bool) i p p0 l :
  nth_error l i = Some p0 ->
  (List.length (filter f (set_nth i p l)) + (if f p0 then 1 else 0)
   = List.length (filter f l) + (if f p then 1 else 0))%nat.
Proof.
  revert i. induction l as [|x l IH]; intros [|i] H; cbn in H; try discriminate.
  - injection H as ->. cbn [set_nth filter].
    destruct (f p), (f p0); cbn [List.length]; lia.
  - specialize (IH i H). cbn [set_nth filter].
    destruct (f x); cbn [List.length]; lia.
Qed.

Lemma count_le (f g : Pc -> bool) l :
  (forall p, f p = true -> g p = true) ->
  (List.length (filter f l) <= List.length (filter g l))%nat.
Proof.
  intros H. induction l as [|x l IH]; cbn; [lia|].
  destruct (f x) eqn:E.
  - rewrite (H x E). cbn. lia.
  - destruct (g x); cbn; lia.
Qed.

(** The invariant of the semaphore: the free slots and the slots held
    add up to the capacity, and every task has its coroutine. *)
Lemma step_slots i o o' :
  step client ctx tasks i o = Some o' ->
  List.length (pcs o) = List.length tasks /\ (semaphore o + holders o = 2)%nat ->
  List.length (pcs o') = List.length tasks /\ (semaphore o' + holders o' = 2)%nat.
Proof.
  unfold step, holders. intros Hstep [Hlen Hsem].
  destruct (nth_error tasks i) as [task|]; [|discriminate].
  destruct (nth_error (pcs o) i) as [p|] eqn:Ep; [|discriminate].
  destruct p.
  - destruct (semaphore o) as [|v] eqn:Es; [discriminate|].
    injection Hstep as <-. cbn [pcs semaphore]. rewrite length_set_nth.
    pose proof (count_set_nth holds_slot i Entered _ _ Ep) as Hc. cbn in Hc. lia.
  - destruct (briefing_prompt _ _ _); injection Hstep as <-;
      cbn [pcs semaphore]; rewrite length_set_nth.
    + pose proof (count_set_nth holds_slot i (InFlight a) _ _ Ep) as Hc. cbn in Hc. lia.
    + pose proof (count_set_nth holds_slot i (Crashed e) _ _ Ep) as Hc. cbn in Hc. lia.
  - destruct (briefing_answer _ _ _ _) as [log2 r]. injection Hstep as <-.
    cbn [pcs semaphore]. rewrite length_set_nth.
    pose proof (count_set_nth holds_slot i (Responded r) _ _ Ep) as Hc. cbn in Hc. lia.
  - destruct (Py.truthy (result_content r)); injection Hstep as <-;
      cbn [pcs semaphore]; rewrite length_set_nth.
    + pose proof (count_set_nth holds_slot i (Finished true (Py.len (result_content r))) _ _ Ep)
        as Hc. cbn in Hc. lia.
    + pose proof (count_set_nth holds_slot i (Finished false 0) _ _ Ep) as Hc.
      cbn in Hc. lia.
  - discriminate.
  - discriminate.
Qed.

Lemma reachable_slots o0 o :
  reachable client ctx tasks o0 o ->
  List.length (pcs o0) = List.length tasks /\ (semaphore o0 + holders o0 = 2)%nat ->
  List.length (pcs o) = List.length tasks /\ (semaphore o + holders o = 2)%nat.
Proof.
  induction 1 as [o|o o1 o2 i _ IH Hstep]; intros H0; [exact H0|].
  exact (step_slots i o1 o2 Hstep (IH H0)).
Qed.

Lemma reachable_trans o0 o1 o2 :
  reachable client ctx tasks o0 o1 -> reachable client ctx tasks o1 o2 ->
  reachable client ctx tasks o0 o2.
Proof.
  intros H01 H12. induction H12 as [o|o oa ob i _ IH Hstep]; [exact H01|].
  exact (reach_step _ _ _ _ _ _ i (IH H01) Hstep).
Qed.

Lemma run_schedule_reachable schedule o :
  reachable client ctx tasks o (run_schedule client ctx tasks schedule o).
Proof.
  revert o. induction schedule as [|i rest IH]; intros o; cbn [run_schedule].
  - apply reach_here.
  - destruct (step client ctx tasks i o) as [o'|] eqn:E; [|apply IH].
    apply reachable_trans with o'; [|apply IH].
    exact (reach_step _ _ _ _ _ _ i (reach_here _ _ _ o) E).
Qed.

Lemma nth_error_task i o p :
  List.length (pcs o) = List.length tasks ->
  nth_error (pcs o) i = Some p -> exists task, nth_error tasks i = Some task.
Proof.
  intros Hlen Hp. destruct (nth_error tasks i) as [task|] eqn:E; [eauto|].
  apply nth_error_None in E.
  assert (nth_error (pcs o) i <> None) as Hn by congruence.
  apply nth_error_Some in Hn. lia.
Qed.

(** A queued coroutine is held back exactly when both slots are taken. *)
Lemma queued_blocked i o :
  List.length (pcs o) = List.length tasks /\ (semaphore o + holders o = 2)%nat ->
  nth_error (pcs o) i = Some Queued ->
  (step client ctx tasks i o = None <-> holders o = 2%nat).
Proof.
  intros [Hlen Hsem] Hq. destruct (nth_error_task i o _ Hlen Hq) as [task Ht].
  unfold step. rewrite Ht, Hq.
  destruct (semaphore o) as [|v]; split; intros H; try lia; try reflexivity; discriminate.
Qed.

(** A coroutine that holds a slot is never held back, and its step
    leaves the slot count alone or gives the slot back. *)
Lemma holder_runs i o p :
  List.length (pcs o) = List.length tasks ->
  nth_error (pcs o) i = Some p -> holds_slot p = true ->
  exists o', step client ctx tasks i o = Some o' /\
             (semaphore o' = semaphore o \/ semaphore o' = S (semaphore o)).
Proof.
  intros Hlen Hp Hh. destruct (nth_error_task i o _ Hlen Hp) as [task Ht].
  unfold step. rewrite Ht, Hp. destruct p; try discriminate.
  - destruct (briefing_prompt _ _ _); eexists; split; try reflexivity; cbn; auto.
  - destruct (briefing_answer _ _ _ _). eexists; split; try reflexivity; cbn; auto.
  - destruct (Py.truthy _); eexists; split; try reflexivity; cbn; auto.
Qed.

End Semaphore.

Section Capacity.
Import Briefing Spec.

Context {py : Sorting}.

Local Open Scope string_scope.

Lemma enter_gather_slots tasks st log :
  List.length (pcs (enter_gather tasks st log)) = List.length tasks /\
  (semaphore (enter_gather tasks st log) + holders (enter_gather tasks st log) = 2)%nat.
Proof.
  unfold holders, enter_gather. cbn [pcs semaphore]. rewrite length_map.
  split; [reflexivity|].
  assert (H : filter holds_slot (map (fun _ : Task => Queued) tasks) = []).
  { induction tasks as [|t l IH]; [reflexivity | exact IH]. }
  rewrite H. reflexivity.
Qed.

(** C2.  Under every schedule of the coroutines that [gather] runs, and
    for any number of tasks, at most 2 backend calls are pending at any
    moment, because at most 2 coroutines hold a slot of the semaphore.  A
    coroutine that has not entered cannot run exactly when both slots are
    held; a coroutine that holds a slot can always run, and gives the
    slot back when it ends. *)
Theorem at_most_two_in_flight (client : Client) (ctx : Context) (tasks : list Task)
    (st : ResearchState) (log : list StatusEvent) (schedule : list nat) :
  let o := run_schedule client ctx tasks schedule (enter_gather tasks st log) in
  (in_flight o <= 2)%nat /\
  (holders o <= 2)%nat /\
  (semaphore o + holders o = 2)%nat /\
  (forall i, nth_error (pcs o) i = Some Queued ->
     (step client ctx tasks i o = None <-> holders o = 2%nat)) /\
  (forall i p, nth_error (pcs o) i = Some p -> holds_slot p = true ->
     exists o', step client ctx tasks i o = Some o' /\
                (semaphore o' = semaphore o \/ semaphore o' = S (semaphore o))) /\
  (forall i r o', nth_error (pcs o) i = Some (Responded r) ->
     step client ctx tasks i o = Some o' ->
     semaphore o' = S (semaphore o) /\ (holders o' < holders o)%nat).
Proof.
  pose proof (enter_gather_slots tasks st log) as H0.
  set (o0 := enter_gather tasks st log) in *.
  set (o := run_schedule client ctx tasks schedule o0).
  pose proof (reachable_slots client ctx tasks o0 o
                (run_schedule_reachable client ctx tasks schedule o0) H0) as [Hlen Hsem].
  assert (Hfl : (in_flight o <= holders o)%nat).
  { apply count_le. now intros []. }
  cbv zeta.
  split; [lia|]. split; [lia|]. split; [exact Hsem|]. split; [|split].
  - intros i. now apply queued_blocked.
  - intros i p. now apply holder_runs.
  - intros i r o' Hp Hstep.
    pose proof (step_slots client ctx tasks i o o' Hstep (conj Hlen Hsem)) as [_ Hsem'].
    assert (Hs : semaphore o' = S (semaphore o)).
    { unfold step in Hstep. destruct (nth_error tasks i); [|discriminate].
      rewrite Hp in Hstep. destruct (Py.truthy _); now injection Hstep as <-. }
    lia.
Qed.

End Capacity.

Section CapacityExamples.
Import Briefing Spec.

#[local] Existing Instance Sample.as_given.

Local Open Scope string_scope.

(** The bound is reached: with data in all four categories, two calls
    are pending at once and the two other coroutines wait. *)
Example two_calls_pending :
  let '(ctx, tasks, o0) := start Sample.full_state in
  let o := run_schedule Sample.client_ok ctx tasks [0; 1; 2; 3; 0; 1; 2; 3]%nat o0 in
  in_flight o = 2%nat /\ List.length (filter is_queued (pcs o)) = 2%nat.
Proof. vm_compute. split; reflexivity. Qed.

(** And the run ends with the four briefings stored. *)
Example four_briefings_stored :
  snd (create_briefings Sample.client_ok (round_robin 4) Sample.full_state)
  = Some (Ok (set_briefings
                [("company", "* fact"); ("revenue", "* fact");
                 ("financial", "* fact"); ("industry", "* fact")]
                (set_industry_briefing "* fact"
                   (set_financial_briefing "* fact"
                      (set_revenue_briefing "* fact"
                         (set_company_briefing "* fact" Sample.full_state)))))).
Proof. vm_compute. reflexivity. Qed.

End CapacityExamples.

(** ** The Briefing Orchestrator: categories without data *)

Section Skipping.
Import Briefing Spec.

Context {py : Sorting}.

Local Open Scope string_scope.

Lemma Category_eq_dec (c c' : Category) : {c = c'} + {c <> c'}.
Proof. decide equality. Defined.

Lemma cat_injective c c' : cat c = cat c' -> c = c'.
Proof. destruct c, c'; intros H; try reflexivity; discriminate H. Qed.

Lemma get_set_briefing c v st : get_briefing c (set_briefing c v st) = Some v.
Proof. now destruct c. Qed.

Lemma get_set_briefing_other c c' v st :
  c <> c' -> get_briefing c (set_briefing c' v st) = get_briefing c st.
Proof. destruct c, c'; intros H; try reflexivity; contradiction. Qed.

Lemma curated_set_briefing c c' v st : curated (set_briefing c' v st) c = curated st c.
Proof. now destruct c, c'. Qed.

(** What the loop over the categories does: a task for every category
    with data, in the order of the table, and an empty briefing for every
    category without. *)
Lemma plan_spec cats : forall st tasks0,
  snd (plan cats st tasks0)
  = (tasks0 ++ map (fun c => {| category := c; curated_data := curated st c |})
                   (filter (fun c => docs_truthy (curated st c)) cats))%list /\
  (forall c, In c cats -> docs_truthy (curated st c) = false ->
     get_briefing c (fst (plan cats st tasks0)) = Some "") /\
  (forall c, docs_truthy (curated st c) = true ->
     get_briefing c (fst (plan cats st tasks0)) = get_briefing c st).
Proof.
  induction cats as [|c0 cats IH]; intros st tasks0.
  - cbn. rewrite app_nil_r. repeat split. intros c [].
  - cbn [plan filter].
    destruct (docs_truthy (curated st c0)) eqn:E0.
    + destruct (IH st (tasks0 ++ [{| category := c0; curated_data := curated st c0 |}])%list)
        as (Ht & Hskip & Hkeep).
      split; [|split].
      * rewrite Ht, <- app_assoc. reflexivity.
      * intros c [->|Hin] Hc; [congruence | now apply Hskip].
      * exact Hkeep.
    + destruct (IH (set_briefing c0 "" st) tasks0) as (Ht & Hskip & Hkeep).
      assert (Hf : forall l,
                filter (fun c => docs_truthy (curated (set_briefing c0 "" st) c)) l
                = filter (fun c => docs_truthy (curated st c)) l).
      { intros l. apply filter_ext. intros c. now rewrite curated_set_briefing. }
      assert (Hm : forall l,
                map (fun c => {| category := c;
                                 curated_data := curated (set_briefing c0 "" st) c |}) l
                = map (fun c => {| category := c; curated_data := curated st c |}) l).
      { intros l. apply map_ext. intros c. now rewrite curated_set_briefing. }
      split; [|split].
      * now rewrite Ht, Hf, Hm.
      * intros c Hin Hc.
        destruct (Category_eq_dec c c0) as [->|Hne].
        -- destruct (in_dec Category_eq_dec c0 cats) as [Hi|Hni].
           ++ apply Hskip; [exact Hi | now rewrite curated_set_briefing].
           ++ clear Hskip Hkeep Ht. revert tasks0.
              assert (Hgen : forall l st' tasks1,
                         ~ In c0 l -> get_briefing c0 (fst (plan l st' tasks1))
                                      = get_briefing c0 st').
              { induction l as [|c1 l IHl]; intros st' tasks1 Hn; [reflexivity|].
                cbn [plan]. destruct (docs_truthy (curated st' c1)).
                - apply IHl. intros H; apply Hn; now right.
                - rewrite IHl by (intros H; apply Hn; now right).
                  apply get_set_briefing_other. intros ->. apply Hn. now left. }
              intros tasks0. rewrite Hgen by exact Hni. apply get_set_briefing.
        -- destruct Hin as [->|Hin]; [contradiction|].
           apply Hskip; [exact Hin | now rewrite curated_set_briefing].
      * intros c Hc.
        rewrite Hkeep by now rewrite curated_set_briefing.
        apply get_set_briefing_other. intros ->. congruence.
Qed.

Lemma plan_tasks st :
  map category (snd (plan categories st []))
  = filter (fun c => docs_truthy (curated st c)) categories.
Proof.
  destruct (plan_spec categories st []) as (Ht & _ & _). rewrite Ht. cbn [app].
  rewrite map_map. cbn [category]. apply map_id.
Qed.

Variable client : Client.
Variable ctx : Context.
Variable tasks : list Task.

Lemma dict_set_keys k v d :
  NoDup (map fst d) -> Forall (fun kv => of_task tasks (fst kv)) d -> of_task tasks k ->
  NoDup (map fst (dict_set k v d)) /\ Forall (fun kv => of_task tasks (fst kv)) (dict_set k v d).
Proof.
  intros Hnd Hall Hk. induction d as [|[k' v'] d IH]; cbn [dict_set].
  - split; [repeat constructor; intros [] | repeat constructor; exact Hk].
  - destruct (String.eqb_spec k k') as [->|Hne].
    + split; [exact Hnd|]. inversion Hall; subst. now constructor.
    + cbn [map fst] in *. inversion Hnd as [|? ? Hnotin Hnd']; subst.
      inversion Hall as [|? ? Hk' Hall']; subst.
      destruct (IH Hnd' Hall') as [IH1 IH2].
      split; [|now constructor].
      constructor; [|exact IH1].
      intros Hin. apply Hnotin. clear - Hin Hne.
      induction d as [|[k2 v2] d IHd]; cbn [dict_set map fst] in Hin.
      * destruct Hin as [H|[]]. cbn in H. congruence.
      * destruct (String.eqb_spec k k2) as [->|Hne2]; cbn [map fst] in *.
        -- destruct Hin as [H|H]; [congruence | now right].
        -- destruct Hin as [H|H]; [now left | right; now apply IHd].
Qed.

Lemma step_effects i o o' :
  step client ctx tasks i o = Some o' ->
  (forall c, ~ In c (map category tasks) ->
     get_briefing c (o_state o') = get_briefing c (o_state o)) /\
  (exists emitted,
     o_log o' = (o_log o ++ emitted)%list /\
     Forall (fun e => exists k, of_task tasks k /\ event_category e = Some k) emitted) /\
  (NoDup (map fst (o_briefings o)) /\ Forall (fun kv => of_task tasks (fst kv)) (o_briefings o) ->
   NoDup (map fst (o_briefings o')) /\ Forall (fun kv => of_task tasks (fst kv)) (o_briefings o')).
Proof.
  unfold step. intros Hstep.
  destruct (nth_error tasks i) as [task|] eqn:Et; [|discriminate].
  assert (Hin : In task tasks) by (eapply nth_error_In; eassumption).
  assert (Hof : of_task tasks (cat (category task))) by (exists task; auto).
  assert (Hother : forall c v st, ~ In c (map category tasks) ->
            get_briefing c (set_briefing (category task) v st) = get_briefing c st).
  { intros c v st Hc. apply get_set_briefing_other. intros ->. apply Hc.
    now apply in_map. }
  assert (Hquiet : forall l : list StatusEvent, exists emitted,
            l = (l ++ emitted)%list /\
            Forall (fun e => exists k, of_task tasks k /\ event_category e = Some k) emitted).
  { intros l. exists []. rewrite app_nil_r. split; [reflexivity | constructor]. }
  assert (Hnote : forall ws job stt msg p l, event_category
                    {| ev_job_id := ""; ev_status := ""; ev_message := ""; ev_result := p |}
                    = Some (cat (category task)) ->
            exists emitted,
              notify ws job stt msg p l = (l ++ emitted)%list /\
              Forall (fun e => exists k, of_task tasks k /\ event_category e = Some k) emitted).
  { intros ws job stt msg p l Hp.
    destruct (notify_emits ws job stt msg p l) as (emitted & -> & _ & Hall).
    exists emitted. split; [reflexivity|].
    eapply Forall_impl; [|exact Hall]. intros e He.
    exists (cat (category task)). split; [exact Hof|].
    unfold event_category in *. cbn [ev_result] in Hp. now rewrite He. }
  destruct (nth_error (pcs o) i) as [p|]; [|discriminate].
  destruct p; try discriminate.
  - destruct (semaphore o); [discriminate|]. injection Hstep as <-.
    cbn [o_state o_log o_briefings]. auto.
  - assert (Hs : exists emitted,
              briefing_start (curated_data task) (cat (category task)) ctx (o_log o)
              = (o_log o ++ emitted)%list /\
              Forall (fun e => exists k, of_task tasks k /\ event_category e = Some k) emitted).
    { apply Hnote. reflexivity. }
    destruct (briefing_prompt _ _ _); injection Hstep as <-;
      cbn [o_state o_log o_briefings]; auto.
  - destruct (briefing_answer _ _ _ _) as [log2 r] eqn:Ea. injection Hstep as <-.
    cbn [o_state o_log o_briefings]. split; [auto|]. split; [|auto].
    unfold briefing_answer in Ea.
    destruct (chat_create _ _ _) as [e|[text|]]; try (injection Ea as <- _; apply Hquiet).
    destruct (Py.truthy (Py.strip text)); injection Ea as <- _; [|apply Hquiet].
    apply Hnote. reflexivity.
  - destruct (Py.truthy (result_content r)); injection Hstep as <-;
      cbn [o_state o_log o_briefings]; (split; [auto|]); (split; [apply Hquiet|]).
    + intros [Hnd Hall]. now apply dict_set_keys.
    + auto.
Qed.

Lemma reachable_effects o0 o :
  reachable client ctx tasks o0 o ->
  (forall c, ~ In c (map category tasks) ->
     get_briefing c (o_state o) = get_briefing c (o_state o0)) /\
  (exists emitted,
     o_log o = (o_log o0 ++ emitted)%list /\
     Forall (fun e => exists k, of_task tasks k /\ event_category e = Some k) emitted) /\
  (NoDup (map fst (o_briefings o0)) /\ Forall (fun kv => of_task tasks (fst kv)) (o_briefings o0) ->
   NoDup (map fst (o_briefings o)) /\ Forall (fun kv => of_task tasks (fst kv)) (o_briefings o)).
Proof.
  induction 1 as [o|o o1 o2 i _ IH Hstep].
  - split; [auto|]. split; [|auto]. exists []. rewrite app_nil_r. split; [reflexivity|constructor].
  - destruct IH as (IHs & (em1 & El1 & Hem1) & IHb).
    destruct (step_effects i o1 o2 Hstep) as (Hs & (em2 & El2 & Hem2) & Hb).
    split; [|split].
    + intros c Hc. rewrite Hs by exact Hc. now apply IHs.
    + exists (em1 ++ em2)%list. rewrite El2, El1, app_assoc. split; [reflexivity|].
      apply Forall_app. auto.
    + auto.
Qed.

End Skipping.

(** ** The Briefing Orchestrator: the join *)

Section Join.
Import Briefing Spec.

Context {py : Sorting}.

Local Open Scope string_scope.

Variable client : Client.
Variable ctx : Context.
Variable tasks : list Task.

Lemma run_app s1 s2 o :
  run_schedule client ctx tasks (s1 ++ s2)%list o
  = run_schedule client ctx tasks s2 (run_schedule client ctx tasks s1 o).
Proof.
  revert o. induction s1 as [|i s1 IH]; intros o; [reflexivity|].
  cbn [app run_schedule]. destruct (step client ctx tasks i o); apply IH.
Qed.

Lemma run_some i rest o o' :
  step client ctx tasks i o = Some o' ->
  run_schedule client ctx tasks (i :: rest) o = run_schedule client ctx tasks rest o'.
Proof. intros H. cbn [run_schedule]. now rewrite H. Qed.

Lemma run_none i rest o :
  step client ctx tasks i o = None ->
  run_schedule client ctx tasks (i :: rest) o = run_schedule client ctx tasks rest o.
Proof. intros H. cbn [run_schedule]. now rewrite H. Qed.

Lemma step_done i o p :
  nth_error (pcs o) i = Some p -> is_done p = true -> step client ctx tasks i o = None.
Proof.
  intros Hp Hd. unfold step. rewrite Hp.
  destruct (nth_error tasks i); destruct p; try discriminate; reflexivity.
Qed.

(** What a step changes besides the coroutine it runs: nothing. *)
Lemma step_others i o o' :
  step client ctx tasks i o = Some o' ->
  List.length (pcs o') = List.length (pcs o) /\
  (forall j, j <> i -> nth_error (pcs o') j = nth_error (pcs o) j) /\
  (o_raised o <> None -> o_raised o' <> None).
Proof.
  unfold step. intros H.
  destruct (nth_error tasks i); [|discriminate].
  destruct (nth_error (pcs o) i) as [p|]; [|discriminate].
  assert (Hset : forall p', List.length (set_nth i p' (pcs o)) = List.length (pcs o) /\
            (forall j, j <> i -> nth_error (set_nth i p' (pcs o)) j = nth_error (pcs o) j)).
  { intros p'. split; [apply length_set_nth|].
    intros j Hj. apply nth_error_set_nth_neq. congruence. }
  destruct p; try discriminate.
  - destruct (semaphore o); [discriminate|]. injection H as <-. cbn.
    split; [|split]; try apply Hset; auto.
  - destruct (briefing_prompt _ _ _); injection H as <-; cbn;
      (split; [|split]); try apply Hset; auto.
    destruct (o_raised o); congruence.
  - destruct (briefing_answer _ _ _ _). injection H as <-. cbn.
    split; [|split]; try apply Hset; auto.
  - destruct (Py.truthy _); injection H as <-; cbn; (split; [|split]); try apply Hset; auto.
Qed.

(** A coroutine that finds a free slot runs to its end in four steps, and
    leaves the semaphore as it found it. *)
Lemma task_runs i o task :
  nth_error tasks i = Some task ->
  nth_error (pcs o) i = Some Queued ->
  (0 < semaphore o)%nat ->
  let o' := run_schedule client ctx tasks [i; i; i; i] o in
  semaphore o' = semaphore o /\
  List.length (pcs o') = List.length (pcs o) /\
  (forall j, j <> i -> nth_error (pcs o') j = nth_error (pcs o) j) /\
  (o_raised o <> None -> o_raised o' <> None) /\
  exists p, nth_error (pcs o') i = Some p /\ is_done p = true /\
            (is_finished p = false -> o_raised o' <> None) /\
            (is_ok (briefing_prompt (curated_data task) (cat (category task)) ctx) = true ->
             is_finished p = true /\ o_raised o' = o_raised o).
Proof.
  intros Ht Hq Hsem.
  (* first step: the slot *)
  destruct (semaphore o) as [|v] eqn:Es; [lia|].
  assert (H1 : step client ctx tasks i o = Some
            {| semaphore := v; pcs := set_nth i Entered (pcs o); o_state := o_state o;
               o_briefings := o_briefings o; o_log := o_log o; o_raised := o_raised o |}).
  { unfold step. now rewrite Ht, Hq, Es. }
  set (o1 := {| semaphore := v; pcs := set_nth i Entered (pcs o) |}) in H1.
  assert (Hp1 : nth_error (pcs o1) i = Some Entered)
    by (apply (nth_error_set_nth_eq i Entered Queued); exact Hq).
  destruct (step_others i o o1 H1) as (Hl1 & Ho1 & Hr1).
  cbv zeta. rewrite (run_some i _ o o1 H1).
  (* second step: the start event and the prompt *)
  destruct (step client ctx tasks i o1) as [o2|] eqn:H2;
    [|unfold step in H2; rewrite Ht, Hp1 in H2;
      destruct (briefing_prompt _ _ _); discriminate].
  destruct (step_others i o1 o2 H2) as (Hl2 & Ho2 & Hr2).
  rewrite (run_some i _ o1 o2 H2).
  unfold step in H2. rewrite Ht, Hp1 in H2.
  destruct (briefing_prompt (curated_data task) (cat (category task)) ctx) as [prompt|e] eqn:Ep.
  - injection H2 as E2.
    assert (Hp2 : nth_error (pcs o2) i = Some (InFlight prompt)).
    { rewrite <- E2. cbn [pcs]. now apply (nth_error_set_nth_eq i _ Entered). }
    (* third step: the answer *)
    destruct (step client ctx tasks i o2) as [o3|] eqn:H3;
      [|unfold step in H3; rewrite Ht, Hp2 in H3;
        destruct (briefing_answer _ _ _ _); discriminate].
    destruct (step_others i o2 o3 H3) as (Hl3 & Ho3 & Hr3).
    rewrite (run_some i _ o2 o3 H3).
    unfold step in H3. rewrite Ht, Hp2 in H3.
    destruct (briefing_answer _ _ _ _) as [log2 r]. injection H3 as E3.
    assert (Hp3 : nth_error (pcs o3) i = Some (Responded r)).
    { rewrite <- E3. cbn [pcs]. now apply (nth_error_set_nth_eq i _ (InFlight prompt)). }
    (* fourth step: the writes and the release *)
    destruct (step client ctx tasks i o3) as [o4|] eqn:H4;
      [|unfold step in H4; rewrite Ht, Hp3 in H4;
        destruct (Py.truthy _); discriminate].
    destruct (step_others i o3 o4 H4) as (Hl4 & Ho4 & Hr4).
    rewrite (run_some i _ o3 o4 H4). cbn [run_schedule].
    unfold step in H4. rewrite Ht, Hp3 in H4.
    assert (S2 : semaphore o2 = v /\ o_raised o2 = o_raised o) by (now rewrite <- E2).
    assert (S3 : semaphore o3 = semaphore o2 /\ o_raised o3 = o_raised o2)
      by (now rewrite <- E3).
    assert (Hsem4 : semaphore o4 = S v /\ o_raised o4 = o_raised o /\
              exists p, nth_error (pcs o4) i = Some p /\ is_finished p = true).
    { destruct S2 as [S2a S2b], S3 as [S3a S3b].
      destruct (Py.truthy _); injection H4 as E4; rewrite <- E4;
        cbn [semaphore o_raised pcs];
        (split; [congruence|]); (split; [congruence|]);
        eexists; (split; [eapply nth_error_set_nth_eq; exact Hp3|]);
        reflexivity. }
    destruct Hsem4 as (Hs4 & Hra4 & p & Hp4 & Hfin).
    split; [exact Hs4|]. split; [congruence|]. split.
    { intros j Hj. rewrite Ho4, Ho3, Ho2, Ho1; auto. }
    split; [auto|].
    exists p. split; [exact Hp4|]. split; [now destruct p|].
    split; [congruence|]. auto.
  - injection H2 as E2.
    assert (Hp2 : nth_error (pcs o2) i = Some (Crashed e)).
    { rewrite <- E2. cbn [pcs]. now apply (nth_error_set_nth_eq i _ Entered). }
    assert (H3 : step client ctx tasks i o2 = None)
      by (apply (step_done i o2 _ Hp2); reflexivity).
    rewrite !(run_none i _ o2 H3). cbn [run_schedule].
    split; [now rewrite <- E2|]. split; [congruence|]. split.
    { intros j Hj. rewrite Ho2, Ho1; auto. }
    split; [auto|].
    exists (Crashed e). split; [exact Hp2|]. split; [reflexivity|].
    split; [|intros H; cbn in H; discriminate H].
    intros _. rewrite <- E2. cbn [o_raised].
    match goal with |- match ?x with _ => _ end <> _ => destruct x end; discriminate.
Qed.

(** The state of the run once the first [k] coroutines have run. *)
Lemma sequential_prefix st log k :
  (k <= List.length tasks)%nat ->
  let o := run_schedule client ctx tasks (sequential k) (enter_gather tasks st log) in
  semaphore o = 2%nat /\
  List.length (pcs o) = List.length tasks /\
  (forall j, (k <= j < List.length tasks)%nat -> nth_error (pcs o) j = Some Queued) /\
  (forall j, (j < k)%nat ->
     exists p, nth_error (pcs o) j = Some p /\ is_done p = true /\
               (o_raised o = None -> is_finished p = true)) /\
  (Forall (fun task =>
             is_ok (briefing_prompt (curated_data task) (cat (category task)) ctx) = true)
          tasks -> o_raised o = None).
Proof.
  induction k as [|k IH]; intros Hk; cbv zeta.
  - cbn [sequential seq flat_map run_schedule].
    split; [reflexivity|]. split; [apply length_map|]. split; [|split].
    + intros j [_ Hj]. unfold enter_gather. cbn [pcs].
      destruct (nth_error tasks j) as [t|] eqn:E.
      * now rewrite (map_nth_error _ _ _ E).
      * apply nth_error_None in E. lia.
    + intros j Hj. lia.
    + reflexivity.
  - assert (Hseq : sequential (S k) = (sequential k ++ [k; k; k; k])%list).
    { unfold sequential. rewrite seq_S, flat_map_app. reflexivity. }
    rewrite Hseq, run_app.
    destruct (IH ltac:(lia)) as (Hs & Hl & Hq & Hd & Hok).
    set (o := run_schedule client ctx tasks (sequential k) (enter_gather tasks st log)) in *.
    destruct (nth_error tasks k) as [task|] eqn:Et;
      [|apply nth_error_None in Et; lia].
    destruct (task_runs k o task Et (Hq k ltac:(lia)) ltac:(lia))
      as (Hs' & Hl' & Ho' & Hr' & p & Hp & Hdone & Hcrash & Hfin).
    set (o' := run_schedule client ctx tasks [k; k; k; k] o) in *.
    split; [congruence|]. split; [congruence|]. split; [|split].
    + intros j Hj. rewrite Ho' by lia. apply Hq. lia.
    + intros j Hj. destruct (Nat.eq_dec j k) as [->|Hne].
      * exists p. split; [exact Hp|]. split; [exact Hdone|].
        intros Hnone. destruct (is_finished p) eqn:Ef; [reflexivity|].
        now destruct (Hcrash eq_refl).
      * rewrite Ho' by exact Hne. destruct (Hd j ltac:(lia)) as (q & Hq1 & Hq2 & Hq3).
        exists q. split; [exact Hq1|]. split; [exact Hq2|].
        intros Hnone. apply Hq3. destruct (o_raised o) eqn:Er; [|reflexivity].
        exfalso. apply Hr'; [discriminate | exact Hnone].
    + intros Hall. pose proof Hall as Hall'. rewrite Forall_forall in Hall'.
      destruct (Hfin (Hall' task (nth_error_In _ _ Et))) as [_ ->]. now apply Hok.
Qed.

Lemma forallb_nth {A} (f : A -> bool) l :
  (forall j, (j < List.length l)%nat -> exists p, nth_error l j = Some p /\ f p = true) ->
  forallb f l = true.
Proof.
  induction l as [|x l IH]; intros H; [reflexivity|].
  cbn [forallb]. apply andb_true_iff. split.
  - destruct (H 0%nat ltac:(cbn; lia)) as (p & Hp & Hf). cbn in Hp. congruence.
  - apply IH. intros j Hj. apply (H (S j)). cbn. lia.
Qed.

(** Under the sequential schedule every coroutine ends, so [gather]
    resolves and [create_briefings] returns or re-raises; it returns when
    no ranking raises. *)
Lemma sequential_completes st log :
  let o := run_schedule client ctx tasks (sequential (List.length tasks))
             (enter_gather tasks st log) in
  forallb is_done (pcs o) = true /\
  finish o <> None /\
  (Forall (fun task =>
             is_ok (briefing_prompt (curated_data task) (cat (category task)) ctx) = true)
          tasks ->
   finish o = Some (Ok (set_briefings (o_briefings o) (o_state o)))).
Proof.
  destruct (sequential_prefix st log (List.length tasks) (Nat.le_refl _))
    as (Hs & Hl & _ & Hd & Hok).
  set (o := run_schedule client ctx tasks (sequential (List.length tasks))
              (enter_gather tasks st log)) in *.
  cbv zeta.
  assert (Hfin : o_raised o = None -> forallb is_finished (pcs o) = true).
  { intros Hn. apply forallb_nth. intros j Hj. rewrite Hl in Hj.
    destruct (Hd j Hj) as (p & Hp & _ & Hf). exists p. auto. }
  split; [|split].
  - apply forallb_nth. intros j Hj. rewrite Hl in Hj.
    destruct (Hd j Hj) as (p & Hp & Hdone & _). exists p. auto.
  - unfold finish. destruct (o_raised o); [discriminate|].
    now rewrite Hfin.
  - intros Hall. unfold finish. rewrite (Hok Hall). now rewrite (Hfin (Hok Hall)).
Qed.

End Join.

(** ** The Briefing Orchestrator: the statement on skipped categories *)

Section Skipped.
Import Briefing Spec.

Context {py : Sorting}.

Local Open Scope string_scope.

Lemma all_categories c : In c categories.
Proof. destruct c; cbn; auto. Qed.

Lemma skipped_category (client : Client) (st : ResearchState) (schedule : list nat)
    (c : Category) ctx tasks o0 :
  docs_truthy (curated st c) = false ->
  start st = (ctx, tasks, o0) ->
  let o := run_schedule client ctx tasks schedule o0 in
  ~ In c (map category tasks) /\
  get_briefing c (o_state o0) = Some "" /\
  get_briefing c (o_state o) = Some "" /\
  (forall e, In e (o_log o) -> event_category e <> Some (cat c)) /\
  (forall v, ~ In (cat c, v) (o_briefings o)) /\
  NoDup (map fst (o_briefings o)) /\
  Forall (fun kv => of_task tasks (fst kv)) (o_briefings o).
Proof.
  intros Hc Hstart. unfold start in Hstart.
  pose proof (plan_tasks st) as Hcats.
  destruct (plan_spec categories st []) as (_ & Hskip & _).
  specialize (Hskip c (all_categories c) Hc).
  destruct (plan categories st []) as [st1 tasks1]. cbn [fst snd] in *.
  injection Hstart as <- <- <-.
  assert (Hnot : ~ In c (map category tasks1)).
  { rewrite Hcats. intros Hin. apply filter_In in Hin. destruct Hin as [_ Hin]. congruence. }
  assert (Hkey : ~ of_task tasks1 (cat c)).
  { intros (task & Hin & E). apply cat_injective in E. subst c.
    apply Hnot. now apply in_map. }
  cbv zeta.
  set (o0 := enter_gather tasks1 st1 _).
  destruct (reachable_effects client (make_context st) tasks1 o0 _
              (run_schedule_reachable client (make_context st) tasks1 schedule o0))
    as (Hst & (emitted & Hlog & Hem) & Hb).
  destruct (Hb (conj (NoDup_nil _) (Forall_nil _))) as [Hnd Hkeys].
  split; [exact Hnot|]. split; [exact Hskip|]. split; [|split; [|split; [|split]]].
  - rewrite Hst by exact Hnot. exact Hskip.
  - intros e He. rewrite Hlog in He. apply in_app_or in He. destruct He as [He|He].
    + unfold o0, enter_gather in He. cbn [o_log] in He.
      destruct (notify_emits (websocket_manager st) (job_id st) "processing"
                  "Starting research briefings" (PStep "Briefing" None) [])
        as (first & Hfirst & _ & Hall).
      rewrite Hfirst in He. cbn [app] in He. rewrite Forall_forall in Hall.
      unfold event_category. rewrite (Hall e He). discriminate.
    + rewrite Forall_forall in Hem. destruct (Hem e He) as (k & Hk & ->).
      intros E. injection E as ->. contradiction.
  - intros v Hin. rewrite Forall_forall in Hkeys. apply Hkey. exact (Hkeys _ Hin).
  - exact Hnd.
  - exact Hkeys.
Qed.

(** C8.  A category whose curated dataset is empty gets no task; its
    briefing field is set to the empty text and stays so; no event names
    it and the briefings map never has its key, under every schedule and
    every backend.  In the example, with company and financial data
    only, there are exactly the two tasks company and financial, the
    revenue and industry briefings are set to the empty text, the
    briefings map never has more than 2 keys, and the run returns. *)
Theorem empty_category_skipped :
  (forall (client : Client) (st : ResearchState) (schedule : list nat) (c : Category),
     docs_truthy (curated st c) = false ->
     let '(ctx, tasks, o0) := start st in
     let o := run_schedule client ctx tasks schedule o0 in
     ~ In c (map category tasks) /\
     get_briefing c (o_state o0) = Some "" /\
     get_briefing c (o_state o) = Some "" /\
     (forall e, In e (o_log o) -> event_category e <> Some (cat c)) /\
     (forall v, ~ In (cat c, v) (o_briefings o)))
  /\
  (let '(ctx, tasks, o0) := start Sample.example_state in
   map category tasks = [Company; Financial] /\
   revenue_briefing (o_state o0) = Some "" /\
   industry_briefing (o_state o0) = Some "" /\
   company_briefing (o_state o0) = None /\
   financial_briefing (o_state o0) = None /\
   (forall (client : Client) (schedule : list nat),
      let o := run_schedule client ctx tasks schedule o0 in
      (List.length (o_briefings o) <= 2)%nat /\
      revenue_briefing (o_state o) = Some "" /\
      industry_briefing (o_state o) = Some "" /\
      forall st', finish o = Some (Ok st') ->
        briefings st' = Some (o_briefings o) /\
        revenue_briefing st' = Some "" /\ industry_briefing st' = Some "") /\
   (forall client : Client,
      exists st' b,
        finish (run_schedule client ctx tasks (sequential 2) o0) = Some (Ok st') /\
        briefings st' = Some b /\ (List.length b <= 2)%nat /\
        revenue_briefing st' = Some "" /\ industry_briefing st' = Some "")).
Proof.
  split.
  - intros client st schedule c Hc.
    destruct (start st) as [[ctx tasks] o0] eqn:Es.
    destruct (skipped_category client st schedule c ctx tasks o0 Hc Es)
      as (H1 & H2 & H3 & H4 & H5 & _).
    auto.
  - destruct (start Sample.example_state) as [[ctx tasks] o0] eqn:Es.
    assert (Hrun : forall (client : Client) (schedule : list nat),
              let o := run_schedule client ctx tasks schedule o0 in
              (List.length (o_briefings o) <= 2)%nat /\
              revenue_briefing (o_state o) = Some "" /\
              industry_briefing (o_state o) = Some "").
    { intros client schedule.
      destruct (skipped_category client Sample.example_state schedule Revenue
                  ctx tasks o0 eq_refl Es) as (_ & _ & Hrev & _ & _ & Hnd & Hkeys).
      destruct (skipped_category client Sample.example_state schedule Industry
                  ctx tasks o0 eq_refl Es) as (_ & _ & Hind & _).
      cbv zeta. split; [|split; [exact Hrev | exact Hind]].
      rewrite <- (length_map fst).
      change 2%nat with (List.length ["company"; "financial"]).
      apply NoDup_incl_length; [exact Hnd|].
      intros k Hk. apply in_map_iff in Hk. destruct Hk as (kv & <- & Hin).
      rewrite Forall_forall in Hkeys. destruct (Hkeys kv Hin) as (task & Ht & ->).
      vm_compute in Es. injection Es as _ <- _.
      destruct Ht as [<-|[<-|[]]]; cbn; auto. }
    assert (Hfin : forall client schedule st',
              finish (run_schedule client ctx tasks schedule o0) = Some (Ok st') ->
              briefings st' = Some (o_briefings (run_schedule client ctx tasks schedule o0)) /\
              revenue_briefing st' = Some "" /\ industry_briefing st' = Some "").
    { intros client schedule st' Hf.
      destruct (Hrun client schedule) as (_ & Hrev & Hind).
      unfold finish in Hf. destruct (o_raised _); [discriminate|].
      destruct (forallb _ _); [|discriminate]. injection Hf as <-. auto. }
    assert (Hex : forall client : Client,
              exists st', finish (run_schedule client ctx tasks (sequential 2) o0)
                          = Some (Ok st')).
    { intros client. vm_compute in Es. injection Es as <- <- <-.
      match goal with
      | |- context [run_schedule client ?c ?t _ ?o] =>
          destruct (sequential_completes client c t (o_state o) (o_log o)) as (_ & _ & H)
      end.
      eexists. apply H. repeat constructor. }
    split; [vm_compute in Es; now injection Es as _ <- _|].
    split; [vm_compute in Es; now injection Es as _ _ <-|].
    split; [vm_compute in Es; now injection Es as _ _ <-|].
    split; [vm_compute in Es; now injection Es as _ _ <-|].
    split; [vm_compute in Es; now injection Es as _ _ <-|].
    split.
    + intros client schedule. cbv zeta.
      destruct (Hrun client schedule) as (Hlen & Hrev & Hind).
      split; [exact Hlen|]. split; [exact Hrev|]. split; [exact Hind|].
      apply Hfin.
    + intros client. destruct (Hex client) as [st' Hst'].
      destruct (Hfin client (sequential 2) st' Hst') as (Hb & Hrev & Hind).
      destruct (Hrun client (sequential 2)) as (Hlen & _).
      exists st', (o_briefings (run_schedule client ctx tasks (sequential 2) o0)). auto.
Qed.

End Skipped.

Section SkippedExamples.
Import Briefing Spec.

#[local] Existing Instance Sample.as_given.

Local Open Scope string_scope.

Lemma empty_category_skipped_witness :
  let '(ctx, tasks, o0) := start Sample.example_state in
  let o := run_schedule Sample.client_ok ctx tasks (round_robin 2) o0 in
  ~ In Revenue (map category tasks) /\
  get_briefing Revenue (o_state o0) = Some "" /\
  get_briefing Revenue (o_state o) = Some "" /\
  (forall e, In e (o_log o) -> event_category e <> Some (cat Revenue)) /\
  (forall v, ~ In (cat Revenue, v) (o_briefings o)).
Proof.
  apply (proj1 empty_category_skipped Sample.client_ok Sample.example_state
           (round_robin 2) Revenue).
  reflexivity.
Defined.

End SkippedExamples.

(** ** Trimming *)

Section Trimming.
Import Py Spec.

Local Open Scope string_scope.

Lemma lstrip_clean s : clean_start s = true -> lstrip s = s.
Proof.
  destruct s as [|c s]; [reflexivity|]. cbn. intros H.
  apply negb_true_iff in H. now rewrite H.
Qed.

Lemma rstrip_cons c s :
  rstrip (String c s)
  = match rstrip s with
    | EmptyString => if is_space c then EmptyString else String c EmptyString
    | r => String c r
    end.
Proof. reflexivity. Qed.

Lemma rstrip_clean s : clean_end s = true -> rstrip s = s.
Proof.
  induction s as [|c s IH]; [reflexivity|].
  destruct s as [|c' s'].
  - cbn. intros H. apply negb_true_iff in H. now rewrite H.
  - intros H. change (clean_end (String c' s') = true) in H.
    rewrite rstrip_cons, (IH H). reflexivity.
Qed.

Lemma strip_clean s : clean_start s = true -> clean_end s = true -> strip s = s.
Proof. intros Hs He. unfold strip. rewrite (lstrip_clean s Hs). now apply rstrip_clean. Qed.

Lemma clean_start_lstrip s : clean_start (lstrip s) = true.
Proof.
  induction s as [|c s IH]; [reflexivity|]. cbn [lstrip].
  destruct (is_space c) eqn:E; [exact IH|]. cbn. now rewrite E.
Qed.

Lemma clean_start_rstrip s : clean_start s = true -> clean_start (rstrip s) = true.
Proof.
  destruct s as [|c s]; [reflexivity|]. rewrite rstrip_cons. cbn [clean_start]. intros H.
  destruct (rstrip s); [|exact H].
  destruct (is_space c) eqn:E; [reflexivity|]. cbn. now rewrite E.
Qed.

Lemma clean_end_rstrip s : clean_end (rstrip s) = true.
Proof.
  induction s as [|c s IH]; [reflexivity|]. rewrite rstrip_cons.
  destruct (rstrip s) as [|c' r].
  - destruct (is_space c) eqn:E; [reflexivity|]. cbn. now rewrite E.
  - exact IH.
Qed.

Lemma strip_is_clean s : clean_start (strip s) = true /\ clean_end (strip s) = true.
Proof.
  unfold strip. split.
  - apply clean_start_rstrip, clean_start_lstrip.
  - apply clean_end_rstrip.
Qed.

Lemma clean_start_append s t :
  truthy s = true -> clean_start (s ++ t) = clean_start s.
Proof. destruct s; [discriminate | reflexivity]. Qed.

Lemma clean_end_append s t :
  truthy t = true -> clean_end (s ++ t) = clean_end t.
Proof.
  intros Ht. induction s as [|c s IH]; [reflexivity|].
  cbn [append]. destruct (s ++ t) eqn:E.
  - destruct s; [|discriminate]. cbn in E. subst t. discriminate.
  - cbn [clean_end]. exact IH.
Qed.

Lemma truthy_append_r s t : truthy t = true -> truthy (s ++ t) = true.
Proof. destruct s; [auto | reflexivity]. Qed.

Lemma truthy_append_l s t : truthy s = true -> truthy (s ++ t) = true.
Proof. destruct s; [discriminate | reflexivity]. Qed.

(** Joining texts that are trimmed and not empty gives a text that is
    trimmed and not empty, whatever the separator. *)
Lemma join_clean sep x l :
  Forall (fun s => truthy s = true /\ clean_start s = true /\ clean_end s = true) (x :: l) ->
  truthy (join sep (x :: l)) = true /\
  clean_start (join sep (x :: l)) = true /\
  clean_end (join sep (x :: l)) = true.
Proof.
  revert x. induction l as [|y l IH]; intros x H.
  - inversion H; subst. assumption.
  - inversion H as [|? ? (Hx1 & Hx2 & Hx3) Hrest]; subst.
    destruct (IH y Hrest) as (H1 & H2 & H3).
    change (join sep (x :: y :: l)) with (x ++ sep ++ join sep (y :: l)).
    split; [now apply truthy_append_l|].
    split; [now rewrite clean_start_append|].
    rewrite clean_end_append by (now apply truthy_append_r).
    now rewrite clean_end_append.
Qed.

Lemma strip_join_written sep l :
  Forall written_by_briefing l -> strip (join sep l) = join sep l.
Proof.
  intros H. destruct l as [|x l]; [reflexivity|].
  destruct (join_clean sep x l) as (_ & Hs & He).
  - eapply Forall_impl; [|exact H]. intros s [Ht [answer ->]].
    destruct (strip_is_clean answer). auto.
  - now apply strip_clean.
Qed.

End Trimming.

(** ** The Editor: compilation and normalisation *)

Section Fallbacks.
Import Editor Spec.

Local Open Scope string_scope.

Lemma str_or_empty s : Py.str_or s "" = s.
Proof. now destruct s. Qed.

Lemma collect_spec keys : forall st ib msg,
  fst (collect keys st ib msg)
  = (ib ++ map (fun c => (Briefing.cat c, get_or (Briefing.get_briefing c st) ""))
               (filter (fun c => Py.truthy (get_or (Briefing.get_briefing c st) "")) keys))%list.
Proof.
  induction keys as [|c keys IH]; intros st ib msg; cbn [collect filter map].
  - now rewrite app_nil_r.
  - destruct (Py.truthy (get_or (Briefing.get_briefing c st) "")).
    + rewrite IH, <- app_assoc. reflexivity.
    + apply IH.
Qed.

(** C6, as amended.  When the formatter has returned and the backend
    call of the Compiler raises, the Compiler does not raise: it returns
    the briefing texts joined by blank lines, in the order of the
    briefings it was given, trimmed of the white space around the whole;
    it changes neither the state nor the event log.  The briefings the
    Editor gives it are the non-empty ones of the state in the fixed
    order company, industry, financial, revenue.  Trimming changes
    nothing when every briefing is a trimmed, non-empty answer, which is
    how the Briefing stage writes them. *)
Theorem compile_content_fallback :
  (forall (fmt : Formatter) (client : Client) (self_context : EditorContext)
          (briefings : list (string * string)) (company : string) (w : World)
          (reference_text : string) (e : exn),
     match references (w_state w) with
     | [] => Ok ""
     | refs => fmt refs (reference_info (w_state w)) (reference_titles (w_state w))
     end = Ok reference_text ->
     chat_create client 0
       [("system", compile_system);
        ("user", compile_prompt (ectx_company self_context) (ectx_industry self_context)
                   (Py.join blank_line (map snd briefings)))]
     = BackendRaises e ->
     compile_content fmt client self_context briefings company w
     = (w, Ok (Py.strip (Py.join blank_line (map snd briefings)))))
  /\
  (forall st msg,
     fst (collect briefing_keys st [] msg) = available_briefings st /\
     briefing_keys = [Company; Industry; Financial; Revenue])
  /\
  (forall briefings : list (string * string),
     Forall (fun kv => written_by_briefing (snd kv)) briefings ->
     Py.strip (Py.join blank_line (map snd briefings))
     = Py.join blank_line (map snd briefings)).
Proof.
  split.
  - intros fmt client self_context briefings company w reference_text e Hfmt Hcall.
    unfold compile_content, bind, get_state, try_except, completion.
    rewrite Hcall.
    assert (Href : match references (w_state w) with
                   | [] => ret ""
                   | r :: l => lift (fmt (r :: l) (reference_info (w_state w))
                                         (reference_titles (w_state w)))
                   end w = (w, Ok reference_text)).
    { destruct (references (w_state w)); unfold ret, lift; now rewrite <- Hfmt. }
    rewrite Href. unfold raise, ret. now rewrite str_or_empty.
  - split.
    + intros st msg. split; [|reflexivity].
      now rewrite collect_spec.
    + intros briefings H. apply strip_join_written.
      apply Forall_map. exact H.
Qed.

Lemma compile_content_fallback_witness :
  compile_content Sample.fmt_none Sample.client_down Sample.sample_context
    [("company", "* fact"); ("industry", "* trend")] "Acme"
    (Sample.world Sample.briefed_state)
  = (Sample.world Sample.briefed_state,
     Ok (Py.strip (Py.join blank_line ["* fact"; "* trend"]))).
Proof.
  apply (proj1 compile_content_fallback Sample.fmt_none Sample.client_down
           Sample.sample_context [("company", "* fact"); ("industry", "* trend")]
           "Acme" (Sample.world Sample.briefed_state) "" BackendError);
    reflexivity.
Defined.

(** C6 as it was stated fails: the fallback is not the raw concatenation
    when a briefing has white space at its outer end. *)
Lemma compile_content_trims :
  fst (collect briefing_keys Sample.padded_state [] []) = [("company", " * fact")] /\
  snd (compile_content Sample.fmt_none Sample.client_down Sample.sample_context
         [("company", " * fact")] "Acme" (Sample.world Sample.padded_state))
  = Ok "* fact" /\
  Py.join blank_line (map snd [("company", " * fact")]) = " * fact" /\
  "* fact" <> " * fact".
Proof. repeat split; try reflexivity. discriminate. Qed.

Lemma send_chunk_log buffer w :
  exists chunks,
    send_chunk buffer w
    = ({| w_state := w_state w; w_log := (w_log w ++ chunks)%list |}, Ok tt) /\
    chunks_only chunks.
Proof.
  unfold send_chunk, send.
  destruct (notify_emits (websocket_manager (w_state w)) (job_id (w_state w))
              "report_chunk" "Formatting final report" (PChunk buffer) (w_log w))
    as (chunks & -> & Hst & _).
  exists chunks. split; [reflexivity|].
  unfold chunks_only. destruct (channel_open _ _).
  - destruct chunks as [|c [|c' l]]; try discriminate.
    injection Hst as Hc. repeat constructor. exact Hc.
  - destruct chunks; [constructor | discriminate].
Qed.

(** The loop over a stream that ends in an error: it raises, and has
    only sent chunks. *)
Lemma stream_loop_raises response : forall accumulated_text buffer w,
  items_raise response = true ->
  exists e chunks,
    stream_loop response accumulated_text buffer w
    = ({| w_state := w_state w; w_log := (w_log w ++ chunks)%list |}, Raise e) /\
    chunks_only chunks.
Proof.
  induction response as [|item response IH]; intros acc buf w H; [discriminate|].
  destruct item as [fr delta|e]; cbn [items_raise stream_loop] in *.
  - destruct (is_stop fr); [discriminate|].
    assert (Hsame : exists e chunks,
              stream_loop response acc buf w
              = ({| w_state := w_state w; w_log := (w_log w ++ chunks)%list |}, Raise e) /\
              chunks_only chunks) by (now apply IH).
    destruct delta as [t|]; [|exact Hsame].
    destruct (Py.truthy t); [|exact Hsame].
    destruct (has_break (buf ++ t) && (Py.len (buf ++ t) >? 10)%Z); [|now apply IH].
    unfold bind. destruct (send_chunk_log (buf ++ t) w) as (c1 & -> & Hc1).
    destruct (IH (acc ++ t) "" {| w_state := w_state w; w_log := (w_log w ++ c1)%list |} H)
      as (e & c2 & -> & Hc2).
    exists e, (c1 ++ c2)%list. cbn [w_state w_log]. rewrite app_assoc.
    split; [reflexivity|]. now apply Forall_app.
  - exists e, []. rewrite app_nil_r. destruct w. split; [reflexivity | constructor].
Qed.

(** C7, as amended.  When the streaming call of the Normalizer raises,
    at once or from its iterator before the stop chunk, the Normalizer
    does not raise: it returns the document it received, trimmed of the
    white space around it.  It leaves the state alone and has sent
    nothing but the chunks it had flushed before the error. *)
Theorem content_sweep_fallback (client : Client) (self_context : EditorContext)
    (content company : string) (w : World) :
  stream_raises
    (chat_stream client
       [("system", sweep_system);
        ("user", sweep_prompt (ectx_company self_context) content)]) = true ->
  exists chunks,
    content_sweep client self_context content company w
    = ({| w_state := w_state w; w_log := (w_log w ++ chunks)%list |},
       Ok (Py.strip content)) /\
    chunks_only chunks.
Proof.
  intros H. unfold content_sweep, try_except, bind, completion_stream.
  destruct (chat_stream client _) as [e|response]; cbn [stream_raises] in H.
  - exists []. rewrite app_nil_r, str_or_empty. destruct w.
    split; [reflexivity | constructor].
  - unfold ret at 1.
    destruct (stream_loop_raises response "" "" w H) as (e & chunks & -> & Hc).
    exists chunks. unfold ret. rewrite str_or_empty. auto.
Qed.

Lemma content_sweep_fallback_witness :
  exists chunks,
    content_sweep Sample.client_down Sample.sample_context "# Acme" "Acme"
      (Sample.world Sample.briefed_state)
    = ({| w_state := Sample.briefed_state; w_log := ([] ++ chunks)%list |},
       Ok (Py.strip "# Acme")) /\
    chunks_only chunks.
Proof.
  apply (content_sweep_fallback Sample.client_down Sample.sample_context "# Acme" "Acme"
           (Sample.world Sample.briefed_state)).
  reflexivity.
Defined.

(** C7 as it was stated fails: a compiled document that ends in a line
    break, as one with a rendered reference section may, does not come
    back unchanged. *)
Lemma content_sweep_trims :
  snd (content_sweep Sample.client_down Sample.sample_context ("# Acme" ++ Py.nl) "Acme"
         (Sample.world Sample.briefed_state))
  = Ok "# Acme" /\
  "# Acme" <> "# Acme" ++ Py.nl.
Proof. split; [reflexivity | discriminate]. Qed.

End Fallbacks.

(** ** The Editor: no exception leaves it *)

Section Totality.
Import Editor Spec.

Local Open Scope string_scope.

Lemma report_rule_refl st : report_rule st st.
Proof. split; auto. Qed.

Lemma report_rule_trans st1 st2 st3 :
  report_rule st1 st2 -> report_rule st2 st3 -> report_rule st1 st3.
Proof.
  intros [Hm1 Hr1] [Hm2 Hr2]. split; [congruence|].
  destruct Hr2 as [Hr2|Hr2]; [|now right].
  destruct Hr1 as [Hr1|Hr1]; [left; congruence|].
  right. now rewrite Hr2.
Qed.

Lemma keeps_ret {A} (a : A) : keeps (ret a).
Proof. intros w. apply report_rule_refl. Qed.

Lemma keeps_raise {A} e : keeps (@raise A e).
Proof. intros w. apply report_rule_refl. Qed.

Lemma keeps_lift {A} (r : result A) : keeps (lift r).
Proof. intros w. apply report_rule_refl. Qed.

Lemma keeps_get_state : keeps get_state.
Proof. intros w. apply report_rule_refl. Qed.

Lemma keeps_send st msg p : keeps (send st msg p).
Proof. intros w. apply report_rule_refl. Qed.

Lemma keeps_update f : (forall st, report_rule st (f st)) -> keeps (update f).
Proof. intros H w. apply H. Qed.

Lemma keeps_bind {A B} (m : M A) (k : A -> M B) :
  keeps m -> (forall a, keeps (k a)) -> keeps (bind m k).
Proof.
  intros Hm Hk w. unfold bind. specialize (Hm w).
  destruct (m w) as [w1 [a|e]]; cbn [fst] in *; [|exact Hm].
  eapply report_rule_trans; [exact Hm | apply Hk].
Qed.

Lemma keeps_try {A} (body : M A) handler :
  keeps body -> (forall e, keeps (handler e)) -> keeps (try_except body handler).
Proof.
  intros Hb Hh w. unfold try_except. specialize (Hb w).
  destruct (body w) as [w1 [a|e]]; cbn [fst] in *; [exact Hb|].
  eapply report_rule_trans; [exact Hb | apply Hh].
Qed.

Lemma returns_ret {A} (a : A) : returns (ret a).
Proof. intros w. reflexivity. Qed.

Lemma returns_send st msg p : returns (send st msg p).
Proof. intros w. reflexivity. Qed.

Lemma returns_update f : returns (update f).
Proof. intros w. reflexivity. Qed.

Lemma returns_bind {A B} (m : M A) (k : A -> M B) :
  returns m -> (forall a, returns (k a)) -> returns (bind m k).
Proof.
  intros Hm Hk w. unfold bind. specialize (Hm w).
  destruct (m w) as [w1 [a|e]]; cbn [snd] in *; [apply Hk | discriminate].
Qed.

Lemma returns_try {A} (body : M A) handler :
  (forall e, returns (handler e)) -> returns (try_except body handler).
Proof.
  intros Hh w. unfold try_except.
  destruct (body w) as [w1 [a|e]]; [reflexivity | apply Hh].
Qed.

Lemma keeps_stream_loop response : forall acc buf, keeps (stream_loop response acc buf).
Proof.
  induction response as [|item response IH]; intros acc buf; cbn [stream_loop].
  - apply keeps_ret.
  - destruct item as [fr delta|e]; [|apply keeps_raise].
    destruct (is_stop fr).
    + apply keeps_bind; [|intros _; apply keeps_ret].
      destruct (Py.truthy buf); [apply keeps_send | apply keeps_ret].
    + destruct delta as [t|]; [|apply IH].
      destruct (Py.truthy t); [|apply IH].
      destruct (_ && _); [|apply IH].
      apply keeps_bind; [apply keeps_send | intros _; apply IH].
Qed.

Lemma keeps_compile_content fmt client self_context briefings company :
  keeps (compile_content fmt client self_context briefings company).
Proof.
  unfold compile_content.
  apply keeps_bind; [apply keeps_get_state | intros state].
  apply keeps_bind.
  - destruct (references state); [apply keeps_ret | apply keeps_lift].
  - intros reference_text. apply keeps_try; [|intros _; apply keeps_ret].
    apply keeps_bind; [|intros text; apply keeps_ret].
    unfold completion. destruct (chat_create _ _ _) as [e|[text|]];
      [apply keeps_raise | apply keeps_ret | apply keeps_raise].
Qed.

Lemma keeps_content_sweep client self_context content company :
  keeps (content_sweep client self_context content company).
Proof.
  unfold content_sweep.
  apply keeps_try; [|intros _; apply keeps_ret].
  apply keeps_bind.
  - unfold completion_stream. destruct (chat_stream _ _); [apply keeps_raise | apply keeps_ret].
  - intros response. apply keeps_bind; [apply keeps_stream_loop | intros t; apply keeps_ret].
Qed.

Lemma keeps_edit_report fmt client self_context briefings :
  keeps (edit_report fmt client self_context briefings).
Proof.
  unfold edit_report.
  apply keeps_try; [|intros _; apply keeps_ret].
  apply keeps_bind; [apply keeps_send | intros _].
  apply keeps_bind; [apply keeps_compile_content | intros edited_report].
  destruct (negb (Py.truthy edited_report)); [apply keeps_ret|].
  apply keeps_bind; [apply keeps_send | intros _].
  apply keeps_bind; [apply keeps_send | intros _].
  apply keeps_bind; [apply keeps_content_sweep | intros final_report].
  destruct (negb (Py.truthy (Py.strip (Py.str_or final_report "")))) eqn:E;
    [apply keeps_ret|].
  apply negb_false_iff in E.
  apply keeps_bind; [|intros _].
  { apply keeps_update. intros st. split; [reflexivity|]. right.
    exists (Py.str_or final_report ""). split; [reflexivity | exact E]. }
  apply keeps_bind;
    [apply keeps_update; intros st; split; [reflexivity | now left] | intros _].
  apply keeps_bind;
    [apply keeps_update; intros st; split; [reflexivity | now left] | intros _].
  apply keeps_bind; [apply keeps_send | intros _; apply keeps_ret].
Qed.

Lemma returns_edit_report fmt client self_context briefings :
  returns (edit_report fmt client self_context briefings).
Proof. unfold edit_report. apply returns_try. intros _. apply returns_ret. Qed.

(** [compile_briefings] in one piece: it returns, it appends one message,
    and it keeps to the rule on the report. *)
Lemma compile_briefings_spec fmt client w :
  exists w' lines,
    compile_briefings fmt client w = (w', Ok tt) /\
    messages (w_state w')
    = Some (get_or (messages (w_state w)) []
            ++ [editor_message (w_state w) lines])%list /\
    (report (w_state w') = report (w_state w) \/
     exists r, report (w_state w') = Some r /\ non_blank r = true).
Proof.
  unfold compile_briefings.
  unfold bind at 1. unfold get_state at 1.
  unfold bind at 1. unfold send at 1.
  unfold bind at 1. unfold send at 1.
  unfold editor_message. fold (announcement (w_state w)).
  set (first := announcement (w_state w)).
  assert (Hmsg : exists lines, snd (collect briefing_keys (w_state w) [] [first])
                               = first :: lines).
  { assert (G : forall keys st ib msg, exists more,
               snd (collect keys st ib msg) = (msg ++ more)%list).
    { induction keys as [|c keys IH]; intros st ib msg; cbn [collect].
      - exists []. now rewrite app_nil_r.
      - destruct (Py.truthy _); edestruct (IH st) as [more Hm]; rewrite Hm;
          rewrite <- app_assoc; eexists; reflexivity. }
    destruct (G briefing_keys (w_state w) [] [first]) as [more ->]. now exists more. }
  destruct Hmsg as [lines Hlines].
  destruct (collect briefing_keys (w_state w) [] [first]) as [ib msg].
  cbn [snd] in Hlines. subst msg.
  unfold bind. destruct ib as [|b ib].
  - unfold ret, update. do 2 eexists.
    split; [reflexivity|]. cbn [w_state]. split; [reflexivity | now left].
  - unfold try_except at 1. cbv beta.
    match goal with
    | |- context [edit_report fmt client ?c ?bs ?w0] =>
        pose proof (keeps_edit_report fmt client c bs w0) as Hk;
        pose proof (returns_edit_report fmt client c bs w0) as Hr;
        destruct (edit_report fmt client c bs w0) as [w3 [r|e]];
        [|discriminate Hr]
    end.
    cbn [fst w_state] in Hk. destruct Hk as [Hkm Hkr]. unfold ret, update.
    eexists. exists lines. split; [reflexivity|]. cbn [w_state].
    unfold append_message. cbn [messages report].
    split; [now rewrite Hkm | exact Hkr].
Qed.

(** A run with a backend that answers: the report is stored, mirrored,
    and announced. *)
Example run_with_answers :
  let w := fst (run Sample.fmt_none Sample.client_ok (Sample.world Sample.briefed_state)) in
  report (w_state w) = Some "# Acme" /\
  editor (w_state w) = EditorDict (Some "# Acme") /\
  status (w_state w) = Some "editor_complete" /\
  map ev_status (w_log w)
  = ["processing"; "processing"; "processing"; "processing"; "processing";
     "report_chunk"; "editor_complete"].
Proof. vm_compute. repeat split; reflexivity. Qed.

(** A run with a backend that is down: both fallbacks apply, and the
    report is the briefing itself. *)
Example run_with_backend_down :
  let w := fst (run Sample.fmt_none Sample.client_down (Sample.world Sample.briefed_state)) in
  report (w_state w) = Some "* fact" /\
  editor (w_state w) = EditorDict (Some "* fact").
Proof. vm_compute. split; reflexivity. Qed.

(** C9.  Whatever the state, the formatter and the backend do, errors in
    every call included, [compile_briefings] and [run] return the state
    and do not raise.  The state has one more message, which begins with
    the line announcing the compilation, and its report is the one it had
    or a text that is not blank. *)
Theorem editor_never_raises (fmt : Formatter) (client : Client) (w : World) :
  exists w1 w2 lines,
    compile_briefings fmt client w = (w1, Ok tt) /\
    run fmt client w = (w2, Ok tt) /\
    messages (w_state w2)
    = Some (get_or (messages (w_state w)) []
            ++ [editor_message (w_state w) lines])%list /\
    messages (w_state w2) = messages (w_state w1) /\
    report (w_state w2) = report (w_state w1) /\
    (report (w_state w2) = report (w_state w) \/
     exists r, report (w_state w2) = Some r /\ non_blank r = true).
Proof.
  destruct (compile_briefings_spec fmt client w) as (w1 & lines & Hc & Hm & Hr).
  unfold run, bind. rewrite Hc. unfold get_state.
  exists w1. destruct (report (w_state w1)) as [r|] eqn:Er.
  - eexists. exists lines. split; [reflexivity|]. split; [reflexivity|].
    cbn [w_state messages report mirror_report set_editor]. rewrite Er. auto.
  - exists w1, lines. split; [reflexivity|]. split; [reflexivity|]. rewrite Er in *. auto.
Qed.

(** C10, as amended.  After [run], a state that has a report has the
    same text under ['editor']['report'], and that text is not blank
    unless it is the report the state already had when the Editor
    started: the Editor itself never stores a blank report. *)
Theorem editor_report_mirrored (fmt : Formatter) (client : Client) (w : World) (r : string) :
  report (w_state (fst (run fmt client w))) = Some r ->
  editor (w_state (fst (run fmt client w))) = EditorDict (Some r) /\
  (non_blank r = true \/ report (w_state w) = Some r).
Proof.
  destruct (compile_briefings_spec fmt client w) as (w1 & lines & Hc & _ & Hr).
  unfold run, bind. rewrite Hc. unfold get_state.
  destruct (report (w_state w1)) as [r1|] eqn:Er; cbn [fst w_state update].
  - cbn [report mirror_report set_editor editor]. rewrite Er. intros E. injection E as ->.
    split; [reflexivity|].
    destruct Hr as [Hr|(r2 & Hr2 & Hn)]; [right; congruence | left; congruence].
  - unfold ret. cbn [fst]. rewrite Er. discriminate.
Qed.

Lemma editor_report_mirrored_witness :
  editor (w_state (fst (run Sample.fmt_none Sample.client_ok
                          (Sample.world Sample.briefed_state))))
  = EditorDict (Some "# Acme") /\
  (non_blank "# Acme" = true \/ report Sample.briefed_state = Some "# Acme").
Proof.
  apply (editor_report_mirrored Sample.fmt_none Sample.client_ok
           (Sample.world Sample.briefed_state) "# Acme").
  vm_compute. reflexivity.
Defined.

(** C10 as it was stated fails: a state that comes in with a blank
    report and no briefing goes out with that blank report, which [run]
    then copies under ['editor']. *)
Lemma editor_blank_report_stays :
  report (w_state (fst (run Sample.fmt_none Sample.client_ok
                          (Sample.world Sample.blank_report_state)))) = Some "" /\
  editor (w_state (fst (run Sample.fmt_none Sample.client_ok
                          (Sample.world Sample.blank_report_state))))
  = EditorDict (Some "") /\
  non_blank "" = false.
Proof. repeat split; reflexivity. Qed.

End Totality.

(* ------------------------------------------------------------------ *)
(** * Further properties *)

(** ** The Selector and the generator *)

Section SelectorMore.
Import Briefing Spec.

Context {py : Sorting}.

Local Open Scope string_scope.

Lemma insert_desc_map {A B} (f : A -> B) (x : Num * A) l :
  insert_desc (fst x, f (snd x)) (map (fun y => (fst y, f (snd y))) l)
  = map (fun y => (fst y, f (snd y))) (insert_desc x l).
Proof.
  induction l as [|y l IH]; [reflexivity|].
  cbn [map insert_desc fst]. destruct (num_le (fst y) (fst x)); [reflexivity|].
  cbn [map]. now rewrite IH.
Qed.

Lemma sort_desc_map {A B} (f : A -> B) (l : list (Num * A)) :
  sort_desc (map (fun y => (fst y, f (snd y))) l)
  = map (fun y => (fst y, f (snd y))) (sort_desc l).
Proof.
  induction l as [|x l IH]; [reflexivity|].
  cbn [map sort_desc]. rewrite IH. apply insert_desc_map.
Qed.

Lemma map_snd_enumerate l : forall i, map snd (enumerate_items i l) = l.
Proof. induction l as [|d l IH]; intros i; cbn; [reflexivity | now rewrite IH]. Qed.

(** The keys of the sort see the documents only, not the urls. *)
Lemma keyed_same_docs (l l' : list (string * Document)) :
  map snd l = map snd l' ->
  match keyed l, keyed l' with
  | Ok ks, Ok ks' =>
      map (fun y => (fst y, snd (snd y))) ks = map (fun y => (fst y, snd (snd y))) ks'
  | Raise e, Raise e' => e = e'
  | _, _ => False
  end.
Proof.
  revert l'. induction l as [|x l IH]; intros [|x' l'] H; try discriminate.
  - reflexivity.
  - cbn [map] in H. injection H as Hx Hl. specialize (IH l' Hl).
    cbn [keyed].
    assert (Hk : sort_key x = sort_key x') by (unfold sort_key; now rewrite Hx).
    rewrite Hk. destruct (sort_key x') as [k|e]; [|reflexivity].
    destruct (keyed l), (keyed l'); try contradiction; try exact IH.
    cbn [map fst snd]. now rewrite IH, Hx.
Qed.

Lemma numbers_map {A B} (f : A -> B) (ks : list (Key * A)) :
  numbers (map (fun y => (fst y, f (snd y))) ks)
  = option_map (map (fun y => (fst y, f (snd y)))) (numbers ks).
Proof.
  induction ks as [|[[n|] a] ks IH]; [reflexivity| |reflexivity].
  cbn [map numbers fst snd]. rewrite IH. now destruct (numbers ks).
Qed.

Lemma reorder_map {A B} (f : A -> B) order (l : list A) :
  map f (reorder order l) = reorder order (map f l).
Proof.
  unfold reorder. induction order as [|i order IH]; [reflexivity|].
  cbn [flat_map]. rewrite map_app, IH, nth_error_map.
  now destruct (nth_error l i).
Qed.

(** The ranked documents depend on the documents only. *)
Lemma sorted_items_same_docs docs docs' :
  map snd (items docs) = map snd (items docs') ->
  match sorted_items docs, sorted_items docs' with
  | Ok l, Ok l' => map snd l = map snd l'
  | Raise e, Raise e' => e = e'
  | _, _ => False
  end.
Proof.
  intros H. unfold sorted_items.
  pose proof (keyed_same_docs _ _ H) as Hk.
  destruct (keyed (items docs)) as [ks|e], (keyed (items docs')) as [ks'|e'];
    try contradiction; [|exact Hk].
  assert (Hn : option_map (map (fun y : Num * (string * Document) => (fst y, snd (snd y))))
                 (numbers ks)
               = option_map (map (fun y : Num * (string * Document) => (fst y, snd (snd y))))
                   (numbers ks'))
    by (rewrite <- !(numbers_map snd); now rewrite Hk).
  assert (Hkeys : map fst ks = map fst ks').
  { apply (f_equal (map fst)) in Hk. now rewrite !map_map in Hk. }
  assert (Hdocs : map snd (map snd ks) = map snd (map snd ks')).
  { apply (f_equal (map snd)) in Hk. now rewrite !map_map in Hk |- *. }
  destruct (numbers ks) as [ns|], (numbers ks') as [ns'|]; try discriminate.
  - injection Hn as Hn.
    assert (E : forall l : list (Num * (string * Document)),
              map snd (map snd (sort_desc l))
              = map snd (sort_desc (map (fun y => (fst y, snd (snd y))) l))).
    { intros l. rewrite (sort_desc_map snd), !map_map. reflexivity. }
    now rewrite !E, Hn.
  - now rewrite !reorder_map, Hkeys, Hdocs.
Qed.

Lemma budget_loop_same_docs (l l' : list (string * Document)) :
  map snd l = map snd l' ->
  forall doc_texts total_length,
    budget_loop l doc_texts total_length = budget_loop l' doc_texts total_length.
Proof.
  revert l'. induction l as [|[k d] l IH]; intros [|[k' d'] l'] H; try discriminate.
  - reflexivity.
  - cbn [map snd] in H. injection H as -> Hl. intros t n. cbn [budget_loop].
    destruct (doc_entry d') as [entry|e]; [|reflexivity].
    destruct (_ <? _)%Z; [now apply IH | reflexivity].
Qed.

Lemma select_documents_same_docs docs docs' :
  map snd (items docs) = map snd (items docs') ->
  select_documents docs = select_documents docs'.
Proof.
  intros H. unfold select_documents.
  pose proof (sorted_items_same_docs _ _ H) as Hs.
  destruct (sorted_items docs) as [l|e], (sorted_items docs') as [l'|e'];
    try contradiction; [|now subst].
  unfold collect_blocks. now rewrite (budget_loop_same_docs l l' Hs).
Qed.

(** X1.  The two forms of a dataset give the same result: a dictionary
    and the list of its documents yield the same blocks, and the
    generator behaves the same on both, the urls playing no part. *)
Theorem dataset_form_irrelevant (d : list (string * Document)) :
  select_documents (DictDocs d) = select_documents (ListDocs (map snd d)) /\
  forall (client : Client) (call : nat) (category : string) (ctx : Context)
         (log : list StatusEvent),
    generate_category_briefing client call (DictDocs d) category ctx log
    = generate_category_briefing client call (ListDocs (map snd d)) category ctx log.
Proof.
  assert (H : select_documents (DictDocs d) = select_documents (ListDocs (map snd d))).
  { apply select_documents_same_docs. cbn [items]. now rewrite map_snd_enumerate. }
  split; [exact H|]. intros client call category ctx log.
  unfold generate_category_briefing, briefing_prompt, briefing_start.
  rewrite H. cbn [docs_len]. now rewrite length_map.
Qed.

Lemma len_join sep x l :
  Py.len (Py.join sep (x :: l))
  = Py.sum_len (x :: l) + Py.len sep * Z.of_nat (List.length l).
Proof.
  revert x. induction l as [|y l IH]; intros x.
  - cbn. lia.
  - change (Py.join sep (x :: y :: l)) with (x ++ sep ++ Py.join sep (y :: l)).
    rewrite !len_append, IH.
    change (Py.sum_len (x :: y :: l)) with (Py.len x + Py.sum_len (y :: l)).
    change (List.length (y :: l)) with (S (List.length l)). lia.
Qed.

Lemma sum_len_at_least n l :
  Forall (fun s => n <= Py.len s) l -> n * Z.of_nat (List.length l) <= Py.sum_len l.
Proof.
  induction 1 as [|s l Hs _ IH]; [cbn; lia|].
  change (Py.sum_len (s :: l)) with (Py.len s + Py.sum_len l).
  change (List.length (s :: l)) with (S (List.length l)). lia.
Qed.

(** X2.  The document section of the prompt is the kept blocks joined by
    the separator of 42 characters.  Its length is the total of the
    blocks plus 42 for every separator between two blocks; no more than
    7777 blocks are ever kept, so the section stays below 466592
    characters. *)
Theorem documents_section_bound (docs : Docs) (doc_texts : list string) :
  select_documents docs = Ok doc_texts ->
  Py.len (Py.join separator doc_texts)
  = Py.sum_len doc_texts + 42 * Z.max 0 (Z.of_nat (List.length doc_texts) - 1) /\
  Z.of_nat (List.length doc_texts) <= 7777 /\
  Py.len (Py.join separator doc_texts) < 466592.
Proof.
  unfold select_documents. destruct (sorted_items docs) as [ranked|e]; [|discriminate].
  unfold collect_blocks.
  destruct (budget_loop_spec ranked [] 0)
    as (kept & Hpre & [[Hrun (dropped & Hsplit & _)]|(e & rest & Hrun & _)]);
    rewrite Hrun; [|discriminate].
  cbn [app]. intros H. injection H as <-.
  assert (Hsum : Py.sum_len kept < total_budget).
  { pose proof (kept_below_budget kept 0 ltac:(reflexivity) Hpre). lia. }
  assert (Hmin : Forall (fun s => 18 <= Py.len s) kept).
  { apply Forall_forall. intros s Hs.
    assert (Hin : In (Ok s) (blocks ranked))
      by (rewrite Hsplit; apply in_or_app; left; now apply in_map).
    apply in_map_iff in Hin. destruct Hin as (x & Hx & _).
    unfold doc_entry in Hx. destruct (doc_content (snd x)) as [c|]; [|discriminate].
    injection Hx as <-. rewrite len_block.
    pose proof (len_nonneg (title_text (snd x))).
    pose proof (len_nonneg (truncate c)). lia. }
  pose proof (sum_len_at_least 18 kept Hmin) as Hn. unfold total_budget in Hsum.
  assert (Hjoin : Py.len (Py.join separator kept)
                  = Py.sum_len kept + 42 * Z.max 0 (Z.of_nat (List.length kept) - 1)).
  { destruct kept as [|x l]; [reflexivity|].
    rewrite len_join. change (Py.len separator) with 42.
    change (List.length (x :: l)) with (S (List.length l)). lia. }
  split; [exact Hjoin|]. split; lia.
Qed.

Lemma keyed_first_failure l e :
  keyed l = Raise e <->
  exists l1 x l2,
    l = (l1 ++ x :: l2)%list /\
    Forall (fun y => is_ok (sort_key y) = true) l1 /\ sort_key x = Raise e.
Proof.
  induction l as [|y l IH].
  - split; [discriminate|]. intros ([|? ?] & ? & ? & H & _); discriminate.
  - cbn [keyed]. destruct (sort_key y) as [k|e0] eqn:Ey.
    + destruct (keyed l) as [ks|e1] eqn:Ek.
      * split; [discriminate|]. intros (l1 & x & l2 & Hl & Hall & Hx).
        destruct l1 as [|z l1]; cbn [app] in Hl; injection Hl as -> ->; [congruence|].
        inversion Hall; subst.
        assert (H : Ok ks = Raise e) by (apply IH; eauto 6).
        discriminate H.
      * split.
        -- intros H. injection H as ->.
           destruct (proj1 IH eq_refl) as (l1 & x & l2 & -> & Hall & Hx).
           exists (y :: l1), x, l2. split; [reflexivity|]. split; [|exact Hx].
           constructor; [now rewrite Ey | exact Hall].
        -- intros (l1 & x & l2 & Hl & Hall & Hx).
           destruct l1 as [|z l1]; cbn [app] in Hl; injection Hl as -> ->; [congruence|].
           inversion Hall; subst.
           assert (H : Raise e1 = @Raise (list (Key * (string * Document))) e)
             by (apply IH; eauto 6).
           now injection H as ->.
    + split.
      * intros H. injection H as ->. exists [], y, l. repeat split; [constructor | exact Ey].
      * intros (l1 & x & l2 & Hl & Hall & Hx).
        destruct l1 as [|z l1]; cbn [app] in Hl; injection Hl as -> ->.
        -- congruence.
        -- inversion Hall as [|? ? Hz _]; subst. rewrite Ey in Hz. discriminate.
Qed.

Lemma is_ok_keyed l : is_ok (keyed l) = forallb (fun x => is_ok (sort_key x)) l.
Proof.
  induction l as [|x l IH]; [reflexivity|].
  cbn [keyed forallb]. destruct (sort_key x); [|reflexivity].
  cbn [is_ok andb]. rewrite <- IH. now destruct (keyed l).
Qed.

Lemma budget_loop_reaches kept e rest : forall l doc_texts total_length,
  blocks l = (map Ok kept ++ Raise e :: rest)%list ->
  total_length + Py.sum_len kept < total_budget ->
  budget_loop l doc_texts total_length = Raise e.
Proof.
  induction kept as [|s kept IH]; intros [|[k doc] l] doc_texts total_length Hb Hsum;
    cbn [map app] in Hb; try discriminate Hb;
    change (blocks ((k, doc) :: l)) with (doc_entry doc :: blocks l) in Hb;
    injection Hb as Hd Hl; cbn [budget_loop]; rewrite Hd; [reflexivity|].
  change (Py.sum_len (s :: kept)) with (Py.len s + Py.sum_len kept) in Hsum.
  pose proof (sum_len_nonneg kept).
  assert (E : (total_length + Py.len s <? total_budget)%Z = true) by (apply Z.ltb_lt; lia).
  rewrite E. apply IH; [exact Hl | lia].
Qed.

(** X3.  When the Selector raises.  The ranking raises exactly when a key
    raises, that is when [float] rejects a stored score or an
    ['evaluation'] is [None], and what it raises is the error of the
    first such document in the order of the dataset, whatever the others
    hold.  After a ranking that returned, the Selector raises exactly
    when the loop comes to a document whose content is [None] while every
    block before it has fitted the budget, and then it raises
    [TypeError]; a content of [None] behind the block that ends the loop
    is never read. *)
Theorem selector_raises_exactly (docs : Docs) :
  is_ok (sorted_items docs) = forallb (fun x => is_ok (sort_key x)) (items docs) /\
  (forall e,
     sorted_items docs = Raise e <->
     exists l1 x l2,
       items docs = (l1 ++ x :: l2)%list /\
       Forall (fun y => is_ok (sort_key y) = true) l1 /\ sort_key x = Raise e) /\
  (forall e,
     select_documents docs = Raise e <->
     sorted_items docs = Raise e \/
     exists ranked kept rest,
       sorted_items docs = Ok ranked /\
       blocks ranked = (map Ok kept ++ Raise e :: rest)%list /\
       e = TypeError /\
       Py.sum_len kept < total_budget).
Proof.
  split; [|split].
  - rewrite <- is_ok_keyed. unfold sorted_items.
    now destruct (keyed (items docs)).
  - intros e. rewrite <- keyed_first_failure. unfold sorted_items.
    destruct (keyed (items docs)); split; intros H; try discriminate; congruence.
  - intros e. unfold select_documents.
    destruct (sorted_items docs) as [ranked|e0].
    + unfold collect_blocks. split.
      * intros H. right.
        destruct (budget_loop_spec ranked [] 0)
          as (kept & Hpre & [[Hrun _]|(e1 & rest & Hrun & Hsplit)]);
          rewrite Hrun in H; [discriminate|]. injection H as ->.
        exists ranked, kept, rest. split; [reflexivity|]. split; [exact Hsplit|].
        split.
        -- assert (Hin : In (Raise e) (blocks ranked)) by (rewrite Hsplit; apply in_elt).
           apply in_map_iff in Hin. destruct Hin as (x & Hx & _).
           unfold doc_entry in Hx. destruct (doc_content (snd x)); [discriminate|].
           now injection Hx as <-.
        -- pose proof (kept_below_budget kept 0 ltac:(reflexivity) Hpre). lia.
      * intros [H|(ranked' & kept & rest & Hr & Hsplit & _ & Hsum)]; [discriminate|].
        injection Hr as <-.
        rewrite (budget_loop_reaches kept e rest ranked [] 0 Hsplit) by lia. reflexivity.
    + split; [intros H; left; congruence|].
      intros [H|(ranked & kept & rest & Hr & _)]; [congruence | discriminate].
Qed.

(** X4.  The generator raises only through the Selector: it raises [e]
    exactly when the ranking or the loop over the blocks does.  It has
    then sent its start event, and the backend has not been called: the
    outcome is the same for every backend. *)
Theorem generator_raises_only_from_selector (client : Client) (call : nat) (docs : Docs)
    (category : string) (ctx : Context) (log : list StatusEvent) (e : exn) :
  (snd (generate_category_briefing client call docs category ctx log) = Raise e
   <-> select_documents docs = Raise e) /\
  (select_documents docs = Raise e ->
   forall (client' : Client) (call' : nat),
     generate_category_briefing client' call' docs category ctx log
     = (briefing_start docs category ctx log, Raise e)).
Proof.
  unfold generate_category_briefing, briefing_prompt.
  destruct (select_documents docs) as [doc_texts|e0].
  - split; [|discriminate].
    destruct (briefing_answer _ _ _ _). cbn [snd]. split; discriminate.
  - cbn [snd]. split; [split; congruence|].
    intros H client' call'. congruence.
Qed.

End SelectorMore.

Section SelectorMoreExamples.
Import Briefing Spec.

#[local] Existing Instance Sample.as_given.

Local Open Scope string_scope.

Lemma documents_section_bound_witness :
  Py.len (Py.join separator
            [block "Annual report" "Founded in 2010.";
             block "Funding round" "Series B of 40M.";
             block "Press release" "New product."])
  < 466592.
Proof.
  apply (documents_section_bound Sample.three_docs). reflexivity.
Defined.

(** A content of [None] makes the generator raise after its start event
    though every score is a number; behind a block that does not fit it
    is not read. *)
Example none_content_raises :
  generate_category_briefing Sample.client_ok 0
    (ListDocs [Sample.docA; Sample.doc_none_content]) "company"
    Sample.ctx_without_channel []
  = ([], Raise TypeError) /\
  select_documents (ListDocs [Sample.doc_long_title; Sample.doc_none_content]) = Ok [].
Proof.
  split; [reflexivity|].
  unfold select_documents.
  rewrite sorted_items_numeric by repeat constructor.
  change (map snd (sort_desc (map with_score
            (items (ListDocs [Sample.doc_long_title; Sample.doc_none_content])))))
    with [("docL", Sample.doc_long_title); ("docN", Sample.doc_none_content)].
  unfold collect_blocks. cbn [budget_loop].
  assert (E : doc_entry Sample.doc_long_title
              = Ok (block (Py.replicate (Z.to_nat 140000) "x") "Some text."))
    by reflexivity.
  rewrite E, Z.add_0_l.
  assert (Hlen : total_budget
                 <= Py.len (block (Py.replicate (Z.to_nat 140000) "x") "Some text.")).
  { rewrite len_block, len_replicate, Z2Nat.id by lia.
    pose proof (len_nonneg (truncate "Some text.")).
    unfold total_budget. lia. }
  apply Z.ltb_ge in Hlen. now rewrite Hlen.
Qed.

End SelectorMoreExamples.


(** ** The Briefing Orchestrator: errors, completion, results *)

Section OrchestratorMore.
Import Briefing Spec Notions.

Context {py : Sorting}.

Local Open Scope string_scope.

Variable client : Client.
Variable ctx : Context.
Variable tasks : list Task.

Lemma briefing_prompt_raises docs category e :
  briefing_prompt docs category ctx = Raise e <-> select_documents docs = Raise e.
Proof.
  unfold briefing_prompt. destruct (select_documents docs); split; congruence.
Qed.

(** A step sets the pending exception only when the ranking of its task
    raises, and never clears it. *)
Lemma step_raised i o o' :
  step client ctx tasks i o = Some o' ->
  o_raised o' = o_raised o \/
  (o_raised o = None /\
   exists task e, In task tasks /\
                  select_documents (curated_data task) = Raise e /\
                  o_raised o' = Some e).
Proof.
  unfold step. intros H.
  destruct (nth_error tasks i) as [task|] eqn:Et; [|discriminate].
  assert (Hin : In task tasks) by (eapply nth_error_In; eassumption).
  destruct (nth_error (pcs o) i) as [p|]; [|discriminate].
  destruct p; try discriminate.
  - destruct (semaphore o); [discriminate|]. injection H as <-. now left.
  - destruct (briefing_prompt _ _ _) as [prompt|e] eqn:Ep; injection H as <-;
      cbn [o_raised]; [now left|].
    destruct (o_raised o); [now left|]. right. split; [reflexivity|].
    exists task, e. apply briefing_prompt_raises in Ep. auto.
  - destruct (briefing_answer _ _ _ _). injection H as <-. now left.
  - destruct (Py.truthy _); injection H as <-; now left.
Qed.

Lemma reachable_raised o0 o e :
  reachable client ctx tasks o0 o ->
  o_raised o0 = None -> o_raised o = Some e ->
  exists task, In task tasks /\ select_documents (curated_data task) = Raise e.
Proof.
  induction 1 as [o|o o1 o2 i _ IH Hstep]; intros H0 He; [congruence|].
  destruct (step_raised i o1 o2 Hstep) as [Hsame|(Hnone & task & e' & Hin & Hsel & Hr)].
  - apply IH; congruence.
  - exists task. split; [exact Hin|]. congruence.
Qed.

(** A coroutine marked as crashed has left its exception pending. *)
Lemma step_crashed i o o' :
  step client ctx tasks i o = Some o' ->
  (forall j e, nth_error (pcs o) j = Some (Crashed e) -> o_raised o <> None) ->
  forall j e, nth_error (pcs o') j = Some (Crashed e) -> o_raised o' <> None.
Proof.
  intros Hstep Hinv j e Hj.
  destruct (step_others client ctx tasks i o o' Hstep) as (_ & Hothers & Hmono).
  destruct (Nat.eq_dec j i) as [->|Hne].
  - unfold step in Hstep.
    destruct (nth_error tasks i); [|discriminate].
    destruct (nth_error (pcs o) i) as [p|] eqn:Ep; [|discriminate].
    destruct p; try discriminate.
    + destruct (semaphore o); [discriminate|]. injection Hstep as <-. cbn [pcs] in Hj.
      rewrite (nth_error_set_nth_eq i _ _ _ Ep) in Hj. discriminate.
    + destruct (briefing_prompt _ _ _); injection Hstep as <-; cbn [pcs o_raised] in *.
      * rewrite (nth_error_set_nth_eq i _ _ _ Ep) in Hj. discriminate.
      * destruct (o_raised o); discriminate.
    + destruct (briefing_answer _ _ _ _). injection Hstep as <-. cbn [pcs] in Hj.
      rewrite (nth_error_set_nth_eq i _ _ _ Ep) in Hj. discriminate.
    + destruct (Py.truthy _); injection Hstep as <-; cbn [pcs] in Hj;
        rewrite (nth_error_set_nth_eq i _ _ _ Ep) in Hj; discriminate.
  - rewrite Hothers in Hj by exact Hne. apply Hmono. exact (Hinv j e Hj).
Qed.

Lemma reachable_crashed o0 o :
  reachable client ctx tasks o0 o ->
  (forall j e, nth_error (pcs o0) j = Some (Crashed e) -> o_raised o0 <> None) ->
  forall j e, nth_error (pcs o) j = Some (Crashed e) -> o_raised o <> None.
Proof.
  induction 1 as [o|o o1 o2 i _ IH Hstep]; intros H0; [exact H0|].
  exact (step_crashed i o1 o2 Hstep (IH H0)).
Qed.

(** Progress of one coroutine: unless it is over, or waits for a slot,
    its step takes it strictly closer to its end. *)
Lemma step_progress i o p task :
  nth_error tasks i = Some task ->
  nth_error (pcs o) i = Some p ->
  is_done p = false ->
  (p = Queued -> semaphore o <> 0%nat) ->
  exists o' p',
    step client ctx tasks i o = Some o' /\
    nth_error (pcs o') i = Some p' /\
    (steps_left p' < steps_left p)%nat /\ p' <> Queued.
Proof.
  intros Ht Hp Hd Hq. unfold step. rewrite Ht, Hp.
  destruct p; try discriminate.
  - destruct (semaphore o) as [|v]; [now destruct (Hq eq_refl)|].
    eexists _, Entered. split; [reflexivity|]. cbn [pcs].
    split; [now apply (nth_error_set_nth_eq i _ Queued)|]. split; [cbn; lia | discriminate].
  - destruct (briefing_prompt _ _ _) as [prompt|e].
    + eexists _, (InFlight prompt). split; [reflexivity|]. cbn [pcs].
      split; [now apply (nth_error_set_nth_eq i _ Entered)|].
      split; [cbn; lia | discriminate].
    + eexists _, (Crashed e). split; [reflexivity|]. cbn [pcs].
      split; [now apply (nth_error_set_nth_eq i _ Entered)|].
      split; [cbn; lia | discriminate].
  - destruct (briefing_answer _ _ _ _) as [log2 r].
    eexists _, (Responded r). split; [reflexivity|]. cbn [pcs].
    split; [now apply (nth_error_set_nth_eq i _ (InFlight prompt))|].
    split; [cbn; lia | discriminate].
  - destruct (Py.truthy _); eexists _, (Finished _ _); (split; [reflexivity|]); cbn [pcs];
      (split; [now apply (nth_error_set_nth_eq i _ (Responded r))|]);
      (split; [cbn; lia | discriminate]).
Qed.

Lemma run_repeat_others i k : forall o,
  List.length (pcs (run_schedule client ctx tasks (repeat i k) o)) = List.length (pcs o) /\
  forall j, j <> i ->
    nth_error (pcs (run_schedule client ctx tasks (repeat i k) o)) j = nth_error (pcs o) j.
Proof.
  induction k as [|k IH]; intros o; cbn [repeat run_schedule]; [auto|].
  destruct (step client ctx tasks i o) as [o'|] eqn:E; [|apply IH].
  destruct (step_others client ctx tasks i o o' E) as (Hl & Ho & _).
  destruct (IH o') as [IH1 IH2]. split; [congruence|].
  intros j Hj. rewrite IH2 by exact Hj. now apply Ho.
Qed.

Lemma run_repeat_done i k : forall o p,
  nth_error (pcs o) i = Some p -> is_done p = true ->
  run_schedule client ctx tasks (repeat i k) o = o.
Proof.
  induction k as [|k IH]; intros o p Hp Hd; [reflexivity|].
  cbn [repeat]. rewrite (run_none client ctx tasks i _ o (step_done client ctx tasks i o p Hp Hd)).
  now apply (IH o p).
Qed.

Lemma run_repeat_blocked i k : forall o,
  nth_error (pcs o) i = Some Queued -> semaphore o = 0%nat ->
  run_schedule client ctx tasks (repeat i k) o = o.
Proof.
  induction k as [|k IH]; intros o Hp Hs; [reflexivity|].
  cbn [repeat]. rewrite run_none; [now apply IH|].
  unfold step. rewrite Hp, Hs. now destruct (nth_error tasks i).
Qed.

(** Given its turn, a coroutine that can run runs to its end. *)
Lemma run_turn i k : forall o p task,
  nth_error tasks i = Some task ->
  nth_error (pcs o) i = Some p ->
  (steps_left p <= k)%nat ->
  (p = Queued -> semaphore o <> 0%nat) ->
  exists p', nth_error (pcs (run_schedule client ctx tasks (repeat i k) o)) i = Some p' /\
             is_done p' = true.
Proof.
  induction k as [|k IH]; intros o p task Ht Hp Hk Hq.
  - exists p. split; [exact Hp|]. destruct p; cbn in Hk; try lia; reflexivity.
  - destruct (is_done p) eqn:Hd.
    + rewrite (run_repeat_done i (S k) o p Hp Hd). eauto.
    + destruct (step_progress i o p task Ht Hp Hd Hq) as (o' & p' & Hs & Hp' & Hless & Hnq).
      cbn [repeat]. rewrite (run_some client ctx tasks i _ o o' Hs).
      apply (IH o' p' task Ht Hp'); [lia | intros ->; contradiction].
Qed.

Lemma no_holders (o : Orch) :
  (forall j p, nth_error (pcs o) j = Some p -> holds_slot p = false) ->
  holders o = 0%nat.
Proof.
  unfold holders. intros H.
  assert (G : forall l, (forall j p, nth_error l j = Some p -> holds_slot p = false) ->
             filter holds_slot l = []).
  { induction l as [|x l IH]; intros Hl; [reflexivity|].
    cbn [filter]. rewrite (Hl 0%nat x eq_refl). apply IH.
    intros j p Hj. exact (Hl (S j) p Hj). }
  now rewrite (G (pcs o) H).
Qed.

(** One pass over the coroutines, each given four steps in turn: no
    coroutine is left holding a slot, and from a configuration where
    none held a slot every coroutine has run to its end. *)
Lemma pass_settles o k :
  List.length (pcs o) = List.length tasks /\ (semaphore o + holders o = 2)%nat ->
  (k <= List.length tasks)%nat ->
  let o' := run_schedule client ctx tasks (sequential k) o in
  (List.length (pcs o') = List.length tasks /\ (semaphore o' + holders o' = 2)%nat) /\
  (forall j, (k <= j)%nat -> nth_error (pcs o') j = nth_error (pcs o) j) /\
  (forall j p, (j < k)%nat -> nth_error (pcs o') j = Some p -> holds_slot p = false) /\
  ((forall j p, nth_error (pcs o) j = Some p -> holds_slot p = false) ->
   forall j p, (j < k)%nat -> nth_error (pcs o') j = Some p -> is_done p = true).
Proof.
  intros Hinv. induction k as [|k IH]; intros Hk; cbv zeta.
  - cbn [sequential seq flat_map run_schedule].
    split; [exact Hinv|]. split; [reflexivity|]. split; intros; lia.
  - assert (Hseq : sequential (S k) = (sequential k ++ repeat k 4)%list).
    { unfold sequential. rewrite seq_S, flat_map_app. reflexivity. }
    rewrite Hseq, run_app.
    destruct (IH ltac:(lia)) as (Hinv1 & Hrest & Hsettled & Hdone).
    set (o1 := run_schedule client ctx tasks (sequential k) o) in *.
    set (o2 := run_schedule client ctx tasks (repeat k 4) o1).
    assert (Hinv2 : List.length (pcs o2) = List.length tasks /\
                    (semaphore o2 + holders o2 = 2)%nat).
    { apply (reachable_slots client ctx tasks o1 o2); [|exact Hinv1].
      apply run_schedule_reachable. }
    destruct (run_repeat_others k 4 o1) as [_ Hothers]. fold o2 in Hothers.
    destruct (nth_error tasks k) as [task|] eqn:Et; [|apply nth_error_None in Et; lia].
    destruct (nth_error (pcs o1) k) as [p|] eqn:Ep;
      [|apply nth_error_None in Ep; destruct Hinv1; lia].
    assert (Hturn : (p = Queued -> semaphore o1 <> 0%nat) ->
              exists p', nth_error (pcs o2) k = Some p' /\ is_done p' = true).
    { intros Hq. apply (run_turn k 4 o1 p task Et Ep); [destruct p; cbn; lia | exact Hq]. }
    split; [exact Hinv2|]. split; [|split].
    + intros j Hj. rewrite Hothers by lia. apply Hrest. lia.
    + intros j q Hj Hq. destruct (Nat.eq_dec j k) as [->|Hne].
      * destruct (Nat.eq_dec (semaphore o1) 0) as [Hz|Hnz].
        -- destruct p.
           ++ unfold o2 in Hq. rewrite (run_repeat_blocked k 4 o1 Ep Hz) in Hq.
              rewrite Ep in Hq. now injection Hq as <-.
           ++ destruct Hturn as (p' & Hp' & Hd); [discriminate|].
              rewrite Hp' in Hq. injection Hq as <-. now destruct p'.
           ++ destruct Hturn as (p' & Hp' & Hd); [discriminate|].
              rewrite Hp' in Hq. injection Hq as <-. now destruct p'.
           ++ destruct Hturn as (p' & Hp' & Hd); [discriminate|].
              rewrite Hp' in Hq. injection Hq as <-. now destruct p'.
           ++ destruct Hturn as (p' & Hp' & Hd); [discriminate|].
              rewrite Hp' in Hq. injection Hq as <-. now destruct p'.
           ++ destruct Hturn as (p' & Hp' & Hd); [discriminate|].
              rewrite Hp' in Hq. injection Hq as <-. now destruct p'.
        -- destruct Hturn as (p' & Hp' & Hd); [auto|].
           rewrite Hp' in Hq. injection Hq as <-. now destruct p'.
      * rewrite Hothers in Hq by exact Hne. apply (Hsettled j q); [lia | exact Hq].
    + intros Hfree j q Hj Hq. destruct (Nat.eq_dec j k) as [->|Hne].
      * assert (Hnone : holders o1 = 0%nat).
        { apply no_holders. intros j q' Hq'.
          destruct (Nat.lt_ge_cases j k) as [Hlt|Hge].
          - exact (Hsettled j q' Hlt Hq').
          - rewrite Hrest in Hq' by exact Hge. exact (Hfree j q' Hq'). }
        destruct Hturn as (p' & Hp' & Hd); [destruct Hinv1; lia|].
        rewrite Hp' in Hq. now injection Hq as <-.
      * rewrite Hothers in Hq by exact Hne. apply (Hdone Hfree j q); [lia | exact Hq].
Qed.

(** Two passes bring every configuration the semaphore allows to its
    end. *)
Lemma two_passes_complete o :
  List.length (pcs o) = List.length tasks /\ (semaphore o + holders o = 2)%nat ->
  let n := List.length tasks in
  forallb is_done
    (pcs (run_schedule client ctx tasks (sequential n ++ sequential n)%list o)) = true.
Proof.
  intros Hinv. cbv zeta. rewrite run_app.
  destruct (pass_settles o (List.length tasks) Hinv (Nat.le_refl _))
    as (Hinv1 & _ & Hsettled & _).
  set (o1 := run_schedule client ctx tasks (sequential (List.length tasks)) o) in *.
  destruct (pass_settles o1 (List.length tasks) Hinv1 (Nat.le_refl _))
    as ([Hl2 _] & _ & _ & Hdone).
  apply forallb_nth. intros j Hj. rewrite Hl2 in Hj.
  destruct (nth_error (pcs (run_schedule client ctx tasks
                              (sequential (List.length tasks)) o1)) j) as [p|] eqn:Ep;
    [|apply nth_error_None in Ep; lia].
  exists p. split; [reflexivity|]. apply (Hdone) with (j := j); [|exact Hj | exact Ep].
  intros j' p' Hp'. apply (Hsettled j' p'); [|exact Hp'].
  destruct Hinv1 as [Hl1 _]. rewrite <- Hl1. apply nth_error_Some. congruence.
Qed.

End OrchestratorMore.

Section CreateBriefings.
Import Briefing Spec Notions.

Context {py : Sorting}.

Local Open Scope string_scope.

Lemma start_tasks st :
  snd (fst (start st))
  = map (fun c => {| category := c; curated_data := curated st c |})
        (filter (fun c => docs_truthy (curated st c)) categories) /\
  fst (fst (start st)) = make_context st.
Proof.
  unfold start. destruct (plan_spec categories st []) as (Ht & _).
  destruct (plan categories st []) as [st1 tasks]. cbn [fst snd] in *.
  now rewrite Ht.
Qed.

Lemma start_task_data st task :
  In task (snd (fst (start st))) ->
  curated_data task = curated st (category task) /\
  docs_truthy (curated st (category task)) = true.
Proof.
  destruct (start_tasks st) as [-> _]. intros H. apply in_map_iff in H.
  destruct H as (c & <- & Hc). apply filter_In in Hc. cbn. tauto.
Qed.

Lemma start_orch st :
  snd (start st)
  = enter_gather (snd (fst (start st))) (o_state (snd (start st))) (o_log (snd (start st))) /\
  (forall j e, nth_error (pcs (snd (start st))) j = Some (Crashed e) ->
     o_raised (snd (start st)) <> None) /\
  o_raised (snd (start st)) = None /\ o_briefings (snd (start st)) = [].
Proof.
  unfold start. destruct (plan categories st []) as [st1 tasks]. cbn [fst snd].
  split; [reflexivity|]. split; [|split; reflexivity].
  intros j e H. unfold enter_gather in H. cbn [pcs] in H.
  apply nth_error_In, in_map_iff in H. destruct H as (? & ? & _). discriminate.
Qed.

Lemma create_briefings_unfold client schedule st :
  create_briefings client schedule st
  = (o_log (run_schedule client (fst (fst (start st))) (snd (fst (start st))) schedule
              (snd (start st))),
     finish (run_schedule client (fst (fst (start st))) (snd (fst (start st))) schedule
               (snd (start st)))).
Proof. unfold create_briefings. now destruct (start st) as [[ctx tasks] o0]. Qed.

(** X5.  [create_briefings] raises only through the Selector of one of
    its tasks: when it raises [e], some category has a non-empty curated
    dataset on which the Selector, in its ranking or in its loop over the
    blocks, raises [e].  With datasets whose keys do not raise and whose
    documents all have a text it raises under no schedule and with no
    backend. *)
Theorem create_briefings_raises_only_from_selector :
  (forall (client : Client) (schedule : list nat) (st : ResearchState) (e : exn),
     snd (create_briefings client schedule st) = Some (Raise e) ->
     exists c, docs_truthy (curated st c) = true /\
               select_documents (curated st c) = Raise e)
  /\
  (forall (client : Client) (schedule : list nat) (st : ResearchState) (e : exn),
     (forall c, parseable (curated st c) /\ text_contents (curated st c)) ->
     snd (create_briefings client schedule st) <> Some (Raise e)).
Proof.
  assert (H : forall client schedule st e,
            snd (create_briefings client schedule st) = Some (Raise e) ->
            exists c, docs_truthy (curated st c) = true /\
                      select_documents (curated st c) = Raise e).
  { intros client schedule st e. rewrite create_briefings_unfold. cbn [snd].
    destruct (start_orch st) as (_ & _ & Hnone & _).
    set (ctx := fst (fst (start st))). set (tasks := snd (fst (start st))).
    set (o0 := snd (start st)) in *.
    pose proof (run_schedule_reachable client ctx tasks schedule o0) as Hreach.
    set (o := run_schedule client ctx tasks schedule o0) in *.
    unfold finish. destruct (o_raised o) as [e0|] eqn:Er.
    - intros E. injection E as ->.
      destruct (reachable_raised client ctx tasks o0 o e Hreach Hnone Er)
        as (task & Hin & Hsel).
      destruct (start_task_data st task Hin) as [Hd Ht].
      exists (category task). rewrite Hd in Hsel. auto.
    - destruct (forallb _ _); discriminate. }
  split; [exact H|].
  intros client schedule st e Hp Hr.
  destruct (H client schedule st e Hr) as (c & _ & Hsel).
  destruct (select_documents_returns (curated st c) (proj1 (Hp c)) (proj2 (Hp c)))
    as [texts Hok].
  congruence.
Qed.

Lemma run_out_of_range client ctx tasks s : forall o,
  Forall (fun i => (List.length tasks <= i)%nat) s ->
  run_schedule client ctx tasks s o = o.
Proof.
  induction s as [|i s IH]; intros o H; [reflexivity|].
  inversion H as [|? ? Hi Hs]; subst. rewrite run_none; [now apply IH|].
  unfold step. apply nth_error_None in Hi. now rewrite Hi.
Qed.

Lemma sequential_add n m :
  sequential (n + m) = (sequential n ++ flat_map (fun i => [i; i; i; i]) (seq n m))%list.
Proof. unfold sequential. now rewrite seq_app, flat_map_app. Qed.

Lemma run_sequential_beyond client ctx tasks n o :
  (List.length tasks <= n)%nat ->
  run_schedule client ctx tasks (sequential n) o
  = run_schedule client ctx tasks (sequential (List.length tasks)) o.
Proof.
  intros Hn. replace n with (List.length tasks + (n - List.length tasks))%nat by lia.
  rewrite sequential_add, run_app. apply run_out_of_range.
  apply Forall_forall. intros i Hi. apply in_flat_map in Hi.
  destruct Hi as (j & Hj & Hi). apply in_seq in Hj.
  destruct Hi as [<-|[<-|[<-|[<-|[]]]]]; lia.
Qed.

Lemma start_tasks_length st : (List.length (snd (fst (start st))) <= 4)%nat.
Proof.
  destruct (start_tasks st) as [-> _]. rewrite length_map.
  apply (Nat.le_trans _ _ _ (filter_length_le _ _)). reflexivity.
Qed.

(** X6.  The run cannot get stuck: whatever has been scheduled so far,
    giving every coroutine its turn twice ends them all, and
    [create_briefings] returns or re-raises.  It returns when no key of
    any dataset raises and every document has a text. *)
Theorem create_briefings_completes (client : Client) (schedule : list nat)
    (st : ResearchState) :
  snd (create_briefings client (schedule ++ sequential 4 ++ sequential 4)%list st) <> None /\
  ((forall c, parseable (curated st c) /\ text_contents (curated st c)) ->
   exists st',
     snd (create_briefings client (schedule ++ sequential 4 ++ sequential 4)%list st)
     = Some (Ok st')).
Proof.
  rewrite create_briefings_unfold. cbn [snd].
  destruct (start_orch st) as (Hstart & Hcrash & Hnone & _).
  pose proof (start_tasks_length st) as Hlen.
  set (ctx := fst (fst (start st))) in *. set (tasks := snd (fst (start st))) in *.
  set (o0 := snd (start st)) in *.
  rewrite !run_app.
  set (o := run_schedule client ctx tasks schedule o0).
  rewrite (run_sequential_beyond client ctx tasks 4 o Hlen).
  rewrite (run_sequential_beyond client ctx tasks 4 _ Hlen).
  rewrite <- run_app.
  assert (Hinv0 : List.length (pcs o0) = List.length tasks /\
                  (semaphore o0 + holders o0 = 2)%nat).
  { rewrite Hstart. apply enter_gather_slots. }
  assert (Hreach : reachable client ctx tasks o0 o) by apply run_schedule_reachable.
  pose proof (reachable_slots client ctx tasks o0 o Hreach Hinv0) as Hinv.
  pose proof (two_passes_complete client ctx tasks o Hinv) as Hdone. cbv zeta in Hdone.
  set (s2 := (sequential (List.length tasks) ++ sequential (List.length tasks))%list) in *.
  assert (Hreach2 : reachable client ctx tasks o0 (run_schedule client ctx tasks s2 o)).
  { eapply reachable_trans; [exact Hreach | apply run_schedule_reachable]. }
  set (o2 := run_schedule client ctx tasks s2 o) in *.
  pose proof (reachable_crashed client ctx tasks o0 o2 Hreach2 Hcrash) as Hc2.
  assert (Hfin : o_raised o2 = None -> forallb is_finished (pcs o2) = true).
  { intros Hn. apply forallb_forall. intros p Hp.
    rewrite forallb_forall in Hdone. specialize (Hdone p Hp).
    destruct p; try discriminate; [reflexivity|].
    apply In_nth_error in Hp. destruct Hp as [j Hj]. now destruct (Hc2 j e Hj). }
  split.
  - unfold finish. destruct (o_raised o2); [discriminate|]. now rewrite Hfin.
  - intros Hp. unfold finish. destruct (o_raised o2) as [e|] eqn:Er.
    + destruct (reachable_raised client ctx tasks o0 o2 e Hreach2 Hnone Er)
        as (task & Hin & Hsel).
      destruct (start_task_data st task Hin) as [Hd _]. rewrite Hd in Hsel.
      destruct (select_documents_returns _ (proj1 (Hp (category task)))
                  (proj2 (Hp (category task)))) as [texts Hok].
      congruence.
    + rewrite Hfin by reflexivity. eauto.
Qed.

End CreateBriefings.

Section CreateBriefingsExamples.
Import Briefing Spec Notions.

#[local] Existing Instance Sample.as_given.

Local Open Scope string_scope.

Lemma create_briefings_raises_witness :
  exists c, docs_truthy (curated Sample2.bad_state c) = true /\
            select_documents (curated Sample2.bad_state c) = Raise ValueError.
Proof.
  apply (proj1 create_briefings_raises_only_from_selector Sample.client_ok
           [0; 0]%nat Sample2.bad_state ValueError).
  reflexivity.
Defined.

Lemma create_briefings_completes_witness :
  exists st',
    snd (create_briefings Sample.client_ok
           ([0; 1; 0]%nat ++ sequential 4 ++ sequential 4)%list
           Sample.example_state) = Some (Ok st').
Proof.
  apply (create_briefings_completes Sample.client_ok [0; 1; 0]%nat Sample.example_state).
  intros c. destruct c; split; repeat constructor.
Defined.

End CreateBriefingsExamples.


Section Recording.
Import Briefing Spec Notions.

Context {py : Sorting}.

Local Open Scope string_scope.

Lemma keys_dict_set k v d :
  map fst (dict_set k v d)
  = if existsb (String.eqb k) (map fst d) then map fst d else (map fst d ++ [k])%list.
Proof.
  induction d as [|[k' v'] d IH]; [reflexivity|].
  cbn [dict_set map fst existsb]. destruct (String.eqb_spec k k') as [->|Hne];
    [reflexivity|].
  cbn [map fst orb]. rewrite IH. now destruct (existsb _ _).
Qed.

Lemma dict_set_nodup k v d : NoDup (map fst d) -> NoDup (map fst (dict_set k v d)).
Proof.
  intros H. rewrite keys_dict_set. destruct (existsb _ _) eqn:E; [exact H|].
  assert (Hk : ~ In k (map fst d)).
  { intros Hx.
    assert (existsb (String.eqb k) (map fst d) = true); [|congruence].
    apply existsb_exists. exists k. split; [exact Hx | apply String.eqb_refl]. }
  clear E. induction (map fst d) as [|x l IH]; cbn [app].
  - constructor; [intros [] | constructor].
  - inversion H as [|? ? Hx Hl]; subst. constructor.
    + intros Hin. apply in_app_or in Hin. destruct Hin as [Hin|[<-|[]]]; [contradiction|].
      apply Hk. now left.
    + apply IH; [exact Hl|]. intros Hin. apply Hk. now right.
Qed.

Lemma in_dict_set_same k v d : In (k, v) (dict_set k v d).
Proof.
  induction d as [|[k' v'] d IH]; cbn [dict_set]; [now left|].
  destruct (String.eqb k k'); [now left | now right].
Qed.

Lemma in_dict_set_other k v d k' v' :
  k' <> k -> (In (k', v') (dict_set k v d) <-> In (k', v') d).
Proof.
  intros Hne. induction d as [|[k2 v2] d IH]; cbn [dict_set].
  - split; [intros [H|[]]; congruence | intros []].
  - destruct (String.eqb_spec k k2) as [->|Hk].
    + cbn [In]. split; intros [H|H]; auto; congruence.
    + cbn [In]. rewrite IH. reflexivity.
Qed.

Lemma nodup_keys_value (d : list (string * string)) k v v' :
  NoDup (map fst d) -> In (k, v) d -> In (k, v') d -> v = v'.
Proof.
  induction d as [|[k0 v0] d IH]; intros Hnd H1 H2; [contradiction|].
  cbn [map fst] in Hnd. inversion Hnd as [|? ? Hnot Hnd']; subst.
  destruct H1 as [H1|H1], H2 as [H2|H2].
  - congruence.
  - injection H1 as -> ->. exfalso. apply Hnot. now apply (in_map fst _ (k, v')).
  - injection H2 as -> ->. exfalso. apply Hnot. now apply (in_map fst _ (k, v)).
  - now apply IH.
Qed.

Lemma get_briefing_set_briefings c b st :
  get_briefing c (set_briefings b st) = get_briefing c st.
Proof. now destruct c. Qed.

Lemma briefing_answer_written category ctx resp log :
  result_content (snd (briefing_answer category ctx resp log)) = "" \/
  written_by_briefing (result_content (snd (briefing_answer category ctx resp log))).
Proof.
  unfold briefing_answer. destruct resp as [e|[text|]]; try (now left).
  destruct (Py.truthy (Py.strip text)) eqn:E; [|now left].
  right. split; [exact E | now exists text].
Qed.

Variable client : Client.
Variable ctx : Context.
Variable tasks : list Task.
Hypothesis distinct : NoDup (map category tasks).

Lemma distinct_categories i j ti tj :
  nth_error tasks i = Some ti -> nth_error tasks j = Some tj -> i <> j ->
  category ti <> category tj.
Proof.
  intros Hi Hj Hne Heq.
  apply Hne. apply (proj1 (NoDup_nth_error (map category tasks)) distinct).
  - rewrite length_map. apply nth_error_Some. congruence.
  - rewrite !nth_error_map, Hi, Hj. cbn. now rewrite Heq.
Qed.

Lemma recorded_frame p c c' v st b :
  c <> c' ->
  result_recorded p (get_briefing c st) (cat c) b ->
  result_recorded p (get_briefing c (set_briefing c' v st)) (cat c)
    (dict_set (cat c') v b) /\
  result_recorded p (get_briefing c (set_briefing c' "" st)) (cat c) b.
Proof.
  intros Hne H. rewrite !get_set_briefing_other by exact Hne.
  split; [|exact H].
  assert (Hk : cat c <> cat c') by (intros E; apply Hne; now apply cat_injective).
  assert (Habs : key_absent (cat c) b -> key_absent (cat c) (dict_set (cat c') v b)).
  { intros Ha v' Hin. apply (Ha v'). now apply (in_dict_set_other (cat c') v b) in Hin. }
  destruct p as [| | | |[|] ?|]; cbn [result_recorded] in *; auto.
  - destruct H as [H1 H2]. auto.
  - destruct H as (v0 & H1 & H2 & H3). exists v0.
    split; [exact H1|]. split; [exact H2|]. now apply in_dict_set_other.
  - destruct H as [H1 H2]. auto.
Qed.

(** Every step keeps the record of every coroutine right. *)
Lemma step_recorded i o o' :
  step client ctx tasks i o = Some o' ->
  (NoDup (map fst (o_briefings o)) /\
   forall j task p, nth_error tasks j = Some task -> nth_error (pcs o) j = Some p ->
     result_recorded p (get_briefing (category task) (o_state o)) (cat (category task))
       (o_briefings o)) ->
  NoDup (map fst (o_briefings o')) /\
  forall j task p, nth_error tasks j = Some task -> nth_error (pcs o') j = Some p ->
    result_recorded p (get_briefing (category task) (o_state o')) (cat (category task))
      (o_briefings o').
Proof.
  intros Hstep [Hnd Hinv].
  destruct (step_others client ctx tasks i o o' Hstep) as (_ & Hothers & _).
  unfold step in Hstep.
  destruct (nth_error tasks i) as [ti|] eqn:Eti; [|discriminate].
  destruct (nth_error (pcs o) i) as [pi|] eqn:Epi; [|discriminate].
  pose proof (Hinv i ti pi Eti Epi) as Hi.
  assert (Hquiet : forall o1 p1,
            o_state o1 = o_state o -> o_briefings o1 = o_briefings o ->
            pcs o1 = set_nth i p1 (pcs o) ->
            key_absent (cat (category ti)) (o_briefings o) ->
            result_recorded p1 (get_briefing (category ti) (o_state o)) (cat (category ti))
              (o_briefings o) ->
            NoDup (map fst (o_briefings o1)) /\
            forall j task p, nth_error tasks j = Some task -> nth_error (pcs o1) j = Some p ->
              result_recorded p (get_briefing (category task) (o_state o1))
                (cat (category task)) (o_briefings o1)).
  { intros o1 p1 Es Eb Ep _ Hp1. rewrite Es, Eb. split; [exact Hnd|].
    intros j task p Ht Hp. rewrite Ep in Hp. destruct (Nat.eq_dec j i) as [->|Hne].
    - rewrite (nth_error_set_nth_eq i _ _ _ Epi) in Hp. injection Hp as <-.
      rewrite Eti in Ht. now injection Ht as <-.
    - rewrite (nth_error_set_nth_neq i j) in Hp by congruence. now apply (Hinv j). }
  destruct pi; try discriminate.
  - destruct (semaphore o); [discriminate|]. injection Hstep as <-.
    cbn [result_recorded] in Hi. now apply (Hquiet _ Entered).
  - cbn [result_recorded] in Hi.
    destruct (briefing_prompt _ _ _); injection Hstep as <-;
      [now apply (Hquiet _ (InFlight a)) | now apply (Hquiet _ (Crashed e))].
  - cbn [result_recorded] in Hi.
    pose proof (briefing_answer_written (cat (category ti)) ctx
                  (chat_create client i [("user", prompt)]) (o_log o)) as Hw.
    destruct (briefing_answer _ _ _ _) as [log2 r]. injection Hstep as <-.
    apply (Hquiet _ (Responded r)); try reflexivity; [exact Hi|].
    cbn [result_recorded snd] in *. auto.
  - cbn [result_recorded] in Hi. destruct Hi as [Hw Habs].
    destruct (Py.truthy (result_content r)) eqn:Etr; injection Hstep as <-;
      cbn [o_state o_briefings pcs].
    + split; [now apply dict_set_nodup|].
      intros j task p Ht Hp. destruct (Nat.eq_dec j i) as [->|Hne].
      * rewrite (nth_error_set_nth_eq i _ _ _ Epi) in Hp. injection Hp as <-.
        rewrite Eti in Ht. injection Ht as <-. cbn [result_recorded].
        exists (result_content r). rewrite get_set_briefing.
        split; [reflexivity|]. split; [|apply in_dict_set_same].
        destruct Hw as [Hw|Hw]; [rewrite Hw in Etr; discriminate | exact Hw].
      * rewrite (nth_error_set_nth_neq i j) in Hp by congruence.
        apply recorded_frame; [|now apply (Hinv j)].
        intros E. apply (distinct_categories j i task ti Ht Eti Hne). exact E.
    + split; [exact Hnd|].
      intros j task p Ht Hp. destruct (Nat.eq_dec j i) as [->|Hne].
      * rewrite (nth_error_set_nth_eq i _ _ _ Epi) in Hp. injection Hp as <-.
        rewrite Eti in Ht. injection Ht as <-. cbn [result_recorded].
        rewrite get_set_briefing. auto.
      * rewrite (nth_error_set_nth_neq i j) in Hp by congruence.
        apply (recorded_frame p (category task) (category ti) "" (o_state o) (o_briefings o));
          [|now apply (Hinv j)].
        intros E. apply (distinct_categories j i task ti Ht Eti Hne). exact E.
Qed.

Lemma reachable_recorded o0 o :
  reachable client ctx tasks o0 o ->
  (NoDup (map fst (o_briefings o0)) /\
   forall j task p, nth_error tasks j = Some task -> nth_error (pcs o0) j = Some p ->
     result_recorded p (get_briefing (category task) (o_state o0)) (cat (category task))
       (o_briefings o0)) ->
  NoDup (map fst (o_briefings o)) /\
  forall j task p, nth_error tasks j = Some task -> nth_error (pcs o) j = Some p ->
    result_recorded p (get_briefing (category task) (o_state o)) (cat (category task))
      (o_briefings o).
Proof.
  induction 1 as [o|o o1 o2 i _ IH Hstep]; intros H0; [exact H0|].
  exact (step_recorded i o1 o2 Hstep (IH H0)).
Qed.

Lemma briefing_answer_answered category call prompt log :
  result_content
    (snd (briefing_answer category ctx (chat_create client call [("user", prompt)]) log)) = ""
  \/
  answered_by client call prompt
    (result_content
       (snd (briefing_answer category ctx (chat_create client call [("user", prompt)]) log))).
Proof.
  unfold briefing_answer, answered_by.
  destruct (chat_create client call [("user", prompt)]) as [e|[text|]] eqn:E;
    try (now left).
  destruct (Py.truthy (Py.strip text)) eqn:Et; [|now left].
  right. split; [exact Et | now exists text].
Qed.

(** Every step keeps the origin of every text right. *)
Lemma step_answered i o o' :
  step client ctx tasks i o = Some o' ->
  (forall j task p, nth_error tasks j = Some task -> nth_error (pcs o) j = Some p ->
     answer_recorded client ctx j task p (get_briefing (category task) (o_state o))) ->
  forall j task p, nth_error tasks j = Some task -> nth_error (pcs o') j = Some p ->
    answer_recorded client ctx j task p (get_briefing (category task) (o_state o')).
Proof.
  intros Hstep Hinv.
  destruct (step_others client ctx tasks i o o' Hstep) as (_ & Hothers & _).
  unfold step in Hstep.
  destruct (nth_error tasks i) as [ti|] eqn:Eti; [|discriminate].
  destruct (nth_error (pcs o) i) as [pi|] eqn:Epi; [|discriminate].
  pose proof (Hinv i ti pi Eti Epi) as Hi.
  assert (Hgen : forall p1,
            nth_error (pcs o') i = Some p1 ->
            (forall c, c <> category ti ->
               get_briefing c (o_state o') = get_briefing c (o_state o)) ->
            answer_recorded client ctx i ti p1 (get_briefing (category ti) (o_state o')) ->
            forall j task p, nth_error tasks j = Some task -> nth_error (pcs o') j = Some p ->
              answer_recorded client ctx j task p
                (get_briefing (category task) (o_state o'))).
  { intros p1 Hp1 Hframe Hnew j task p Ht Hp. destruct (Nat.eq_dec j i) as [->|Hne].
    - rewrite Eti in Ht. injection Ht as <-. rewrite Hp1 in Hp. now injection Hp as <-.
    - rewrite (Hothers j Hne) in Hp. rewrite Hframe; [now apply Hinv|].
      exact (distinct_categories j i task ti Ht Eti Hne). }
  assert (Hset : forall p1, nth_error (set_nth i p1 (pcs o)) i = Some p1)
    by (intros p1; exact (nth_error_set_nth_eq i _ _ _ Epi)).
  destruct pi; try discriminate.
  - destruct (semaphore o); [discriminate|]. injection Hstep as <-.
    apply (Hgen Entered); cbn [pcs o_state]; [apply Hset | reflexivity | exact I].
  - destruct (briefing_prompt _ _ _) as [prompt|e] eqn:Ep; injection Hstep as <-.
    + apply (Hgen (InFlight prompt)); cbn [pcs o_state]; [apply Hset | reflexivity|].
      exact Ep.
    + apply (Hgen (Crashed e)); cbn [pcs o_state]; [apply Hset | reflexivity | exact I].
  - cbn [answer_recorded] in Hi.
    pose proof (briefing_answer_answered (cat (category ti)) i prompt (o_log o)) as Hw.
    destruct (briefing_answer _ _ _ _) as [log2 r]. injection Hstep as <-.
    apply (Hgen (Responded r)); cbn [pcs o_state]; [apply Hset | reflexivity|].
    cbn [answer_recorded snd] in *. destruct Hw as [Hw|Hw]; [now left|].
    right. now exists prompt.
  - cbn [answer_recorded] in Hi.
    destruct (Py.truthy (result_content r)) eqn:Etr; injection Hstep as <-.
    + apply (Hgen (Finished true (Py.len (result_content r)))); cbn [pcs o_state].
      * apply Hset.
      * intros c Hc. now apply get_set_briefing_other.
      * cbn [answer_recorded]. rewrite get_set_briefing.
        destruct Hi as [He|(prompt & Hp & Ha)]; [rewrite He in Etr; discriminate|].
        now exists (result_content r), prompt.
    + apply (Hgen (Finished false 0)); cbn [pcs o_state].
      * apply Hset.
      * intros c Hc. now apply get_set_briefing_other.
      * exact I.
Qed.

Lemma reachable_answered o0 o :
  reachable client ctx tasks o0 o ->
  (forall j task p, nth_error tasks j = Some task -> nth_error (pcs o0) j = Some p ->
     answer_recorded client ctx j task p (get_briefing (category task) (o_state o0))) ->
  forall j task p, nth_error tasks j = Some task -> nth_error (pcs o) j = Some p ->
    answer_recorded client ctx j task p (get_briefing (category task) (o_state o)).
Proof.
  induction 1 as [o|o o1 o2 i _ IH Hstep]; intros H0; [exact H0|].
  exact (step_answered i o1 o2 Hstep (IH H0)).
Qed.

End Recording.

Section JoinResults.
Import Briefing Spec Notions.

Context {py : Sorting}.

Local Open Scope string_scope.

Lemma start_distinct st : NoDup (map category (snd (fst (start st)))).
Proof.
  destruct (start_tasks st) as [-> _]. rewrite map_map. cbn [category].
  rewrite map_id. apply NoDup_filter.
  repeat constructor; cbn; intuition discriminate.
Qed.

Lemma start_triple st : start st = (fst (fst (start st)), snd (fst (start st)), snd (start st)).
Proof. now destruct (start st) as [[? ?] ?]. Qed.

(** The run behind a state [create_briefings] returns: every coroutine
    has finished, and what it finished with is recorded. *)
Lemma returned_run (client : Client) (schedule : list nat) (st st' : ResearchState) :
  snd (create_briefings client schedule st) = Some (Ok st') ->
  let o := run_schedule client (fst (fst (start st))) (snd (fst (start st))) schedule
             (snd (start st)) in
    st' = set_briefings (o_briefings o) (o_state o) /\
    forallb is_finished (pcs o) = true /\
    List.length (pcs o) = List.length (snd (fst (start st))) /\
    NoDup (map fst (o_briefings o)) /\
    (forall j task p,
        nth_error (snd (fst (start st))) j = Some task -> nth_error (pcs o) j = Some p ->
        result_recorded p (get_briefing (category task) (o_state o))
          (cat (category task)) (o_briefings o) /\
        answer_recorded client (fst (fst (start st))) j task p
          (get_briefing (category task) (o_state o))).
Proof.
  rewrite create_briefings_unfold. cbn [snd].
  destruct (start_orch st) as (Hstart & _ & _ & Hempty).
  pose proof (start_distinct st) as Hdistinct.
  set (ctx := fst (fst (start st))) in *. set (tasks := snd (fst (start st))) in *.
  set (o0 := snd (start st)) in *.
  pose proof (run_schedule_reachable client ctx tasks schedule o0) as Hreach.
  set (o := run_schedule client ctx tasks schedule o0) in *.
  unfold finish. destruct (o_raised o); [discriminate|].
  destruct (forallb is_finished (pcs o)) eqn:Hall; [|discriminate].
  intros E. injection E as <-.
  assert (Hinv0 : NoDup (map fst (o_briefings o0)) /\
            forall j task p, nth_error tasks j = Some task -> nth_error (pcs o0) j = Some p ->
              result_recorded p (get_briefing (category task) (o_state o0))
                (cat (category task)) (o_briefings o0)).
  { rewrite Hempty. split; [constructor|]. intros j task p _ Hp.
    rewrite Hstart in Hp. unfold enter_gather in Hp. cbn [pcs] in Hp.
    apply nth_error_In, in_map_iff in Hp. destruct Hp as (? & <- & _).
    intros v []. }
  destruct (reachable_recorded client ctx tasks Hdistinct o0 o Hreach Hinv0) as [Hnd Hrec].
  assert (Hlen : List.length (pcs o) = List.length tasks).
  { apply (reachable_slots client ctx tasks o0 o Hreach).
    rewrite Hstart. apply enter_gather_slots. }
  assert (Hans : forall j task p,
             nth_error tasks j = Some task -> nth_error (pcs o) j = Some p ->
             answer_recorded client ctx j task p (get_briefing (category task) (o_state o))).
  { apply (reachable_answered client ctx tasks Hdistinct o0 o Hreach).
    intros j task p _ Hp. rewrite Hstart in Hp. unfold enter_gather in Hp. cbn [pcs] in Hp.
    apply nth_error_In, in_map_iff in Hp. destruct Hp as (? & <- & _). exact I. }
  cbv zeta. fold ctx tasks o0 o. repeat (split; [assumption || reflexivity|]).
  intros j task p Ht Hp. split; [exact (Hrec j task p Ht Hp) | exact (Hans j task p Ht Hp)].
Qed.

(** A category without a task has an empty dataset. *)
Lemma untasked_category st c :
  ~ In c (map category (snd (fst (start st)))) -> docs_truthy (curated st c) = false.
Proof.
  intros Hnot. pose proof (start_tasks st) as [Htasks _].
  destruct (docs_truthy (curated st c)) eqn:Ed; [|reflexivity].
  exfalso. apply Hnot. rewrite Htasks, map_map. cbn [category]. rewrite map_id.
  apply filter_In. split; [apply all_categories | exact Ed].
Qed.

(** The coroutine of a task of a run in which all have finished. *)
Lemma finished_task {A} (tasks : list A) (ps : list Pc) task :
  List.length ps = List.length tasks -> forallb is_finished ps = true ->
  In task tasks ->
  exists j success n,
    nth_error tasks j = Some task /\ nth_error ps j = Some (Finished success n).
Proof.
  intros Hlen Hall Hin. apply In_nth_error in Hin. destruct Hin as [j Hj].
  destruct (nth_error ps j) as [p|] eqn:Ep;
    [|apply nth_error_None in Ep; assert (nth_error tasks j <> None) as Hs by congruence;
      apply nth_error_Some in Hs; lia].
  rewrite forallb_forall in Hall. pose proof (Hall p (nth_error_In _ _ Ep)) as Hf.
  destruct p as [| | | |success n|]; try discriminate.
  now exists j, success, n.
Qed.

(** Each briefing field of a returned state is empty or a trimmed,
    non-empty answer. *)
Lemma returned_field (client : Client) (schedule : list nat) (st st' : ResearchState)
    (c : Category) :
  snd (create_briefings client schedule st) = Some (Ok st') ->
  exists v, get_briefing c st' = Some v /\ (v = "" \/ written_by_briefing v).
Proof.
  intros H.
  destruct (returned_run client schedule st st' H) as (-> & Hall & Hlen & Hnd & Hrec).
  rewrite get_briefing_set_briefings.
  destruct (in_dec Category_eq_dec c (map category (snd (fst (start st))))) as [Hin|Hnot].
  - apply in_map_iff in Hin. destruct Hin as (task & <- & Hin).
    destruct (finished_task _ _ task Hlen Hall Hin) as (j & success & n & Hj & Ep).
    pose proof (proj1 (Hrec j task _ Hj Ep)) as Hr.
    destruct success; cbn [result_recorded] in Hr.
    + destruct Hr as (v & Hv & Hw & _). exists v. split; [exact Hv | now right].
    + destruct Hr as [Hv _]. exists "". split; [exact Hv | now left].
  - pose proof (untasked_category st c Hnot) as Hc.
    destruct (skipped_category client st schedule c
                (fst (fst (start st))) (snd (fst (start st))) (snd (start st))
                Hc (start_triple st)) as (_ & _ & Hfield & _).
    exists "". split; [exact Hfield | now left].
Qed.

(** X7.  When [create_briefings] returns, the state holds a briefings map
    without repeated keys and a value in each of the four briefing
    fields.  Each field is empty, or it is the trimmed, non-empty answer
    that the backend gave to the prompt built from the documents the
    Selector kept for the category; the map has the category's entry
    exactly when the field is not empty, then with the same text; and
    every key of the map is one of the four category names. *)
Theorem briefings_agree_with_fields (client : Client) (schedule : list nat)
    (st st' : ResearchState) :
  snd (create_briefings client schedule st) = Some (Ok st') ->
  exists b,
    briefings st' = Some b /\
    NoDup (map fst b) /\
    (forall c, exists v,
       get_briefing c st' = Some v /\
       (v = "" \/
        exists call doc_texts,
          select_documents (curated st c) = Ok doc_texts /\
          answered_by client call (build_prompt (cat c) (make_context st) doc_texts) v) /\
       (forall v', In (cat c, v') b <-> v' = v /\ v <> "")) /\
    (forall k v, In (k, v) b -> exists c, k = cat c).
Proof.
  intros H.
  destruct (returned_run client schedule st st' H) as (-> & Hall & Hlen & Hnd & Hrec).
  destruct (start_orch st) as (_ & _ & _ & Hempty).
  pose proof (start_tasks st) as [_ Hctx].
  eexists. split; [reflexivity|]. split; [exact Hnd|]. split.
  - intros c. rewrite get_briefing_set_briefings.
    destruct (in_dec Category_eq_dec c (map category (snd (fst (start st))))) as [Hin|Hnot].
    + apply in_map_iff in Hin. destruct Hin as (task & <- & Hin).
      destruct (start_task_data st task Hin) as [Hdata _].
      destruct (finished_task _ _ task Hlen Hall Hin) as (j & success & n & Hj & Ep).
      destruct (Hrec j task _ Hj Ep) as [Hr Ha].
      destruct success; cbn [result_recorded answer_recorded] in Hr, Ha.
      * destruct Hr as (v & Hv & Hw & Hb). exists v.
        split; [exact Hv|]. split.
        -- right. destruct Ha as (v0 & prompt & Hv0 & Hp & Hans).
           assert (v0 = v) by congruence. subst v0.
           unfold briefing_prompt in Hp. rewrite Hdata in Hp.
           destruct (select_documents (curated st (category task))) as [doc_texts|e];
             [|discriminate].
           injection Hp as <-. exists j, doc_texts. rewrite <- Hctx. now split.
        -- assert (Hne : v <> "") by (destruct Hw as [Ht _]; intros ->; discriminate).
           intros v'. split.
           ++ intros Hv'. split; [|exact Hne]. exact (nodup_keys_value _ _ _ _ Hnd Hv' Hb).
           ++ intros [-> _]. exact Hb.
      * destruct Hr as [Hv Habs]. exists "". split; [exact Hv|]. split; [now left|].
        intros v'. split; [intros Hv'; now destruct (Habs v') | intros [_ Hne]; congruence].
    + pose proof (untasked_category st c Hnot) as Hc.
      destruct (skipped_category client st schedule c
                  (fst (fst (start st))) (snd (fst (start st))) (snd (start st))
                  Hc (start_triple st)) as (_ & _ & Hfield & _ & Habs & _).
      exists "". split; [exact Hfield|]. split; [now left|].
      intros v'. split; [intros Hv'; now destruct (Habs v') | intros [_ Hne]; congruence].
  - intros k v Hin.
    destruct (reachable_effects client _ _ _ _
                (run_schedule_reachable client (fst (fst (start st)))
                   (snd (fst (start st))) schedule (snd (start st))))
      as (_ & _ & Hkeys).
    destruct Hkeys as [_ Hkeys]; [rewrite Hempty; split; constructor|].
    rewrite Forall_forall in Hkeys. destruct (Hkeys (k, v) Hin) as (task & _ & Hk).
    now exists (category task).
Qed.

Lemma same_but_briefings_refl st : same_but_briefings st st.
Proof. repeat split. Qed.

Lemma same_but_briefings_trans st1 st2 st3 :
  same_but_briefings st1 st2 -> same_but_briefings st2 st3 -> same_but_briefings st1 st3.
Proof.
  unfold same_but_briefings. intros H1 H2.
  repeat match goal with H : _ /\ _ |- _ => destruct H end.
  repeat split; congruence.
Qed.

Lemma same_but_briefings_set c v st : same_but_briefings st (set_briefing c v st).
Proof. destruct c; repeat split. Qed.

Lemma plan_same cats : forall st tasks, same_but_briefings st (fst (plan cats st tasks)).
Proof.
  induction cats as [|c cats IH]; intros st tasks; cbn [plan].
  - apply same_but_briefings_refl.
  - destruct (docs_truthy _); [apply IH|].
    eapply same_but_briefings_trans; [apply same_but_briefings_set | apply IH].
Qed.

Lemma step_same client ctx tasks i o o' :
  step client ctx tasks i o = Some o' -> same_but_briefings (o_state o) (o_state o').
Proof.
  unfold step. intros H.
  destruct (nth_error tasks i); [|discriminate].
  destruct (nth_error (pcs o) i) as [p|]; [|discriminate].
  destruct p; try discriminate.
  - destruct (semaphore o); [discriminate|]. injection H as <-. apply same_but_briefings_refl.
  - destruct (briefing_prompt _ _ _); injection H as <-; apply same_but_briefings_refl.
  - destruct (briefing_answer _ _ _ _). injection H as <-. apply same_but_briefings_refl.
  - destruct (Py.truthy _); injection H as <-; apply same_but_briefings_set.
Qed.

Lemma reachable_same client ctx tasks o0 o :
  reachable client ctx tasks o0 o -> same_but_briefings (o_state o0) (o_state o).
Proof.
  induction 1 as [o|o o1 o2 i _ IH Hstep]; [apply same_but_briefings_refl|].
  eapply same_but_briefings_trans; [exact IH | eapply step_same; eassumption].
Qed.

(** X8.  [create_briefings] writes the four briefing fields and the
    briefings map and nothing else: at every moment of every run, and in
    the state it returns, the company data, the curated datasets, the
    references, the messages, the report, the status and the ['editor']
    entry are those of the state it was given. *)
Theorem create_briefings_writes_only_briefings (client : Client) (schedule : list nat)
    (st : ResearchState) :
  same_but_briefings st
    (o_state (run_schedule client (fst (fst (start st))) (snd (fst (start st))) schedule
                (snd (start st)))) /\
  forall st', snd (create_briefings client schedule st) = Some (Ok st') ->
              same_but_briefings st st'.
Proof.
  assert (H : same_but_briefings st
                (o_state (run_schedule client (fst (fst (start st))) (snd (fst (start st)))
                            schedule (snd (start st))))).
  { eapply same_but_briefings_trans;
      [|eapply reachable_same; apply run_schedule_reachable].
    unfold start. pose proof (plan_same categories st []) as Hp.
    destruct (plan categories st []) as [st1 tasks]. exact Hp. }
  split; [exact H|].
  intros st'. rewrite create_briefings_unfold. cbn [snd]. unfold finish.
  destruct (o_raised _); [discriminate|]. destruct (forallb _ _); [|discriminate].
  intros E. injection E as <-.
  eapply same_but_briefings_trans; [exact H|]. repeat split.
Qed.

Lemma notify_closed ws job status msg p log :
  channel_open ws job = false -> notify ws job status msg p log = log.
Proof.
  unfold channel_open, notify. destruct ws; [|reflexivity].
  destruct (truthy_job job); [discriminate | reflexivity].
Qed.

Lemma step_silent client ctx tasks i o o' :
  channel_open (ctx_websocket_manager ctx) (ctx_job_id ctx) = false ->
  step client ctx tasks i o = Some o' -> o_log o' = o_log o.
Proof.
  intros Hc. unfold step. intros H.
  destruct (nth_error tasks i); [|discriminate].
  destruct (nth_error (pcs o) i) as [p|]; [|discriminate].
  destruct p; try discriminate.
  - destruct (semaphore o); [discriminate|]. now injection H as <-.
  - unfold briefing_start in H. rewrite notify_closed in H by exact Hc.
    destruct (briefing_prompt _ _ _); now injection H as <-.
  - unfold briefing_answer in H.
    destruct (chat_create _ _ _) as [e|[text|]]; try (now injection H as <-).
    destruct (Py.truthy _); [|now injection H as <-].
    rewrite notify_closed in H by exact Hc. now injection H as <-.
  - destruct (Py.truthy _); now injection H as <-.
Qed.

Lemma reachable_silent client ctx tasks o0 o :
  channel_open (ctx_websocket_manager ctx) (ctx_job_id ctx) = false ->
  reachable client ctx tasks o0 o -> o_log o = o_log o0.
Proof.
  intros Hc. induction 1 as [o|o o1 o2 i _ IH Hstep]; [reflexivity|].
  rewrite (step_silent client ctx tasks i o1 o2 Hc Hstep). exact IH.
Qed.

(** X9.  Without a websocket manager, or without a job id, or with an
    empty one, [create_briefings] sends no status event at all, under any
    schedule and whatever the backend answers. *)
Theorem create_briefings_silent (client : Client) (schedule : list nat)
    (st : ResearchState) :
  channel_open (websocket_manager st) (job_id st) = false ->
  fst (create_briefings client schedule st) = [].
Proof.
  intros Hc. rewrite create_briefings_unfold. cbn [fst].
  destruct (start_tasks st) as [_ Hctx].
  assert (H0 : o_log (snd (start st)) = []).
  { unfold start. destruct (plan categories st []) as [st1 tasks]. cbn [snd o_log enter_gather].
    now apply notify_closed. }
  set (ctx := fst (fst (start st))) in *. set (tasks := snd (fst (start st))).
  set (o0 := snd (start st)) in *.
  assert (Hctx' : channel_open (ctx_websocket_manager ctx) (ctx_job_id ctx) = false)
    by (rewrite Hctx; exact Hc).
  rewrite (reachable_silent client ctx tasks o0 _ Hctx')
    by apply run_schedule_reachable.
  exact H0.
Qed.

End JoinResults.

Section JoinResultsExamples.
Import Briefing Spec Notions.

#[local] Existing Instance Sample.as_given.

Local Open Scope string_scope.

Lemma briefings_agree_with_fields_witness :
  exists b,
    briefings (set_briefings [("company", "* fact"); ("financial", "* fact")]
                 (set_financial_briefing "* fact"
                    (set_company_briefing "* fact"
                       (set_industry_briefing ""
                          (set_revenue_briefing "" Sample.example_state))))) = Some b /\
    NoDup (map fst b).
Proof.
  destruct (briefings_agree_with_fields Sample.client_ok (round_robin 2)
              Sample.example_state
              (set_briefings [("company", "* fact"); ("financial", "* fact")]
                 (set_financial_briefing "* fact"
                    (set_company_briefing "* fact"
                       (set_industry_briefing ""
                          (set_revenue_briefing "" Sample.example_state))))))
    as (b & Hb & Hnd & _).
  - vm_compute. reflexivity.
  - exists b. split; assumption.
Defined.

Lemma create_briefings_silent_witness :
  fst (create_briefings Sample.client_ok (round_robin 2) Sample2.silent_state) = [].
Proof.
  apply (create_briefings_silent Sample.client_ok (round_robin 2) Sample2.silent_state).
  reflexivity.
Defined.

End JoinResultsExamples.


(** ** The Editor: the stream, the stored report, the frame *)

Section Streaming.
Import Editor Spec Notions.

Local Open Scope string_scope.

Lemma append_assoc (a b c : string) : (a ++ b) ++ c = a ++ (b ++ c).
Proof. induction a as [|x a IH]; cbn; [reflexivity | now rewrite IH]. Qed.

Lemma append_empty_r (a : string) : a ++ "" = a.
Proof. induction a as [|x a IH]; cbn; [reflexivity | now rewrite IH]. Qed.

Lemma chunks_text_app l1 l2 : chunks_text (l1 ++ l2) = chunks_text l1 ++ chunks_text l2.
Proof.
  induction l1 as [|e l1 IH]; [reflexivity|].
  cbn [app chunks_text fold_right]. fold (chunks_text (l1 ++ l2)). fold (chunks_text l1).
  now rewrite IH, append_assoc.
Qed.

(** What sending one chunk does, by the state of the channel. *)
Lemma send_chunk_effect buffer w :
  exists chunks,
    send_chunk buffer w
    = ({| w_state := w_state w; w_log := (w_log w ++ chunks)%list |}, Ok tt) /\
    chunks_only chunks /\
    chunks_text chunks
    = (if channel_open (websocket_manager (w_state w)) (job_id (w_state w))
       then buffer else "") /\
    (channel_open (websocket_manager (w_state w)) (job_id (w_state w)) = false ->
     chunks = []).
Proof.
  unfold send_chunk, send, notify, channel_open.
  destruct (websocket_manager (w_state w)); cbn [andb].
  - destruct (truthy_job (job_id (w_state w))) as [j|].
    + eexists. split; [reflexivity|]. split; [repeat constructor|].
      split; [cbn; apply append_empty_r | discriminate].
    + exists []. rewrite app_nil_r. repeat split. constructor.
  - exists []. rewrite app_nil_r. repeat split. constructor.
Qed.

(** The loop over a stream that does not raise: it returns all the text
    of the stream; the chunks it has sent, put end to end, are that text
    up to what was still in the buffer when the stream ended, and all of
    it when the stream ended with a stop chunk. *)
Lemma stream_loop_returns response : forall accumulated_text buffer w,
  items_raise response = false ->
  exists chunks leftover,
    stream_loop response accumulated_text buffer w
    = ({| w_state := w_state w; w_log := (w_log w ++ chunks)%list |},
       Ok (accumulated_text ++ streamed_text response)) /\
    chunks_only chunks /\
    (channel_open (websocket_manager (w_state w)) (job_id (w_state w)) = true ->
     chunks_text chunks ++ leftover = buffer ++ streamed_text response /\
     (ends_with_stop response = true -> leftover = "")) /\
    (channel_open (websocket_manager (w_state w)) (job_id (w_state w)) = false ->
     chunks = []).
Proof.
  induction response as [|item response IH]; intros acc buf w H.
  - exists [], buf. cbn [stream_loop streamed_text ends_with_stop].
    rewrite app_nil_r, !append_empty_r. destruct w.
    split; [reflexivity|]. split; [constructor|]. split; [|reflexivity].
    intros _. split; [reflexivity | discriminate].
  - destruct item as [fr delta|e]; [|discriminate].
    cbn [items_raise stream_loop streamed_text ends_with_stop] in *.
    destruct (is_stop fr).
    + rewrite !append_empty_r. unfold bind. destruct (Py.truthy buf) eqn:Eb.
      * destruct (send_chunk_effect buf w) as (chunks & -> & Hc & Ht & Hz).
        exists chunks, "". unfold ret. split; [reflexivity|]. split; [exact Hc|].
        split; [|exact Hz]. intros Hopen. rewrite Ht, Hopen, append_empty_r. auto.
      * exists [], "". unfold ret. rewrite app_nil_r. destruct w.
        split; [reflexivity|]. split; [constructor|]. split; [|reflexivity].
        intros _. destruct buf; [auto | discriminate].
    + assert (Hskip : get_or delta "" = "" ->
                exists chunks leftover,
                  stream_loop response acc buf w
                  = ({| w_state := w_state w; w_log := (w_log w ++ chunks)%list |},
                     Ok (acc ++ get_or delta "" ++ streamed_text response)) /\
                  chunks_only chunks /\
                  (channel_open (websocket_manager (w_state w)) (job_id (w_state w)) = true ->
                   chunks_text chunks ++ leftover
                   = buf ++ get_or delta "" ++ streamed_text response /\
                   (ends_with_stop response = true -> leftover = "")) /\
                  (channel_open (websocket_manager (w_state w)) (job_id (w_state w)) = false ->
                   chunks = [])).
      { intros ->. cbn [append]. now apply IH. }
      destruct delta as [t|]; [|now apply Hskip].
      destruct (Py.truthy t) eqn:Et; [|apply Hskip; now destruct t].
      cbn [get_or]. rewrite <- !append_assoc.
      destruct (has_break (buf ++ t) && (Py.len (buf ++ t) >? 10)%Z); [|now apply IH].
      unfold bind. destruct (send_chunk_effect (buf ++ t) w) as (c1 & -> & Hc1 & Ht1 & Hz1).
      destruct (IH (acc ++ t) "" {| w_state := w_state w; w_log := (w_log w ++ c1)%list |} H)
        as (c2 & leftover & -> & Hc2 & Hopen2 & Hz2).
      cbn [w_state w_log] in *.
      exists (c1 ++ c2)%list, leftover. rewrite app_assoc.
      split; [reflexivity|]. split; [now apply Forall_app|]. split.
      * intros Hopen. destruct (Hopen2 Hopen) as [Htext Hstop].
        split; [|exact Hstop].
        rewrite chunks_text_app, Ht1, Hopen, append_assoc, Htext. reflexivity.
      * intros Hclosed. now rewrite (Hz1 Hclosed), (Hz2 Hclosed).
Qed.

(** X10.  When the stream of the Normalizer does not raise, the
    Normalizer returns the text of all its chunks up to the stop chunk,
    trimmed; chunks after the stop chunk are not read.  The state is left
    alone.  With the channel open, the report chunks it sends, put end to
    end, are a prefix of that text, and the whole of it when the stream
    ends with a stop chunk: what is still buffered when a stream ends
    without one is never sent.  With the channel closed it sends
    nothing. *)
Theorem content_sweep_streams (client : Client) (self_context : EditorContext)
    (content company : string) (w : World) (response : list StreamItem) :
  chat_stream client
    [("system", sweep_system);
     ("user", sweep_prompt (ectx_company self_context) content)] = Stream response ->
  items_raise response = false ->
  exists chunks leftover,
    content_sweep client self_context content company w
    = ({| w_state := w_state w; w_log := (w_log w ++ chunks)%list |},
       Ok (Py.strip (streamed_text response))) /\
    chunks_only chunks /\
    (channel_open (websocket_manager (w_state w)) (job_id (w_state w)) = true ->
     chunks_text chunks ++ leftover = streamed_text response /\
     (ends_with_stop response = true -> leftover = "")) /\
    (channel_open (websocket_manager (w_state w)) (job_id (w_state w)) = false ->
     chunks = []).
Proof.
  intros Hs Hok. unfold content_sweep, try_except, bind, completion_stream.
  rewrite Hs. unfold ret at 1.
  destruct (stream_loop_returns response "" "" w Hok)
    as (chunks & leftover & -> & Hc & Hopen & Hz).
  exists chunks, leftover. unfold ret. rewrite str_or_empty.
  split; [reflexivity|]. split; [exact Hc|]. split; [exact Hopen | exact Hz].
Qed.

Lemma content_sweep_streams_witness :
  exists chunks leftover,
    content_sweep Sample2.client_streaming Sample.sample_context "draft" "Acme"
      (Sample.world Sample.briefed_state)
    = ({| w_state := Sample.briefed_state; w_log := ([] ++ chunks)%list |},
       Ok (Py.strip (streamed_text Sample2.two_sentences))) /\
    chunks_only chunks /\
    (channel_open true (Some "job-1") = true ->
     chunks_text chunks ++ leftover = streamed_text Sample2.two_sentences /\
     (ends_with_stop Sample2.two_sentences = true -> leftover = "")) /\
    (channel_open true (Some "job-1") = false -> chunks = []).
Proof.
  apply (content_sweep_streams Sample2.client_streaming Sample.sample_context "draft" "Acme"
           (Sample.world Sample.briefed_state) Sample2.two_sentences);
    reflexivity.
Defined.

(** The two samples: a stream that stops is sent whole, in two chunks;
    one that ends without a stop chunk loses its last words. *)
Example stream_with_stop :
  let r := content_sweep Sample2.client_streaming Sample.sample_context "draft" "Acme"
             (Sample.world Sample.briefed_state) in
  snd r = Ok "# Acme report. Done" /\
  map chunk_of (w_log (fst r)) = ["# Acme report."; " Done"].
Proof. vm_compute. split; reflexivity. Qed.

Example stream_without_stop :
  let r := content_sweep Sample2.client_no_stop Sample.sample_context "draft" "Acme"
             (Sample.world Sample.briefed_state) in
  snd r = Ok "# Acme report. Done" /\
  map chunk_of (w_log (fst r)) = ["# Acme report."].
Proof. vm_compute. split; reflexivity. Qed.

End Streaming.

Section StoredReport.
Import Editor Spec Notions.

Local Open Scope string_scope.

Lemma strip_idempotent s : Py.strip (Py.strip s) = Py.strip s.
Proof. destruct (strip_is_clean s). now apply strip_clean. Qed.

(** The Compiler changes nothing in the world. *)
Lemma compile_content_pure fmt client self_context briefings company w :
  fst (compile_content fmt client self_context briefings company w) = w.
Proof.
  unfold compile_content, bind, get_state, try_except, completion.
  destruct (references (w_state w)) as [|r refs].
  - unfold ret at 1. destruct (chat_create client _ _) as [e|[text|]]; reflexivity.
  - unfold lift. destruct (fmt _ _ _) as [reference_text|e]; [|reflexivity].
    destruct (chat_create client _ _) as [e|[text|]]; reflexivity.
Qed.

(** The Normalizer always returns, a trimmed text; it leaves the state
    alone and sends report chunks only. *)
Lemma content_sweep_effect client self_context content company w :
  exists chunks text,
    content_sweep client self_context content company w
    = ({| w_state := w_state w; w_log := (w_log w ++ chunks)%list |},
       Ok (Py.strip text)) /\
    chunks_only chunks /\
    (channel_open (websocket_manager (w_state w)) (job_id (w_state w)) = false ->
     chunks = []).
Proof.
  unfold content_sweep, try_except, bind, completion_stream.
  destruct (chat_stream client _) as [e|response].
  - exists [], content. rewrite app_nil_r, str_or_empty. destruct w.
    split; [reflexivity|]. split; [constructor | reflexivity].
  - unfold ret at 1. destruct (items_raise response) eqn:Er.
    + assert (G : forall l acc buf w0, items_raise l = true ->
                exists e chunks,
                  stream_loop l acc buf w0
                  = ({| w_state := w_state w0; w_log := (w_log w0 ++ chunks)%list |}, Raise e) /\
                  chunks_only chunks /\
                  (channel_open (websocket_manager (w_state w0)) (job_id (w_state w0)) = false ->
                   chunks = [])).
      { induction l as [|item l IH]; intros acc buf w0 H; [discriminate|].
        destruct item as [fr delta|e]; cbn [items_raise stream_loop] in *.
        - destruct (is_stop fr); [discriminate|].
          destruct delta as [t|]; [|now apply IH].
          destruct (Py.truthy t); [|now apply IH].
          destruct (_ && _); [|now apply IH].
          unfold bind. destruct (send_chunk_effect (buf ++ t) w0) as (c1 & -> & Hc1 & _ & Hz1).
          destruct (IH (acc ++ t) ""
                      {| w_state := w_state w0; w_log := (w_log w0 ++ c1)%list |} H)
            as (e & c2 & -> & Hc2 & Hz2).
          cbn [w_state w_log] in *. exists e, (c1 ++ c2)%list. rewrite app_assoc.
          split; [reflexivity|]. split; [now apply Forall_app|].
          intros Hcl. now rewrite (Hz1 Hcl), (Hz2 Hcl).
        - exists e, []. rewrite app_nil_r. destruct w0.
          split; [reflexivity|]. split; [constructor | reflexivity]. }
      destruct (G response "" "" w Er) as (e & chunks & -> & Hc & Hz).
      exists chunks, content. unfold ret. rewrite str_or_empty. auto.
    + destruct (stream_loop_returns response "" "" w Er)
        as (chunks & leftover & -> & Hc & _ & Hz).
      exists chunks, (streamed_text response). unfold ret. rewrite str_or_empty. auto.
Qed.

Lemma notify_one ws job st msg p log :
  notify ws job st msg p log = (log ++ events_of ws job st msg p)%list.
Proof.
  unfold notify, events_of. destruct ws; [|now rewrite app_nil_r].
  destruct (truthy_job job); [reflexivity | now rewrite app_nil_r].
Qed.

Lemma progress_processing ws job msg p :
  progress_only (events_of ws job "processing" msg p).
Proof.
  unfold events_of. destruct (if ws then truthy_job job else None); repeat constructor.
Qed.

Lemma closed_no_event ws job st msg p :
  channel_open ws job = false -> events_of ws job st msg p = [].
Proof.
  unfold channel_open, events_of. destruct ws; [|reflexivity].
  now destruct (truthy_job job).
Qed.

Lemma progress_chunks l : chunks_only l -> progress_only l.
Proof. intros H. eapply Forall_impl; [|exact H]. intros e He. now right. Qed.

(** X11.  [edit_report] never raises and has two outcomes.  Either it
    returns the empty text, has left the state as it was and has sent no
    [editor_complete] event; or it returns a trimmed text that is not
    blank, has stored that text under ['report'] and
    ['editor']['report'] and set the status to [editor_complete], and,
    the channel being open, its last event is the one [editor_complete]
    event, which carries that same text.  Before that event it sends
    only [processing] and [report_chunk] events, and none at all with
    the channel closed. *)
Theorem edit_report_outcomes (fmt : Formatter) (client : Client)
    (self_context : EditorContext) (briefings : list (string * string)) (w : World) :
  exists r st' before final,
    edit_report fmt client self_context briefings w
    = ({| w_state := st'; w_log := (w_log w ++ before ++ final)%list |}, Ok r) /\
    progress_only before /\
    (channel_open (websocket_manager (w_state w)) (job_id (w_state w)) = false ->
     before = [] /\ final = []) /\
    ((r = "" /\ st' = w_state w /\ final = []) \/
     (non_blank r = true /\ Py.strip r = r /\ st' = with_report r (w_state w) /\
      (forall j, truthy_job (job_id (w_state w)) = Some j ->
                 websocket_manager (w_state w) = true ->
                 final = [completion_event j r (ectx_company self_context)]))).
Proof.
  set (ws := websocket_manager (w_state w)). set (job := job_id (w_state w)).
  unfold edit_report, try_except. unfold bind at 1. unfold send at 1.
  rewrite notify_one. fold ws job.
  set (e1 := events_of ws job "processing" "Compiling initial research report" _).
  assert (P1 : progress_only e1) by apply progress_processing.
  assert (Z1 : channel_open ws job = false -> e1 = []) by apply closed_no_event.
  set (w1 := {| w_state := w_state w; w_log := (w_log w ++ e1)%list |}).
  unfold bind at 1.
  pose proof (compile_content_pure fmt client self_context briefings
                (ectx_company self_context) w1) as Hpure.
  destruct (compile_content fmt client self_context briefings
              (ectx_company self_context) w1) as [w1' [edited|e]];
    cbn [fst] in Hpure; subst w1'.
  2:{ exists "", (w_state w), e1, []. rewrite app_nil_r. unfold ret.
      split; [reflexivity|]. split; [exact P1|].
      split; [intros Hc; split; [exact (Z1 Hc) | reflexivity] | left; auto]. }
  destruct (negb (Py.truthy edited)).
  { exists "", (w_state w), e1, []. rewrite app_nil_r. unfold ret.
    split; [reflexivity|]. split; [exact P1|].
    split; [intros Hc; split; [exact (Z1 Hc) | reflexivity] | left; auto]. }
  unfold bind at 1. unfold send at 1. rewrite notify_one. cbn [w_state w_log w1]. fold ws job.
  set (e2 := events_of ws job "processing" "Cleaning up and organizing report" _).
  unfold bind at 1. unfold send at 1. rewrite notify_one. cbn [w_state w_log]. fold ws job.
  set (e3 := events_of ws job "processing" "Formatting final report" _).
  assert (P2 : progress_only e2) by apply progress_processing.
  assert (P3 : progress_only e3) by apply progress_processing.
  assert (Z2 : channel_open ws job = false -> e2 = []) by apply closed_no_event.
  assert (Z3 : channel_open ws job = false -> e3 = []) by apply closed_no_event.
  unfold bind at 1.
  match goal with
  | |- context [content_sweep client self_context edited ?c ?w0] =>
      destruct (content_sweep_effect client self_context edited c w0)
        as (chunks & text & -> & Hch & Hz)
  end.
  cbn [w_state w_log] in *. fold ws job in Hz.
  rewrite str_or_empty, strip_idempotent.
  assert (Pb : progress_only (e1 ++ e2 ++ e3 ++ chunks)%list).
  { apply Forall_app; split; [exact P1|]. apply Forall_app; split; [exact P2|].
    apply Forall_app; split; [exact P3 | now apply progress_chunks]. }
  assert (Zb : channel_open ws job = false -> (e1 ++ e2 ++ e3 ++ chunks)%list = []).
  { intros Hc. now rewrite (Z1 Hc), (Z2 Hc), (Z3 Hc), (Hz Hc). }
  assert (Hlog : ((((w_log w ++ e1) ++ e2) ++ e3) ++ chunks)%list
                 = (w_log w ++ (e1 ++ e2 ++ e3 ++ chunks))%list)
    by (now rewrite <- !app_assoc).
  destruct (negb (Py.truthy (Py.strip text))) eqn:Eb.
  { exists "", (w_state w), (e1 ++ e2 ++ e3 ++ chunks)%list, [].
    unfold ret. rewrite app_nil_r, Hlog.
    split; [reflexivity|]. split; [exact Pb|]. split; [|left; auto].
    intros Hc. split; [exact (Zb Hc) | reflexivity]. }
  apply negb_false_iff in Eb.
  unfold bind, update, send, ret. cbn [w_state w_log].
  rewrite notify_one. cbn [websocket_manager job_id mirror_report set_editor set_status
                           set_report]. fold ws job.
  rewrite Hlog, <- app_assoc.
  eexists (Py.strip text), _, (e1 ++ e2 ++ e3 ++ chunks)%list, _.
  split; [reflexivity|]. split; [exact Pb|]. split.
  - intros Hc. split; [exact (Zb Hc) | now apply closed_no_event].
  - right. split; [unfold non_blank; now rewrite strip_idempotent|].
    split; [apply strip_idempotent|].
    split; [reflexivity|].
    intros j Hj Hws. unfold events_of. rewrite Hws, Hj. reflexivity.
Qed.

End StoredReport.

Section EditorFrame.
Import Editor Spec Notions.

Local Open Scope string_scope.

Lemma available_none st :
  available_briefings st = [] ->
  forall c, Py.truthy (get_or (Briefing.get_briefing c st) "") = false.
Proof.
  unfold available_briefings. intros H c.
  apply map_eq_nil in H.
  destruct (Py.truthy (get_or (Briefing.get_briefing c st) "")) eqn:E; [|reflexivity].
  assert (Hin : In c (filter (fun c => Py.truthy (get_or (Briefing.get_briefing c st) ""))
                        briefing_keys)).
  { apply filter_In. split; [destruct c; cbn; auto | exact E]. }
  rewrite H in Hin. contradiction.
Qed.

(** X12.  With no briefing in the state the Editor calls neither the
    formatter nor the backend: whatever they are, [run] returns, sends
    its two opening events and nothing more, and adds one message that
    lists the four missing briefings.  It writes no report and no
    status; it only copies a report the state already had under
    ['editor']. *)
Theorem editor_without_briefings (fmt : Formatter) (client : Client) (w : World) :
  available_briefings (w_state w) = [] ->
  run fmt client w
  = ({| w_state :=
          (match report (w_state w) with
           | Some r => mirror_report r
           | None => fun st => st
           end)
            (append_message (editor_message (w_state w) no_briefing_lines) (w_state w));
        w_log := (w_log w ++ opening_events (w_state w))%list |},
     Ok tt).
Proof.
  intros H. pose proof (available_none (w_state w) H) as Hn.
  unfold run, compile_briefings, bind, get_state, send.
  rewrite !notify_one. cbn [w_state w_log].
  cbn [collect briefing_keys].
  rewrite (Hn Company), (Hn Industry), (Hn Financial), (Hn Revenue).
  unfold ret, update. cbn [w_state w_log append_message set_messages report].
  unfold opening_events, starting_event, collecting_event. rewrite (app_assoc (w_log w)).
  destruct (report (w_state w)); reflexivity.
Qed.

Lemma editor_without_briefings_witness :
  run Sample2.fmt_down Sample.client_down (Sample.world Sample.blank_report_state)
  = ({| w_state :=
          mirror_report ""
            (append_message (editor_message Sample.blank_report_state no_briefing_lines)
               Sample.blank_report_state);
        w_log := ([] ++ opening_events Sample.blank_report_state)%list |},
     Ok tt).
Proof.
  apply (editor_without_briefings Sample2.fmt_down Sample.client_down
           (Sample.world Sample.blank_report_state)).
  reflexivity.
Defined.

(** X13.  When the state has references and the formatter raises,
    [edit_report] gives up before it calls the backend: it returns the
    empty text after its first event and leaves the state as it was,
    whatever the backend would have answered. *)
Theorem edit_report_formatter_failure (fmt : Formatter) (client : Client)
    (self_context : EditorContext) (briefings : list (string * string)) (w : World)
    (e : exn) :
  references (w_state w) <> [] ->
  fmt (references (w_state w)) (reference_info (w_state w)) (reference_titles (w_state w))
  = Raise e ->
  edit_report fmt client self_context briefings w
  = ({| w_state := w_state w;
        w_log := (w_log w
                  ++ events_of (websocket_manager (w_state w)) (job_id (w_state w))
                       "processing" "Compiling initial research report"
                       (PStep "Editor" (Some "compilation")))%list |},
     Ok "").
Proof.
  intros Hrefs Hfmt.
  unfold edit_report, try_except. unfold bind at 1. unfold send at 1.
  rewrite notify_one. unfold bind at 1.
  unfold compile_content. unfold bind at 1. unfold get_state. cbn [w_state].
  unfold bind at 1.
  destruct (references (w_state w)) as [|r refs] eqn:Er; [contradiction|].
  unfold lift. rewrite Hfmt. reflexivity.
Qed.

Lemma edit_report_formatter_failure_witness :
  edit_report Sample2.fmt_down Sample.client_ok Sample.sample_context
    [("company", "* fact")] (Sample.world Sample2.referenced_state)
  = ({| w_state := Sample2.referenced_state;
        w_log := ([] ++ events_of true (Some "job-1") "processing"
                          "Compiling initial research report"
                          (PStep "Editor" (Some "compilation")))%list |},
     Ok "").
Proof.
  apply (edit_report_formatter_failure Sample2.fmt_down Sample.client_ok
           Sample.sample_context [("company", "* fact")]
           (Sample.world Sample2.referenced_state) FormatterError).
  - discriminate.
  - reflexivity.
Defined.

Lemma same_but_editor_refl st : same_but_editor_fields st st.
Proof. repeat split. Qed.

Lemma same_but_editor_trans st1 st2 st3 :
  same_but_editor_fields st1 st2 -> same_but_editor_fields st2 st3 ->
  same_but_editor_fields st1 st3.
Proof.
  unfold same_but_editor_fields. intros H1 H2.
  repeat match goal with H : _ /\ _ |- _ => destruct H end.
  repeat split; congruence.
Qed.

Lemma editor_frame_refl w : editor_frame w w.
Proof.
  split; [apply same_but_editor_refl|]. exists []. now rewrite app_nil_r.
Qed.

Lemma editor_frame_trans w1 w2 w3 :
  editor_frame w1 w2 -> editor_frame w2 w3 -> editor_frame w1 w3.
Proof.
  intros [Hs1 (s1 & Hl1 & Hz1)] [Hs2 (s2 & Hl2 & Hz2)].
  split; [eapply same_but_editor_trans; eassumption|].
  exists (s1 ++ s2)%list. rewrite Hl2, Hl1, app_assoc. split; [reflexivity|].
  intros Hc. rewrite (Hz1 Hc). cbn [app]. apply Hz2.
  destruct Hs1 as (_ & _ & _ & Hws & Hjob & _). now rewrite Hws, Hjob.
Qed.

Lemma within_ret {A} (a : A) : within editor_frame (ret a).
Proof. intros w. apply editor_frame_refl. Qed.

Lemma within_raise {A} e : within editor_frame (@raise A e).
Proof. intros w. apply editor_frame_refl. Qed.

Lemma within_lift {A} (r : result A) : within editor_frame (lift r).
Proof. intros w. apply editor_frame_refl. Qed.

Lemma within_get_state : within editor_frame get_state.
Proof. intros w. apply editor_frame_refl. Qed.

Lemma within_send st msg p : within editor_frame (send st msg p).
Proof.
  intros w. unfold send. cbn [fst]. split; [apply same_but_editor_refl|].
  cbn [w_state w_log]. rewrite notify_one. eexists. split; [reflexivity|].
  apply closed_no_event.
Qed.

Lemma within_update f :
  (forall st, same_but_editor_fields st (f st)) -> within editor_frame (update f).
Proof.
  intros H w. unfold update. cbn [fst]. split; [apply H|].
  exists []. now rewrite app_nil_r.
Qed.

Lemma within_bind {A B} (m : M A) (k : A -> M B) :
  within editor_frame m -> (forall a, within editor_frame (k a)) ->
  within editor_frame (bind m k).
Proof.
  intros Hm Hk w. unfold bind. specialize (Hm w).
  destruct (m w) as [w1 [a|e]]; cbn [fst] in *; [|exact Hm].
  eapply editor_frame_trans; [exact Hm | apply Hk].
Qed.

Lemma within_try {A} (body : M A) handler :
  within editor_frame body -> (forall e, within editor_frame (handler e)) ->
  within editor_frame (try_except body handler).
Proof.
  intros Hb Hh w. unfold try_except. specialize (Hb w).
  destruct (body w) as [w1 [a|e]]; cbn [fst] in *; [exact Hb|].
  eapply editor_frame_trans; [exact Hb | apply Hh].
Qed.

Lemma within_stream_loop response :
  forall acc buf, within editor_frame (stream_loop response acc buf).
Proof.
  induction response as [|item response IH]; intros acc buf; cbn [stream_loop].
  - apply within_ret.
  - destruct item as [fr delta|e]; [|apply within_raise].
    destruct (is_stop fr).
    + apply within_bind; [|intros _; apply within_ret].
      destruct (Py.truthy buf); [apply within_send | apply within_ret].
    + destruct delta as [t|]; [|apply IH].
      destruct (Py.truthy t); [|apply IH].
      destruct (_ && _); [|apply IH].
      apply within_bind; [apply within_send | intros _; apply IH].
Qed.

Lemma within_edit_report fmt client self_context briefings :
  within editor_frame (edit_report fmt client self_context briefings).
Proof.
  unfold edit_report.
  apply within_try; [|intros _; apply within_ret].
  apply within_bind; [apply within_send | intros _].
  apply within_bind.
  { intros w. rewrite compile_content_pure. apply editor_frame_refl. }
  intros edited_report.
  destruct (negb (Py.truthy edited_report)); [apply within_ret|].
  apply within_bind; [apply within_send | intros _].
  apply within_bind; [apply within_send | intros _].
  apply within_bind.
  { unfold content_sweep. apply within_try; [|intros _; apply within_ret].
    apply within_bind.
    - unfold completion_stream.
      destruct (chat_stream _ _); [apply within_raise | apply within_ret].
    - intros response.
      apply within_bind; [apply within_stream_loop | intros t; apply within_ret]. }
  intros final_report.
  destruct (negb _); [apply within_ret|].
  apply within_bind; [apply within_update; intros st; repeat split | intros _].
  apply within_bind; [apply within_update; intros st; repeat split | intros _].
  apply within_bind; [apply within_update; intros st; repeat split | intros _].
  apply within_bind; [apply within_send | intros _; apply within_ret].
Qed.

(** X14.  The Editor writes the messages, the report, the status and the
    ['editor'] entry and nothing else: after [run] the company data, the
    curated datasets, the four briefings, the briefings map and the
    references are those of the state it was given.  The events sent
    before are still in the log, in front of the new ones; and without a
    websocket manager or a job id [run] sends none. *)
Theorem editor_run_frame (fmt : Formatter) (client : Client) (w : World) :
  same_but_editor_fields (w_state w) (w_state (fst (run fmt client w))) /\
  exists sent,
    w_log (fst (run fmt client w)) = (w_log w ++ sent)%list /\
    (channel_open (websocket_manager (w_state w)) (job_id (w_state w)) = false ->
     sent = []).
Proof.
  assert (H : within editor_frame (run fmt client)).
  { unfold run. apply within_bind.
    - unfold compile_briefings.
      apply within_bind; [apply within_get_state | intros state].
      apply within_bind; [apply within_send | intros _].
      apply within_bind; [apply within_send | intros _].
      destruct (collect briefing_keys state [] _) as [ib msg].
      apply within_bind.
      + destruct ib; [apply within_ret|].
        apply within_bind; [|intros _; apply within_ret].
        apply within_try; [|intros _; apply within_ret].
        apply within_bind; [apply within_edit_report | intros _; apply within_ret].
      + intros msg'. apply within_update. intros st. repeat split.
    - intros _. apply within_bind; [apply within_get_state | intros state].
      destruct (report state); [|apply within_ret].
      apply within_update. intros st. repeat split. }
  exact (H w).
Qed.

End EditorFrame.

Section ScannerFacts.
Import Scanner ScanNotions.

Local Open Scope string_scope.

Lemma in_dict_put {V} (k u : string) (v d : V) l :
  In (u, d) (dict_put k v l) -> (u = k /\ d = v) \/ In (u, d) l.
Proof.
  induction l as [|[k' v'] l IH]; cbn [dict_put].
  - intros [H|[]]. inversion H. now left.
  - destruct (String.eqb_spec k k') as [->|Hne].
    + intros [H|H]; [inversion H; now left | right; now right].
    + intros [H|H]; [right; now left|].
      destruct (IH H) as [?|?]; [now left | right; now right].
Qed.

Lemma in_dict_put_same {V} (k : string) (v : V) l : In (k, v) (dict_put k v l).
Proof.
  induction l as [|[k' v'] l IH]; cbn [dict_put]; [now left|].
  destruct (String.eqb k k'); [now left | now right].
Qed.

Lemma in_dict_put_other {V} (k u : string) (v d : V) l :
  u <> k -> In (u, d) l -> In (u, d) (dict_put k v l).
Proof.
  intros Hne. induction l as [|[k' v'] l IH]; cbn [dict_put]; [intros []|].
  destruct (String.eqb_spec k k') as [->|Hk].
  - intros [H|H]; [inversion H; congruence | now right].
  - intros [H|H]; [now left | right; auto].
Qed.

Lemma urls_dict_put {V} (k u : string) (v : V) l :
  In u (urls (dict_put k v l)) <-> u = k \/ In u (urls l).
Proof.
  unfold urls. induction l as [|[k' v'] l IH]; cbn [dict_put map In fst].
  - intuition.
  - destruct (String.eqb_spec k k') as [->|Hk]; cbn [map In fst]; intuition.
Qed.

Lemma dict_put_nodup {V} (k : string) (v : V) l :
  NoDup (urls l) -> NoDup (urls (dict_put k v l)).
Proof.
  unfold urls. induction l as [|[k' v'] l IH]; cbn [dict_put map fst]; intros H.
  - repeat constructor. intros [].
  - inversion H as [|? ? Hn Hl]; subst.
    destruct (String.eqb_spec k k') as [->|Hk]; cbn [map fst].
    + now constructor.
    + constructor; [|auto].
      intros Hin. apply (urls_dict_put k k' v l) in Hin.
      destruct Hin as [?|?]; [congruence | now apply Hn].
Qed.

Lemma dict_set_again k v v' d : dict_set k v (dict_set k v' d) = dict_set k v d.
Proof.
  induction d as [|[k0 v0] d IH]; cbn [dict_set].
  - now rewrite String.eqb_refl.
  - destruct (String.eqb k k0) eqn:E; cbn [dict_set].
    + now rewrite String.eqb_refl.
    + now rewrite E, IH.
Qed.

Lemma urls_read heap revenue_data : urls (read heap revenue_data) = urls revenue_data.
Proof. unfold urls, read. rewrite map_map. reflexivity. Qed.

Lemma in_read heap revenue_data url doc :
  In (url, doc) (read heap revenue_data) ->
  exists e, In (url, e) revenue_data /\
            doc = match e with Own d => d | Shared o => heap o end.
Proof.
  unfold read. intros H. apply in_map_iff in H. destruct H as ([u e] & Heq & Hin).
  cbn [fst snd] in Heq. injection Heq as -> <-. now exists e.
Qed.

Lemma write_same o doc heap : write o doc heap o = doc.
Proof. unfold write. now rewrite Nat.eqb_refl. Qed.

Lemma write_other o o' doc heap : o' <> o -> write o doc heap o' = heap o'.
Proof. unfold write. intros H. apply Nat.eqb_neq in H. now rewrite H. Qed.

(** Writing the query into an object leaves it with the fields the search
    gave it and this query, whatever query it had before. *)
Lemma tagged_write R self heap o query :
  tagged R self heap ->
  dict_set "query" query (heap o) = dict_set "query" query (fields self o).
Proof.
  intros H. destruct (H o) as [->|(last & _ & ->)]; [reflexivity|].
  apply dict_set_again.
Qed.

Lemma tagged_step (R : Obj -> string -> Prop) self heap o query :
  R o query -> tagged R self heap ->
  tagged R self (write o (dict_set "query" query (heap o)) heap).
Proof.
  intros Hr H o'. destruct (Nat.eq_dec o' o) as [->|Hne].
  - right. exists query. split; [exact Hr|].
    rewrite write_same. now apply (tagged_write R).
  - rewrite write_other by exact Hne. apply H.
Qed.

(** A property of the dictionary and the objects that storing one
    document keeps holds after all of them are stored. *)
Lemma store_documents_invariant (P : Refs -> Heap -> Prop) query documents :
  (forall url o revenue_data heap,
      In (url, o) documents -> P revenue_data heap ->
      P (dict_put url (Shared o) revenue_data)
        (write o (dict_set "query" query (heap o)) heap)) ->
  forall revenue_data heap,
    P revenue_data heap ->
    P (fst (store_documents query documents revenue_data heap))
      (snd (store_documents query documents revenue_data heap)).
Proof.
  induction documents as [|[url o] rest IH]; intros Hstep revenue_data heap H;
    cbn [store_documents]; [exact H|].
  apply IH.
  - intros url' o' r h Hin. apply Hstep. now right.
  - apply Hstep; [now left | exact H].
Qed.

Lemma search_all_app self st qs1 qs2 d h :
  search_all self st (qs1 ++ qs2) d h
  = match snd (search_all self st qs1 d h) with
    | Some f => search_all self st qs1 d h
    | None =>
        search_all self st qs2 (fst (fst (search_all self st qs1 d h)))
          (snd (fst (search_all self st qs1 d h)))
    end.
Proof.
  revert d h. induction qs1 as [|q qs1 IH]; intros d h; cbn [app search_all fst snd].
  - reflexivity.
  - destruct (search_documents self st [q]) as [docs| |e t]; cbn [fst snd].
    + destruct (truthy_dict docs); [|apply IH].
      destruct (store_documents q docs d h). apply IH.
    + apply IH.
    + reflexivity.
Qed.

Lemma search_all_succeeds self st qs d h :
  (forall q, In q qs -> search_fails self st q = false) ->
  snd (search_all self st qs d h) = None.
Proof.
  revert d h. induction qs as [|q qs IH]; intros d h H; cbn [search_all]; [reflexivity|].
  pose proof (H q (or_introl eq_refl)) as Hq. unfold search_fails in Hq.
  assert (Hrest : forall q', In q' qs -> search_fails self st q' = false)
    by (intros q' Hin; apply H; now right).
  destruct (search_documents self st [q]) as [docs| |e t]; [| |discriminate].
  - destruct (truthy_dict docs); [|now apply IH].
    destruct (store_documents q docs d h). now apply IH.
  - now apply IH.
Qed.

(** A property of the dictionary and the objects that every stored
    search result keeps holds when the loop ends or is left. *)
Lemma search_all_invariant (P : Refs -> Heap -> Prop) self st qs :
  (forall q documents d h,
      In q qs -> search_documents self st [q] = Documents documents ->
      P d h ->
      P (fst (store_documents q documents d h)) (snd (store_documents q documents d h))) ->
  forall d h,
    P d h ->
    P (fst (fst (search_all self st qs d h))) (snd (fst (search_all self st qs d h))).
Proof.
  induction qs as [|q qs IH]; intros Hstep d h Hd; cbn [search_all]; [exact Hd|].
  assert (Hrest : forall q' documents d h,
             In q' qs -> search_documents self st [q'] = Documents documents ->
             P d h ->
             P (fst (store_documents q' documents d h))
               (snd (store_documents q' documents d h)))
    by (intros q' docs d' h' Hin; apply Hstep; now right).
  destruct (search_documents self st [q]) as [docs| |e t] eqn:E.
  - destruct (truthy_dict docs).
    + pose proof (Hstep q docs d h (or_introl eq_refl) E Hd) as Hs.
      destruct (store_documents q docs d h) as [d' h']. now apply IH.
    + now apply IH.
  - now apply IH.
  - exact Hd.
Qed.

Lemma include_site_scrape_scraped st msg d :
  include_site_scrape st msg d
  = match scraped st with
    | Some s =>
        ((msg ++ [scrape_line])%list,
         dict_put (scrape_url st) (Own (scrape_entry st s)) d)
    | None => (msg, d)
    end.
Proof.
  unfold include_site_scrape, scraped, scrape_url.
  destruct (site_scrape st) as [s|]; [|reflexivity]. now destruct (Py.truthy s).
Qed.

Lemma scanned_twice queries out state text :
  out_message out = text ->
  set_revenue_data (out_revenue_data out)
    (add_message (Py.join Py.nl text) (prepared queries state))
  = scanned queries out state.
Proof.
  intros <-. unfold scanned, set_revenue_data, add_message, prepared, add_message.
  cbn [research site_scrape company_url revenue_data]. f_equal.
  destruct (research state). cbn. now rewrite <- app_assoc.
Qed.

(** What [analyze] does once the queries are there. *)
Lemma analyze_returns self state log queries :
  generate_queries self state query_prompt = Ok queries ->
  let st1 := prepared queries state in
  let start := include_site_scrape st1 [header state] [] in
  let res := search_all self st1 queries (snd start) (fields self) in
  let found := read (snd (fst res)) (fst (fst res)) in
  let last :=
    match snd res with
    | None => found_line found
    | Some (_, text) => error_line text
    end in
  let out := {| out_message := (fst start ++ [last])%list; out_revenue_data := found |} in
  analyze self state log
  = (scanned queries out state,
     match snd res with
     | None => notify_search st1 queries found log
     | Some _ => log
     end,
     Ok out).
Proof.
  intros H. cbv zeta. unfold analyze. rewrite H. fold (header state).
  fold (prepared queries state).
  destruct (include_site_scrape (prepared queries state) [header state] []) as [msg d].
  cbn [fst snd].
  destruct (search_all self (prepared queries state) queries d (fields self))
    as [[d' h'] [[e t]|]];
    cbn [fst snd];
    (do 2 f_equal;
     apply (scanned_twice queries {| out_message := _; out_revenue_data := read h' d' |});
     reflexivity).
Qed.

Lemma found_by_returns self state log queries :
  generate_queries self state query_prompt = Ok queries ->
  found_by self state log
  = read
      (snd (fst (search_all self (prepared queries state) queries
                   (snd (include_site_scrape (prepared queries state) [header state] []))
                   (fields self))))
      (fst (fst (search_all self (prepared queries state) queries
                   (snd (include_site_scrape (prepared queries state) [header state] []))
                   (fields self)))).
Proof.
  intros H. unfold found_by. now rewrite (analyze_returns self state log queries H).
Qed.

Lemma notify_search_event st queries d log :
  notify_search st queries d log
  = (log ++ match (if websocket_manager (research st)
                   then truthy_job (job_id (research st)) else None) with
            | Some j => [search_event j queries (List.length d)]
            | None => []
            end)%list.
Proof.
  unfold notify_search, search_event.
  destruct (websocket_manager (research st)); [|now rewrite app_nil_r].
  destruct (truthy_job (job_id (research st))); [reflexivity | now rewrite app_nil_r].
Qed.

Lemma start_nodup st msg : NoDup (urls (snd (include_site_scrape st msg []))).
Proof.
  rewrite include_site_scrape_scraped.
  destruct (scraped st); cbn [snd]; [apply dict_put_nodup|]; constructor.
Qed.

Lemma search_all_nodup self st qs d h :
  NoDup (urls d) -> NoDup (urls (fst (fst (search_all self st qs d h)))).
Proof.
  intros H.
  apply (search_all_invariant (fun d _ => NoDup (urls d))); [|exact H].
  intros q docs d0 h0 _ _.
  apply (store_documents_invariant (fun d _ => NoDup (urls d))).
  intros url o r h1 _. apply dict_put_nodup.
Qed.

(** X15.  [analyze] raises exactly when [generate_queries] does, with
    the same exception, and then it has changed nothing and sent
    nothing.  Otherwise it returns, whatever the searches return or
    raise: the state has two more messages, the list of the queries and
    the lines it returns under ['message'] joined by line breaks, and
    under ['revenue_data'] the dictionary it returns; nothing else of the
    state has changed, and at most one event was sent. *)
Theorem analyze_outcomes (self : Researcher) (state : ScanState) (log : list ScanEvent) :
  match generate_queries self state query_prompt with
  | Raise e => analyze self state log = (state, log, Raise e)
  | Ok queries =>
      exists out sent,
        analyze self state log = (scanned queries out state, (log ++ sent)%list, Ok out) /\
        (List.length sent <= 1)%nat /\
        hd "" (out_message out) = header state
  end.
Proof.
  destruct (generate_queries self state query_prompt) as [queries|e] eqn:E.
  - rewrite (analyze_returns self state log queries E). cbv zeta.
    set (st1 := prepared queries state).
    set (res := search_all self st1 queries _ _).
    eexists.
    exists (match snd res with
            | Some _ => []
            | None =>
                match (if websocket_manager (research st1)
                       then truthy_job (job_id (research st1)) else None) with
                | Some j =>
                    [search_event j queries
                       (List.length (read (snd (fst res)) (fst (fst res))))]
                | None => []
                end
            end).
    split; [|split].
    + f_equal. f_equal.
      destruct (snd res).
      * symmetry. apply app_nil_r.
      * apply notify_search_event.
    + destruct (snd res); [cbn; lia|].
      destruct (if websocket_manager _ then _ else _); cbn; lia.
    + cbn [out_message]. rewrite include_site_scrape_scraped.
      destruct (scraped _); reflexivity.
  - unfold analyze. now rewrite E.
Qed.

Lemma accounted_step self state queries query documents url o d h :
  In query queries ->
  search_documents self (prepared queries state) [query] = Documents documents ->
  In (url, o) documents ->
  accounted self (prepared queries state) queries d h /\
  tagged (returned self (prepared queries state) queries) self h ->
  accounted self (prepared queries state) queries
    (dict_put url (Shared o) d) (write o (dict_set "query" query (h o)) h) /\
  tagged (returned self (prepared queries state) queries) self
    (write o (dict_set "query" query (h o)) h).
Proof.
  intros Hq Hs Hin [Ha Ht].
  assert (Hr : returned self (prepared queries state) queries o query).
  { split; [exact Hq|]. now exists documents, url. }
  split; [|now apply tagged_step].
  assert (Hnew : exists last,
             returned self (prepared queries state) queries o last /\
             write o (dict_set "query" query (h o)) h o
             = dict_set "query" last (fields self o)).
  { exists query. split; [exact Hr|]. rewrite write_same. now apply (tagged_write _ _ _ _ _ Ht). }
  intros u e He. apply in_dict_put in He. destruct He as [[-> ->]|He].
  - split; [now exists query, documents | exact Hnew].
  - specialize (Ha u e He). destruct e as [doc|o']; [exact Ha|].
    destruct Ha as [Hfrom Hlast]. split; [exact Hfrom|].
    destruct (Nat.eq_dec o' o) as [->|Hne]; [exact Hnew|].
    now rewrite write_other by exact Hne.
Qed.

(** X16.  Every document [analyze] returns is the site scrape under its
    url, or an object that the search for one of the queries returned
    under this url.  The object has the fields the search gave it, and
    for its query the query of a search that returned this very object:
    an object returned more than once is one document, under all its
    urls.  No url is there twice. *)
Theorem revenue_data_provenance (self : Researcher) (state : ScanState)
    (log : list ScanEvent) (queries : list string) :
  generate_queries self state query_prompt = Ok queries ->
  NoDup (urls (found_by self state log)) /\
  forall url doc,
    In (url, doc) (found_by self state log) ->
    from_scrape state url doc \/
    from_search self (prepared queries state) queries url doc.
Proof.
  intros H. rewrite (found_by_returns self state log queries H).
  set (st1 := prepared queries state). split.
  - rewrite urls_read. apply search_all_nodup, start_nodup.
  - assert (Hinv : accounted self st1 queries
                     (fst (fst (search_all self st1 queries
                                  (snd (include_site_scrape st1 [header state] []))
                                  (fields self))))
                     (snd (fst (search_all self st1 queries
                                  (snd (include_site_scrape st1 [header state] []))
                                  (fields self)))) /\
                   tagged (returned self st1 queries) self
                     (snd (fst (search_all self st1 queries
                                  (snd (include_site_scrape st1 [header state] []))
                                  (fields self))))).
    { apply (search_all_invariant
               (fun d h => accounted self st1 queries d h /\
                           tagged (returned self st1 queries) self h)).
      - intros q docs d h Hq Hs Hd.
        apply (store_documents_invariant
                 (fun d h => accounted self st1 queries d h /\
                             tagged (returned self st1 queries) self h));
          [|exact Hd].
        intros url o r h1 Hin. now apply (accounted_step self state queries q docs).
      - split; [|intros o; now left].
        rewrite include_site_scrape_scraped.
        intros url e Hin.
        destruct (scraped st1) as [s|] eqn:Es; cbn [snd] in Hin; [|destruct Hin].
        destruct Hin as [Heq|[]]. inversion Heq; subst.
        exists s. repeat split. exact Es. }
    destruct Hinv as [Ha _].
    intros url doc Hin. apply in_read in Hin. destruct Hin as (e & He & ->).
    specialize (Ha url e He). destruct e as [d|o]; [now left|].
    right. destruct Ha as [(query & documents & Hq & Hs & Hin) (last & Hr & Hh)].
    exists query, documents, o, last. rewrite Hh. auto.
Qed.

Lemma revenue_data_provenance_witness :
  NoDup (urls (found_by researcher_two scraped_state [])) /\
  forall url doc,
    In (url, doc) (found_by researcher_two scraped_state []) ->
    from_scrape scraped_state url doc \/
    from_search researcher_two (prepared ["q1"; "q2"] scraped_state) ["q1"; "q2"] url doc.
Proof.
  apply (revenue_data_provenance researcher_two scraped_state [] ["q1"; "q2"]).
  reflexivity.
Defined.

(** One object returned by two searches, under two urls: when [analyze]
    returns, it carries the query of the second search under both. *)
Example shared_object_last_query :
  found_by researcher_sharing (scan_state None None) []
  = [("u1", [("title", "A"); ("query", "q2")]);
     ("u2", [("title", "A"); ("query", "q2")])].
Proof. reflexivity. Qed.

Lemma search_all_asking self st st' queries qs d h :
  search_all (asking queries st self) st' qs d h = search_all self st qs d h.
Proof.
  revert d h. induction qs as [|q qs IH]; intros d h; cbn [search_all]; [reflexivity|].
  cbn [asking search_documents].
  destruct (search_documents self st [q]) as [docs| |e t]; [|apply IH|reflexivity].
  destruct (truthy_dict docs); [|apply IH].
  destruct (store_documents q docs d h). apply IH.
Qed.

(** X17.  A search that raises ends the searching and nothing more: when
    the searches before it did not raise, [analyze] returns the
    dictionary it would return had the queries stopped before the
    failing one, its last line is the error with the text of the
    exception, and no event is sent; the queries after the failing one
    are not searched. *)
Theorem search_failure_keeps_earlier (self : Researcher) (state : ScanState)
    (log : list ScanEvent) (before after : list string) (query : string)
    (e : exn) (text : string) :
  generate_queries self state query_prompt = Ok (before ++ query :: after)%list ->
  (forall q, In q before ->
             search_fails self (prepared (before ++ query :: after)%list state) q = false) ->
  search_documents self (prepared (before ++ query :: after)%list state) [query]
  = SearchRaises e text ->
  exists out,
    analyze self state log
    = (scanned (before ++ query :: after)%list out state, log, Ok out) /\
    last (out_message out) "" = error_line text /\
    out_revenue_data out
    = found_by (asking before (prepared (before ++ query :: after)%list state) self)
        state log.
Proof.
  intros Hq Hbefore Hfail.
  set (queries := (before ++ query :: after)%list) in *.
  set (st1 := prepared queries state) in *.
  rewrite (analyze_returns self state log queries Hq). cbv zeta. fold st1.
  set (d0 := snd (include_site_scrape st1 [header state] [])).
  assert (Hres : search_all self st1 queries d0 (fields self)
                 = (fst (search_all self st1 before d0 (fields self)), Some (e, text))).
  { unfold queries. rewrite search_all_app.
    rewrite (search_all_succeeds self st1 before d0 (fields self) Hbefore).
    cbn [search_all]. rewrite Hfail.
    now destruct (search_all self st1 before d0 (fields self)) as [[d h] f]. }
  rewrite Hres. cbn [fst snd]. eexists. split; [reflexivity|].
  cbn [out_message out_revenue_data].
  split; [apply last_last|].
  rewrite (found_by_returns (asking before st1 self) state log before eq_refl).
  cbn [asking fields]. rewrite search_all_asking. reflexivity.
Qed.

Lemma search_failure_keeps_earlier_witness :
  exists out,
    analyze researcher_failing scraped_state []
    = (scanned (["q1"] ++ "q2" :: ["q3"])%list out scraped_state, [], Ok out) /\
    last (out_message out) "" = error_line "timeout" /\
    out_revenue_data out
    = found_by (asking ["q1"]
                  (prepared (["q1"] ++ "q2" :: ["q3"])%list scraped_state)
                  researcher_failing)
        scraped_state [].
Proof.
  apply (search_failure_keeps_earlier researcher_failing scraped_state []
           ["q1"] ["q3"] "q2" BackendError "timeout").
  - reflexivity.
  - intros q [<-|[]]. reflexivity.
  - reflexivity.
Defined.

(** The head of a dictionary keeps its key, and its value as long as no
    other value is stored under it. *)
Lemma store_documents_head query documents k e d h :
  exists e' d',
    fst (store_documents query documents ((k, e) :: d) h) = (k, e') :: d' /\
    (~ In k (urls documents) -> e' = e).
Proof.
  revert e d h. induction documents as [|[u o] rest IH]; intros e d h; cbn [store_documents].
  - exists e, d. now split.
  - cbn [dict_put]. destruct (String.eqb_spec u k) as [->|Hne].
    + destruct (IH (Shared o) d (write o (dict_set "query" query (h o)) h))
        as (e' & d' & E & _).
      exists e', d'. split; [exact E|]. intros Hn. exfalso. apply Hn. now left.
    + destruct (IH e (dict_put u (Shared o) d) (write o (dict_set "query" query (h o)) h))
        as (e' & d' & E & He).
      exists e', d'. split; [exact E|]. intros Hn. apply He.
      intros H. apply Hn. now right.
Qed.

(** X18.  With a site scrape in the state the first url of the
    dictionary is the one of the company, whatever the searches return;
    and the entry under it is the site scrape unless a search returned a
    document under this very url. *)
Theorem site_scrape_first (self : Researcher) (state : ScanState)
    (log : list ScanEvent) (queries : list string) (s : string) :
  scraped state = Some s ->
  generate_queries self state query_prompt = Ok queries ->
  exists doc rest,
    found_by self state log = (scrape_url state, doc) :: rest /\
    ((forall q documents,
         In q queries ->
         search_documents self (prepared queries state) [q] = Documents documents ->
         ~ In (scrape_url state) (urls documents)) ->
     doc = scrape_entry state s).
Proof.
  intros Hs Hq. rewrite (found_by_returns self state log queries Hq).
  set (st1 := prepared queries state).
  rewrite include_site_scrape_scraped.
  change (scraped st1) with (scraped state). rewrite Hs. cbn [snd dict_put].
  change (scrape_url st1) with (scrape_url state).
  change (scrape_entry st1 s) with (scrape_entry state s).
  set (res := search_all self st1 queries _ _).
  assert (Hinv : exists e rest,
             fst (fst res) = (scrape_url state, e) :: rest /\
             ((forall q documents,
                  In q queries ->
                  search_documents self st1 [q] = Documents documents ->
                  ~ In (scrape_url state) (urls documents)) ->
              e = Own (scrape_entry state s))).
  { apply (search_all_invariant
             (fun d _ => exists e rest,
                  d = (scrape_url state, e) :: rest /\
                  ((forall q documents,
                       In q queries ->
                       search_documents self st1 [q] = Documents documents ->
                       ~ In (scrape_url state) (urls documents)) ->
                   e = Own (scrape_entry state s)))).
    - intros q docs d h Hin Hdocs (e & rest & -> & He).
      destruct (store_documents_head q docs (scrape_url state) e rest h)
        as (e' & d' & E & Hv).
      exists e', d'. split; [exact E|]. intros Hall.
      rewrite (Hv (Hall q docs Hin Hdocs)). now apply He.
    - exists (Own (scrape_entry state s)), []. now split. }
  destruct Hinv as (e & rest & Hd & He). rewrite Hd. cbn [read map fst snd].
  eexists. eexists. split; [reflexivity|]. intros Hall. now rewrite (He Hall).
Qed.

Lemma site_scrape_first_witness :
  exists doc rest,
    found_by researcher_two scraped_state [] = (scrape_url scraped_state, doc) :: rest /\
    ((forall q documents,
         In q ["q1"; "q2"] ->
         search_documents researcher_two (prepared ["q1"; "q2"] scraped_state) [q]
         = Documents documents ->
         ~ In (scrape_url scraped_state) (urls documents)) ->
     doc = scrape_entry scraped_state "scraped text").
Proof.
  apply (site_scrape_first researcher_two scraped_state [] ["q1"; "q2"] "scraped text").
  - reflexivity.
  - reflexivity.
Defined.

(** X19.  When no search raises and the state has a websocket manager
    and a job id, [analyze] sends exactly one event; the number of
    documents in it and in the last line of the message is the number of
    urls of the dictionary it returns, each counted once. *)
Theorem search_success_reported (self : Researcher) (state : ScanState)
    (log : list ScanEvent) (queries : list string) (j : string) :
  generate_queries self state query_prompt = Ok queries ->
  (forall q, In q queries -> search_fails self (prepared queries state) q = false) ->
  websocket_manager (research state) = true ->
  truthy_job (job_id (research state)) = Some j ->
  exists out,
    analyze self state log
    = (scanned queries out state,
       (log ++ [search_event j queries (List.length (urls (out_revenue_data out)))])%list,
       Ok out) /\
    last (out_message out) "" = found_line (out_revenue_data out) /\
    NoDup (urls (out_revenue_data out)).
Proof.
  intros Hq Hall Hws Hjob.
  rewrite (analyze_returns self state log queries Hq). cbv zeta.
  set (st1 := prepared queries state) in *.
  set (d0 := snd (include_site_scrape st1 [header state] [])).
  rewrite (search_all_succeeds self st1 queries d0 (fields self) Hall).
  match goal with |- context [Ok ?o] => exists o end.
  split; [|split].
  - rewrite notify_search_event.
    change (websocket_manager (research st1)) with (websocket_manager (research state)).
    change (job_id (research st1)) with (job_id (research state)).
    rewrite Hws, Hjob. cbn [fst snd out_revenue_data].
    unfold urls. rewrite length_map. reflexivity.
  - cbn [out_message]. apply last_last.
  - cbn [out_revenue_data]. rewrite urls_read. apply search_all_nodup, start_nodup.
Qed.

Lemma search_success_reported_witness :
  exists out,
    analyze researcher_two scraped_state []
    = (scanned ["q1"; "q2"] out scraped_state,
       ([] ++ [search_event "job-1" ["q1"; "q2"]
                 (List.length (urls (out_revenue_data out)))])%list,
       Ok out) /\
    last (out_message out) "" = found_line (out_revenue_data out) /\
    NoDup (urls (out_revenue_data out)).
Proof.
  apply (search_success_reported researcher_two scraped_state [] ["q1"; "q2"] "job-1").
  - reflexivity.
  - intros q [<-|[<-|[]]]; reflexivity.
  - reflexivity.
  - reflexivity.
Defined.

(** Storing the documents of one search: an object among them is in the
    dictionary under its url, with the fields the search gave it and the
    query of this search. *)
Lemma store_documents_stores query documents url o self : forall d h,
  NoDup (urls documents) -> In (url, o) documents ->
  tagged (fun _ _ => True) self h ->
  In (url, Shared o) (fst (store_documents query documents d h)) /\
  snd (store_documents query documents d h) o = dict_set "query" query (fields self o) /\
  tagged (fun _ _ => True) self (snd (store_documents query documents d h)).
Proof.
  induction documents as [|[u x] rest IH]; intros d h Hnd Hin Ht; [destruct Hin|].
  cbn [store_documents]. unfold urls in Hnd. cbn [map fst] in Hnd.
  inversion Hnd as [|? ? Hn Hrest]; subst.
  assert (Ht' : tagged (fun _ _ => True) self (write x (dict_set "query" query (h x)) h))
    by (now apply tagged_step).
  destruct Hin as [Heq|Hin].
  - inversion Heq; subst.
    apply (store_documents_invariant
             (fun d h => In (url, Shared o) d /\
                         h o = dict_set "query" query (fields self o) /\
                         tagged (fun _ _ => True) self h)).
    + intros u' o' r h1 Hin' (Hd & Hh & Ht1).
      split; [|split].
      * apply in_dict_put_other; [|exact Hd]. intros ->. apply Hn.
        apply (in_map fst) in Hin'. exact Hin'.
      * destruct (Nat.eq_dec o o') as [<-|Hne].
        -- rewrite write_same. now apply (tagged_write _ _ _ _ _ Ht1).
        -- now rewrite write_other by exact Hne.
      * now apply tagged_step.
    + split; [apply in_dict_put_same|]. split; [|exact Ht'].
      rewrite write_same. now apply (tagged_write _ _ _ _ _ Ht).
  - now apply IH.
Qed.

(** X20.  The last search wins: an object returned under a url by the
    search for a query is in the dictionary [analyze] returns under this
    url, with the fields the search gave it and this query, when no
    search before it raised and no search after it returned a document
    under the same url or this same object under another. *)
Theorem last_search_wins (self : Researcher) (state : ScanState)
    (log : list ScanEvent) (before after : list string) (query : string)
    (documents : Returned) (url : string) (o : Obj) :
  generate_queries self state query_prompt = Ok (before ++ query :: after)%list ->
  (forall q, In q before ->
             search_fails self (prepared (before ++ query :: after)%list state) q = false) ->
  search_documents self (prepared (before ++ query :: after)%list state) [query]
  = Documents documents ->
  NoDup (urls documents) ->
  In (url, o) documents ->
  (forall q later,
      In q after ->
      search_documents self (prepared (before ++ query :: after)%list state) [q]
      = Documents later ->
      ~ In url (urls later) /\ ~ In o (map snd later)) ->
  In (url, dict_set "query" query (fields self o)) (found_by self state log).
Proof.
  intros Hq Hbefore Hdocs Hnd Hin Hafter.
  set (queries := (before ++ query :: after)%list) in *.
  set (st1 := prepared queries state) in *.
  rewrite (found_by_returns self state log queries Hq). fold st1.
  set (d0 := snd (include_site_scrape st1 [header state] [])).
  unfold queries. rewrite search_all_app.
  rewrite (search_all_succeeds self st1 before d0 (fields self) Hbefore).
  set (d1 := fst (fst (search_all self st1 before d0 (fields self)))).
  set (h1 := snd (fst (search_all self st1 before d0 (fields self)))).
  assert (Ht1 : tagged (fun _ _ => True) self h1).
  { apply (search_all_invariant (fun _ h => tagged (fun _ _ => True) self h)).
    - intros q docs d h _ _.
      apply (store_documents_invariant (fun _ h => tagged (fun _ _ => True) self h)).
      intros u x r h0 _. now apply tagged_step.
    - intros x. now left. }
  cbn [search_all]. rewrite Hdocs.
  assert (Htruthy : truthy_dict documents = true)
    by (destruct documents; [destruct Hin | reflexivity]).
  rewrite Htruthy.
  destruct (store_documents_stores query documents url o self d1 h1 Hnd Hin Ht1)
    as (Hd & Hh & _).
  destruct (store_documents query documents d1 h1) as [d2 h2]. cbn [fst snd] in Hd, Hh.
  assert (Hinv : In (url, Shared o) (fst (fst (search_all self st1 after d2 h2))) /\
                 snd (fst (search_all self st1 after d2 h2)) o
                 = dict_set "query" query (fields self o)).
  { apply (search_all_invariant
             (fun d h => In (url, Shared o) d /\
                         h o = dict_set "query" query (fields self o)));
      [|now split].
    intros q later d h Hq' Hlater Hd'.
    destruct (Hafter q later Hq' Hlater) as [Hu Ho].
    apply (store_documents_invariant
             (fun d h => In (url, Shared o) d /\
                         h o = dict_set "query" query (fields self o)));
      [|exact Hd'].
    intros u x r h0 Hx [Hr Hh0]. split.
    - apply in_dict_put_other; [|exact Hr]. intros ->. apply Hu.
      apply (in_map fst) in Hx. exact Hx.
    - rewrite write_other; [exact Hh0|]. intros ->. apply Ho.
      apply (in_map snd) in Hx. exact Hx. }
  destruct Hinv as [Hr Hh']. unfold read. apply in_map_iff.
  exists (url, Shared o). cbn [fst snd]. rewrite Hh'. now split.
Qed.

Lemma last_search_wins_witness :
  In ("u1", dict_set "query" "q2" (fields researcher_two 2%nat))
     (found_by researcher_two scraped_state []).
Proof.
  apply (last_search_wins researcher_two scraped_state [] ["q1"] [] "q2"
           [("u1", 2%nat); ("u2", 3%nat)] "u1" 2%nat).
  - reflexivity.
  - intros q [<-|[]]. reflexivity.
  - reflexivity.
  - repeat constructor; cbn; intuition discriminate.
  - now left.
  - intros q later [].
Defined.

End ScannerFacts.

Section Pipeline.
Import Editor Spec Notions.

Context {py : Sorting}.

Local Open Scope string_scope.

(** The Compiler when every completion call raises. *)
Lemma compile_content_outage fmt client self_context briefings company w reference_text :
  match references (w_state w) with
  | [] => Ok ""
  | refs => fmt refs (reference_info (w_state w)) (reference_titles (w_state w))
  end = Ok reference_text ->
  (forall call messages, exists e, chat_create client call messages = BackendRaises e) ->
  compile_content fmt client self_context briefings company w
  = (w, Ok (Py.strip (Py.join blank_line (map snd briefings)))).
Proof.
  intros Hfmt Hdown.
  unfold compile_content, bind, get_state, try_except, completion.
  match goal with
  | |- context [chat_create client ?n ?m] => destruct (Hdown n m) as [e ->]
  end.
  assert (Href : match references (w_state w) with
                 | [] => ret ""
                 | r :: l => lift (fmt (r :: l) (reference_info (w_state w))
                                       (reference_titles (w_state w)))
                 end w = (w, Ok reference_text)).
  { destruct (references (w_state w)); unfold ret, lift; now rewrite <- Hfmt. }
  rewrite Href. unfold raise, ret. now rewrite str_or_empty.
Qed.

(** The Normalizer when every streaming call raises. *)
Lemma content_sweep_outage client self_context content company w :
  (forall messages, stream_raises (chat_stream client messages) = true) ->
  exists chunks,
    content_sweep client self_context content company w
    = ({| w_state := w_state w; w_log := (w_log w ++ chunks)%list |},
       Ok (Py.strip content)).
Proof.
  intros Hdown. unfold content_sweep, try_except, bind, completion_stream.
  match goal with
  | |- context [chat_stream client ?m] => pose proof (Hdown m) as H
  end.
  destruct (chat_stream client _) as [e|response]; cbn [stream_raises] in H.
  - exists []. rewrite app_nil_r, str_or_empty. now destruct w.
  - unfold ret at 1.
    destruct (stream_loop_raises response "" "" w H) as (e & chunks & -> & _).
    exists chunks. unfold ret. now rewrite str_or_empty.
Qed.

Lemma edit_report_outage fmt client self_context briefings w reference_text :
  match references (w_state w) with
  | [] => Ok ""
  | refs => fmt refs (reference_info (w_state w)) (reference_titles (w_state w))
  end = Ok reference_text ->
  (forall call messages, exists e, chat_create client call messages = BackendRaises e) ->
  (forall messages, stream_raises (chat_stream client messages) = true) ->
  non_blank (Py.join blank_line (map snd briefings)) = true ->
  exists sent,
    edit_report fmt client self_context briefings w
    = ({| w_state := with_report (Py.strip (Py.join blank_line (map snd briefings)))
                       (w_state w);
          w_log := (w_log w ++ sent)%list |},
       Ok (Py.strip (Py.join blank_line (map snd briefings)))).
Proof.
  intros Hfmt Hcreate Hstream Hnb.
  set (text := Py.strip (Py.join blank_line (map snd briefings))).
  assert (Ht : Py.truthy text = true) by exact Hnb.
  assert (Hi : Py.strip text = text) by (unfold text; apply strip_idempotent).
  unfold edit_report, try_except. unfold bind at 1. unfold send at 1.
  unfold bind at 1.
  match goal with
  | |- context [compile_content fmt client self_context briefings ?c ?w0] =>
      rewrite (compile_content_outage fmt client self_context briefings c w0
                 reference_text Hfmt Hcreate)
  end.
  fold text. rewrite Ht. cbn [negb].
  unfold bind at 1. unfold send at 1. unfold bind at 1. unfold send at 1.
  unfold bind at 1.
  match goal with
  | |- context [content_sweep client self_context text ?c ?w0] =>
      destruct (content_sweep_outage client self_context text c w0 Hstream)
        as [chunks ->]
  end.
  rewrite str_or_empty, !Hi, Ht. cbn [negb].
  unfold bind, update, send, ret. cbn [w_state w_log].
  rewrite !notify_one. rewrite <- !app_assoc.
  eexists. reflexivity.
Qed.

(** The Editor over a state with briefings, when the formatter returns
    and every call to the backend raises. *)
Lemma run_outage fmt client w reference_text :
  available_briefings (w_state w) <> [] ->
  match references (w_state w) with
  | [] => Ok ""
  | refs => fmt refs (reference_info (w_state w)) (reference_titles (w_state w))
  end = Ok reference_text ->
  (forall call messages, exists e, chat_create client call messages = BackendRaises e) ->
  (forall messages, stream_raises (chat_stream client messages) = true) ->
  non_blank (Py.join blank_line (map snd (available_briefings (w_state w)))) = true ->
  exists lines,
    w_state (fst (run fmt client w))
    = mirror_report (Py.strip (Py.join blank_line (map snd (available_briefings (w_state w)))))
        (append_message (editor_message (w_state w) lines)
           (with_report
              (Py.strip (Py.join blank_line (map snd (available_briefings (w_state w)))))
              (w_state w))).
Proof.
  intros Hav Hfmt Hcreate Hstream Hnb.
  set (text := Py.strip (Py.join blank_line (map snd (available_briefings (w_state w))))).
  unfold run. unfold bind at 1. unfold compile_briefings.
  unfold bind at 1. unfold get_state at 1.
  unfold bind at 1. unfold send at 1.
  unfold bind at 1. unfold send at 1.
  fold (announcement (w_state w)). set (first := announcement (w_state w)).
  assert (Hib : fst (collect briefing_keys (w_state w) [] [first])
                = available_briefings (w_state w)) by now rewrite collect_spec.
  assert (Hmsg : exists lines, snd (collect briefing_keys (w_state w) [] [first])
                               = first :: lines).
  { assert (G : forall keys st ib msg, exists more,
               snd (collect keys st ib msg) = (msg ++ more)%list).
    { induction keys as [|c keys IH]; intros st ib msg; cbn [collect].
      - exists []. now rewrite app_nil_r.
      - destruct (Py.truthy _); edestruct (IH st) as [more Hm]; rewrite Hm;
          rewrite <- app_assoc; eexists; reflexivity. }
    destruct (G briefing_keys (w_state w) [] [first]) as [more ->]. now exists more. }
  destruct Hmsg as [lines Hlines].
  destruct (collect briefing_keys (w_state w) [] [first]) as [ib msg].
  cbn [fst snd] in Hib, Hlines. subst msg.
  destruct ib as [|b ib]; [now rewrite <- Hib in Hav|].
  unfold bind at 1. unfold bind at 1. unfold try_except at 1. cbv beta.
  unfold bind at 1.
  match goal with
  | |- context [edit_report fmt client ?c ?bs ?w0] =>
      destruct (edit_report_outage fmt client c bs w0 reference_text) as [sent ->];
        [exact Hfmt | exact Hcreate | exact Hstream | now rewrite Hib |]
  end.
  rewrite Hib. fold text. unfold ret, update, bind, get_state.
  cbn [w_state w_log fst snd].
  exists lines. reflexivity.
Qed.

Lemma available_written (client : Client) (schedule : list nat) (st st' : ResearchState) :
  snd (Briefing.create_briefings client schedule st) = Some (Ok st') ->
  Forall written_by_briefing (map snd (available_briefings st')).
Proof.
  intros H.
  pose proof (fun c => returned_field client schedule st st' c H) as Hf.
  unfold available_briefings. rewrite map_map. cbn [snd].
  apply Forall_forall. intros v Hin. apply in_map_iff in Hin.
  destruct Hin as (c & <- & Hc). apply filter_In in Hc. destruct Hc as [_ Ht].
  destruct (Hf c) as (v & Hv & [Hempty|Hw]); rewrite Hv in Ht |- *; cbn [get_or] in *.
  - subst v. discriminate Ht.
  - exact Hw.
Qed.

Lemma join_truthy sep x l : Py.truthy x = true -> Py.truthy (Py.join sep (x :: l)) = true.
Proof.
  intros H. destruct x; [discriminate|]. cbn [Py.join]. now destruct l.
Qed.

(** X21.  The two stages together, when the Editor has no backend: if
    [create_briefings] returned with at least one briefing and then every
    completion call of the Editor raises, the report the Editor stores is
    the briefings of that state put together, exactly as the Briefing
    stage wrote them: in the order company, industry, financial,
    revenue, with a blank line between two of them and nothing trimmed
    away.  The status is ['editor_complete'] and the ['editor'] entry
    holds the same report. *)
Theorem report_without_editor_backend (client : Client) (schedule : list nat)
    (st st' : ResearchState) (fmt : Formatter) (down : Client)
    (log : list StatusEvent) (reference_text : string) :
  snd (Briefing.create_briefings client schedule st) = Some (Ok st') ->
  available_briefings st' <> [] ->
  match references st' with
  | [] => Ok ""
  | refs => fmt refs (reference_info st') (reference_titles st')
  end = Ok reference_text ->
  (forall call messages, exists e, chat_create down call messages = BackendRaises e) ->
  (forall messages, stream_raises (chat_stream down messages) = true) ->
  report (w_state (fst (run fmt down {| w_state := st'; w_log := log |})))
  = Some (Py.join blank_line (map snd (available_briefings st'))) /\
  status (w_state (fst (run fmt down {| w_state := st'; w_log := log |})))
  = Some "editor_complete" /\
  editor (w_state (fst (run fmt down {| w_state := st'; w_log := log |})))
  = EditorDict (Some (Py.join blank_line (map snd (available_briefings st')))).
Proof.
  intros Hret Hav Hfmt Hcreate Hstream.
  pose proof (available_written client schedule st st' Hret) as Hw.
  pose proof (strip_join_written blank_line _ Hw) as Hstrip.
  assert (Hnb : non_blank (Py.join blank_line (map snd (available_briefings st'))) = true).
  { unfold non_blank. rewrite Hstrip.
    destruct (map snd (available_briefings st')) as [|x l] eqn:E.
    - apply map_eq_nil in E. contradiction.
    - apply join_truthy. inversion Hw as [|? ? [Ht _] _]. exact Ht. }
  destruct (run_outage fmt down {| w_state := st'; w_log := log |} reference_text
              Hav Hfmt Hcreate Hstream Hnb) as [lines ->].
  cbn [w_state]. rewrite Hstrip. repeat split.
Qed.

End Pipeline.

Section PipelineExamples.
Import Editor Spec Notions.

#[local] Existing Instance Sample.as_given.

Local Open Scope string_scope.

Lemma report_without_editor_backend_witness :
  report (w_state (fst (run Sample.fmt_none Sample.client_down
                          {| w_state := Sample2.after_briefing; w_log := [] |})))
  = Some (Py.join blank_line (map snd (available_briefings Sample2.after_briefing))) /\
  status (w_state (fst (run Sample.fmt_none Sample.client_down
                          {| w_state := Sample2.after_briefing; w_log := [] |})))
  = Some "editor_complete" /\
  editor (w_state (fst (run Sample.fmt_none Sample.client_down
                          {| w_state := Sample2.after_briefing; w_log := [] |})))
  = EditorDict (Some (Py.join blank_line
                        (map snd (available_briefings Sample2.after_briefing)))).
Proof.
  apply (report_without_editor_backend Sample.client_ok (Briefing.round_robin 2)
           Sample.example_state Sample2.after_briefing Sample.fmt_none
           Sample.client_down [] "").
  - vm_compute. reflexivity.
  - vm_compute. discriminate.
  - reflexivity.
  - intros call messages. exists BackendError. reflexivity.
  - intros messages. reflexivity.
Defined.

End PipelineExamples.


Section Protocol.
Import Briefing Spec Notions.

Context {py : Sorting}.

Local Open Scope string_scope.

Lemma events_about_app c l1 l2 :
  events_about c (l1 ++ l2) = (events_about c l1 ++ events_about c l2)%list.
Proof. apply filter_app. Qed.

Lemma events_about_of c ws job status msg p :
  events_about c (events_of ws job status msg p)
  = if about c {| ev_job_id := ""; ev_status := status; ev_message := msg; ev_result := p |}
    then events_of ws job status msg p else [].
Proof.
  unfold events_about, events_of, about, event_category.
  destruct (if ws then truthy_job job else None); cbn [filter ev_result];
    destruct p; try reflexivity;
    match goal with |- context [String.eqb ?a ?b] => destruct (String.eqb a b) end;
    reflexivity.
Qed.

Lemma about_start c c' ctx docs :
  events_about c (start_events ctx c' docs)
  = if Category_eq_dec c c' then start_events ctx c' docs else [].
Proof.
  unfold start_events. rewrite events_about_of. unfold about, event_category.
  cbn [ev_result]. destruct (Category_eq_dec c c') as [->|Hne].
  - now rewrite String.eqb_refl.
  - destruct (String.eqb_spec (cat c') (cat c)) as [E|_]; [|reflexivity].
    apply cat_injective in E. congruence.
Qed.

Lemma about_complete c c' ctx :
  events_about c (complete_events ctx c')
  = if Category_eq_dec c c' then complete_events ctx c' else [].
Proof.
  unfold complete_events. rewrite events_about_of. unfold about, event_category.
  cbn [ev_result]. destruct (Category_eq_dec c c') as [->|Hne].
  - now rewrite String.eqb_refl.
  - destruct (String.eqb_spec (cat c') (cat c)) as [E|_]; [|reflexivity].
    apply cat_injective in E. congruence.
Qed.

Lemma briefing_start_events docs c ctx log :
  briefing_start docs (cat c) ctx log = (log ++ start_events ctx c docs)%list.
Proof. unfold briefing_start. apply notify_one. Qed.

Lemma briefing_answer_events c ctx resp log :
  fst (briefing_answer (cat c) ctx resp log)
  = (log ++ if Py.truthy (result_content (snd (briefing_answer (cat c) ctx resp log)))
            then complete_events ctx c else [])%list.
Proof.
  unfold briefing_answer. destruct resp as [e|[text|]]; cbn [fst snd result_content Py.truthy];
    try (now rewrite app_nil_r).
  destruct (Py.truthy (Py.strip text)) eqn:E; cbn [fst snd result_content].
  - rewrite E. apply notify_one.
  - now rewrite app_nil_r.
Qed.

Variable client : Client.
Variable ctx : Context.
Variable tasks : list Task.
Hypothesis distinct : NoDup (map category tasks).

Lemma step_protocol i o o' :
  step client ctx tasks i o = Some o' -> in_protocol ctx tasks o -> in_protocol ctx tasks o'.
Proof.
  intros Hstep Hinv.
  destruct (step_others client ctx tasks i o o' Hstep) as (_ & Hothers & _).
  unfold step in Hstep.
  destruct (nth_error tasks i) as [ti|] eqn:Eti; [|discriminate].
  destruct (nth_error (pcs o) i) as [pi|] eqn:Epi; [|discriminate].
  pose proof (Hinv i ti pi Eti Epi) as Hi.
  assert (Hgen : forall p1 emitted,
            nth_error (pcs o') i = Some p1 ->
            o_log o' = (o_log o ++ emitted)%list ->
            (forall c, c <> category ti -> events_about c emitted = []) ->
            (events_at pi ctx (category ti) (curated_data ti)
             ++ events_about (category ti) emitted)%list
            = events_at p1 ctx (category ti) (curated_data ti) ->
            in_protocol ctx tasks o').
  { intros p1 emitted Hp1 Hlog Hquiet Hnew j task p Ht Hp.
    rewrite Hlog, events_about_app. destruct (Nat.eq_dec j i) as [->|Hne].
    - rewrite Eti in Ht. injection Ht as <-. rewrite Hp1 in Hp. injection Hp as <-.
      now rewrite Hi.
    - rewrite (Hothers j Hne) in Hp. rewrite (Hinv j task p Ht Hp).
      rewrite Hquiet; [apply app_nil_r|].
      exact (distinct_categories tasks distinct j i task ti Ht Eti Hne). }
  assert (Hset : forall p1, nth_error (set_nth i p1 (pcs o)) i = Some p1)
    by (intros p1; exact (nth_error_set_nth_eq i _ _ _ Epi)).
  destruct pi; try discriminate.
  - destruct (semaphore o); [discriminate|]. injection Hstep as <-.
    apply (Hgen Entered []); cbn [pcs o_log events_at events_about filter app];
      [apply Hset | now rewrite app_nil_r | reflexivity | reflexivity].
  - rewrite briefing_start_events in Hstep.
    assert (Hq : forall c, c <> category ti ->
               events_about c (start_events ctx (category ti) (curated_data ti)) = []).
    { intros c Hc. rewrite about_start. now destruct (Category_eq_dec c (category ti)). }
    assert (Hs : events_about (category ti)
                   (start_events ctx (category ti) (curated_data ti))
                 = start_events ctx (category ti) (curated_data ti)).
    { rewrite about_start. now destruct (Category_eq_dec (category ti) (category ti)). }
    destruct (briefing_prompt _ _ _); injection Hstep as <-.
    + apply (Hgen (InFlight a) (start_events ctx (category ti) (curated_data ti)));
        cbn [pcs o_log events_at app]; auto.
    + apply (Hgen (Crashed e) (start_events ctx (category ti) (curated_data ti)));
        cbn [pcs o_log events_at app]; auto.
  - pose proof (briefing_answer_events (category ti) ctx
                  (chat_create client i [("user", prompt)]) (o_log o)) as Hlog.
    destruct (briefing_answer (cat (category ti)) ctx
                (chat_create client i [("user", prompt)]) (o_log o)) as [log2 r].
    cbn [fst snd] in Hlog. injection Hstep as <-.
    apply (Hgen (Responded r)
             (if Py.truthy (result_content r)
              then complete_events ctx (category ti) else []));
      cbn [pcs o_log events_at].
    + apply Hset.
    + exact Hlog.
    + intros c Hc. destruct (Py.truthy (result_content r)); [|reflexivity].
      rewrite about_complete. now destruct (Category_eq_dec c (category ti)).
    + f_equal. destruct (Py.truthy (result_content r)); [|reflexivity].
      rewrite about_complete. now destruct (Category_eq_dec (category ti) (category ti)).
  - cbn [events_at] in Hi.
    destruct (Py.truthy (result_content r)) eqn:Et; injection Hstep as <-.
    + apply (Hgen (Finished true (Py.len (result_content r))) []);
        cbn [pcs o_log events_at events_about filter];
        [apply Hset | now rewrite app_nil_r | reflexivity | now rewrite Et, app_nil_r].
    + apply (Hgen (Finished false 0) []);
        cbn [pcs o_log events_at events_about filter];
        [apply Hset | now rewrite app_nil_r | reflexivity | now rewrite Et, app_nil_r].
Qed.

Lemma reachable_protocol o0 o :
  reachable client ctx tasks o0 o -> in_protocol ctx tasks o0 -> in_protocol ctx tasks o.
Proof.
  induction 1 as [o|o o1 o2 i _ IH Hstep]; intros H0; [exact H0|].
  exact (step_protocol i o1 o2 Hstep (IH H0)).
Qed.

End Protocol.

Section EventOrder.
Import Briefing Spec Notions.

Context {py : Sorting}.

Local Open Scope string_scope.

Lemma start_in_protocol st :
  in_protocol (fst (fst (start st))) (snd (fst (start st))) (snd (start st)).
Proof.
  unfold start. destruct (plan categories st []) as [st1 tasks]. cbn [fst snd].
  intros j task p _ Hp. unfold enter_gather in *. cbn [pcs o_log] in *.
  apply nth_error_In, in_map_iff in Hp. destruct Hp as (? & <- & _).
  rewrite notify_one. cbn [app]. rewrite events_about_of. reflexivity.
Qed.

Lemma events_about_none c log :
  (forall e, In e log -> event_category e <> Some (cat c)) -> events_about c log = [].
Proof.
  intros H. induction log as [|e log IH]; [reflexivity|].
  unfold events_about in *. cbn [filter].
  assert (He : about c e = false).
  { unfold about. pose proof (H e (or_introl eq_refl)) as Hne.
    destruct (event_category e) as [k|]; [|reflexivity].
    destruct (String.eqb_spec k (cat c)); [congruence | reflexivity]. }
  rewrite He. apply IH. intros e' Hin. apply H. now right.
Qed.

(** X22.  The events of one category, under every interleaving: when
    [create_briefings] returns, the events of its log that name a
    category are, in this order, the start event of the category's
    briefing, with the number of its documents, and then the completion
    event if and only if the briefing stored for the category is not
    empty; each at most once, whatever the schedule and however the
    events of the other categories fall between them.  A category
    without documents is named by no event. *)
Theorem briefing_events_in_order (client : Client) (schedule : list nat)
    (st st' : ResearchState) (c : Category) :
  snd (create_briefings client schedule st) = Some (Ok st') ->
  events_about c (fst (create_briefings client schedule st))
  = if docs_truthy (curated st c)
    then (start_events (make_context st) c (curated st c)
          ++ if Py.truthy (get_or (get_briefing c st') "")
             then complete_events (make_context st) c else [])%list
    else [].
Proof.
  intros H.
  destruct (returned_run client schedule st st' H) as (-> & Hall & Hlen & Hnd & Hrec).
  rewrite create_briefings_unfold. cbn [fst]. rewrite get_briefing_set_briefings.
  pose proof (start_tasks st) as [Htasks Hctx].
  pose proof (reachable_protocol client _ _ (start_distinct st) _ _
                (run_schedule_reachable client (fst (fst (start st)))
                   (snd (fst (start st))) schedule (snd (start st)))
                (start_in_protocol st)) as Hproto.
  destruct (docs_truthy (curated st c)) eqn:Ed.
  - assert (Hin : In {| category := c; curated_data := curated st c |}
                    (snd (fst (start st)))).
    { rewrite Htasks. apply in_map_iff. exists c. split; [reflexivity|].
      apply filter_In. split; [apply all_categories | exact Ed]. }
    destruct (finished_task _ _ _ Hlen Hall Hin) as (j & success & n & Hj & Ep).
    pose proof (Hproto j _ _ Hj Ep) as Hev. cbn [category curated_data events_at] in Hev.
    pose proof (proj1 (Hrec j _ _ Hj Ep)) as Hr. cbn [category] in Hr.
    assert (Ht : Py.truthy
                   (get_or (get_briefing c
                              (o_state (run_schedule client (fst (fst (start st)))
                                          (snd (fst (start st))) schedule
                                          (snd (start st))))) "")
                 = success).
    { destruct success; cbn [result_recorded] in Hr.
      - destruct Hr as (v & Hv & [Ht _] & _). rewrite Hv. exact Ht.
      - destruct Hr as [Hv _]. rewrite Hv. reflexivity. }
    rewrite Hev, Ht, Hctx. reflexivity.
  - destruct (skipped_category client st schedule c
                (fst (fst (start st))) (snd (fst (start st))) (snd (start st))
                Ed (start_triple st)) as (_ & _ & _ & Hlog & _).
    now apply events_about_none.
Qed.

End EventOrder.

Section EventOrderExamples.
Import Briefing Spec Notions.

#[local] Existing Instance Sample.as_given.

Local Open Scope string_scope.

Lemma briefing_events_in_order_witness :
  events_about Company
    (fst (create_briefings Sample.client_ok (round_robin 2) Sample.example_state))
  = if docs_truthy (curated Sample.example_state Company)
    then (start_events (make_context Sample.example_state) Company
            (curated Sample.example_state Company)
          ++ if Py.truthy (get_or (get_briefing Company Sample2.after_briefing) "")
             then complete_events (make_context Sample.example_state) Company else [])%list
    else [].
Proof.
  apply (briefing_events_in_order Sample.client_ok (round_robin 2) Sample.example_state
           Sample2.after_briefing Company).
  vm_compute. reflexivity.
Defined.

End EventOrderExamples.

